(** * EA-Link-CB: the extraction engine of [xml_analyzer_gui.py]

    A shallow embedding of class [EAXMLAnalyzer] (lines 12-639 of
    [src/xml_analyzer_gui.py]) and the properties of its specification.

    Conventions.
    - A Python value that is [None] or a [str] is an [option string]
      ([ostr]); [a or b] is [por a b] (the empty string and [None] are
      falsy).
    - An [xml.etree.ElementTree.Element] is a [node]: tag, attribute
      dictionary, text, children, and [ident], the value of [id(node)].
    - A Python [dict] is an association list in insertion order
      ([dict_set] overwrites in place, or appends).
    - Code that can raise runs in the state-and-exception monad [SE]: the
      state survives a raised exception, as the mutated Python objects do.
    - Library functions that are not part of the repository (the expat
      parser, the strict base64 decoder, the cp1252 and utf-16 codecs) are
      [Variable]s of a [Section]. *)

From Stdlib Require Import List String Ascii Bool Arith NArith Lia Permutation.
From Stdlib Require Import DecimalString.
Import ListNotations.
Open Scope string_scope.
Open Scope list_scope.

(* ================================================================== *)
(** ** Python values, exceptions and the state-and-exception monad     *)
(* ================================================================== *)

Module Py.

(** [None] or a [str]. *)
Definition ostr := option string.

(** [bool(v)]: [None] and [''] are falsy. *)
Definition truthy (v : ostr) : bool :=
  match v with
  | Some s => negb (String.eqb s "")
  | None => false
  end.

(** [a or b]. *)
Definition por (a b : ostr) : ostr := if truthy a then a else b.

Definition ostr_eqb (a b : ostr) : bool :=
  match a, b with
  | Some x, Some y => String.eqb x y
  | None, None => true
  | _, _ => false
  end.

(** The exceptions the engine meets.  [Fault] stands for any other
    subclass of [Exception]. *)
Inductive exn :=
| SyntaxError (msg : string)
| ParseError (msg : string)
| ValueError (msg : string)
| OSError (msg : string)
| Fault (msg : string).

(** [str(e)]. *)
Definition exn_str (e : exn) : string :=
  match e with
  | SyntaxError m | ParseError m | ValueError m | OSError m | Fault m => m
  end.

Inductive result (A : Type) :=
| Ok (a : A)
| Raise (e : exn).
Arguments Ok {A} a.
Arguments Raise {A} e.

(** A computation over a mutable object of type [S]; the object keeps
    the mutations done before an exception is raised. *)
Definition SE (S A : Type) : Type := S -> S * result A.

Definition ret {S A} (a : A) : SE S A := fun s => (s, Ok a).
Definition raise {S A} (e : exn) : SE S A := fun s => (s, Raise e).
Definition bind {S A B} (m : SE S A) (f : A -> SE S B) : SE S B :=
  fun s =>
    match m s with
    | (s', Ok a) => f a s'
    | (s', Raise e) => (s', Raise e)
    end.
Definition modify {S} (f : S -> S) : SE S unit := fun s => (f s, Ok tt).
Definition lift {S A} (r : result A) : SE S A := fun s => (s, r).

(** [try: body  except Exception as e: handler(e)]. *)
Definition try_except {S A} (body : SE S A) (handler : exn -> SE S A) : SE S A :=
  fun s =>
    match body s with
    | (s', Ok a) => (s', Ok a)
    | (s', Raise e) => handler e s'
    end.

(** [for x in xs: body(x)]. *)
Fixpoint for_each {S X} (xs : list X) (body : X -> SE S unit) : SE S unit :=
  match xs with
  | [] => ret tt
  | x :: xs' => bind (body x) (fun _ => for_each xs' body)
  end.

(** Binding a plain [result] (no object is mutated). *)
Definition rbind {A B} (r : result A) (f : A -> result B) : result B :=
  match r with
  | Ok a => f a
  | Raise e => Raise e
  end.

End Py.
Import Py.

Declare Scope se_scope.
Delimit Scope se_scope with se.
Notation "x <- m ;; k" := (bind m (fun x => k))
  (at level 61, m at next level, right associativity) : se_scope.
Notation "m ;;; k" := (bind m (fun _ => k))
  (at level 61, right associativity) : se_scope.
Notation "x <~ r ;; k" := (rbind r (fun x => k))
  (at level 61, r at next level, right associativity) : se_scope.
Infix "|or|" := por (at level 50, left associativity).
Infix "^^" := String.append (at level 60, right associativity).

(* ================================================================== *)
(** ** Strings                                                         *)
(* ================================================================== *)

Module Str.

Definition code (c : ascii) : nat := nat_of_ascii c.

Definition in_range (lo hi : nat) (c : ascii) : bool :=
  Nat.leb lo (code c) && Nat.leb (code c) hi.

Definition is_upper (c : ascii) : bool := in_range 65 90 c.

(** [str.lower()] on the characters that can reach an ASCII keyword:
    [A]-[Z] go to [a]-[z], every other character is kept. *)
Definition lower_char (c : ascii) : ascii :=
  if is_upper c then ascii_of_nat (code c + 32) else c.

Fixpoint lower (s : string) : string :=
  match s with
  | EmptyString => EmptyString
  | String c s' => String (lower_char c) (lower s')
  end.

(** [sub in s]. *)
Fixpoint contains (sub s : string) : bool :=
  prefix sub s ||
  match s with
  | EmptyString => false
  | String _ s' => contains sub s'
  end.

(** [s.split(sep)[-1]] for a one-character separator: what follows the
    last [sep], the whole string when there is none. *)
Fixpoint after_last (sep : ascii) (s : string) : string :=
  match s with
  | EmptyString => EmptyString
  | String c s' =>
      if Ascii.eqb c sep then after_last sep s'
      else if contains (String sep EmptyString) s' then after_last sep s'
      else s
  end.

(** Whitespace of [str.strip()] among the 8-bit characters. *)
Definition is_space (c : ascii) : bool :=
  in_range 9 13 c || in_range 28 32 c || Nat.eqb (code c) 133 || Nat.eqb (code c) 160.

Fixpoint lstrip (s : string) : string :=
  match s with
  | EmptyString => EmptyString
  | String c s' => if is_space c then lstrip s' else s
  end.

Fixpoint rstrip (s : string) : string :=
  match s with
  | EmptyString => EmptyString
  | String c s' =>
      match rstrip s' with
      | EmptyString => if is_space c then EmptyString else String c EmptyString
      | r => String c r
      end
  end.

(** [s.strip()]. *)
Definition strip (s : string) : string := rstrip (lstrip s).

(** [s in xs] for a list of strings. *)
Definition mem (s : string) (xs : list string) : bool :=
  existsb (String.eqb s) xs.

(** [all(p(c) for c in s)]. *)
Fixpoint all (p : ascii -> bool) (s : string) : bool :=
  match s with
  | EmptyString => true
  | String c s' => p c && all p s'
  end.

(** What precedes the first [sep]; [None] when [sep] does not occur. *)
Fixpoint before_first (sep : ascii) (s : string) : option string :=
  match s with
  | EmptyString => None
  | String c s' =>
      if Ascii.eqb c sep then Some EmptyString
      else option_map (String c) (before_first sep s')
  end.

End Str.

(* ================================================================== *)
(** ** Dictionaries and counters                                       *)
(* ================================================================== *)

Section Dict.
Context {V : Type}.

(** A [dict] keyed by [None] or a string, in insertion order. *)
Definition dict := list (ostr * V).

Fixpoint dict_get (k : ostr) (d : dict) : option V :=
  match d with
  | [] => None
  | (k', v) :: d' => if ostr_eqb k k' then Some v else dict_get k d'
  end.

(** [k in d]. *)
Definition dict_mem (k : ostr) (d : dict) : bool :=
  match dict_get k d with Some _ => true | None => false end.

(** [d[k] = v]: an existing key keeps its place. *)
Fixpoint dict_set (k : ostr) (v : V) (d : dict) : dict :=
  match d with
  | [] => [(k, v)]
  | (k', v') :: d' =>
      if ostr_eqb k k' then (k', v) :: d' else (k', v') :: dict_set k v d'
  end.

(** [d[k] = f(d[k])] for a key that is present; nothing otherwise. *)
Fixpoint dict_update (k : ostr) (f : V -> V) (d : dict) : dict :=
  match d with
  | [] => []
  | (k', v') :: d' =>
      if ostr_eqb k k' then (k', f v') :: d' else (k', v') :: dict_update k f d'
  end.

Definition dict_keys (d : dict) : list ostr := map fst d.

End Dict.
Arguments dict V : clear implicits.

(** [collections.Counter]: a missing key counts [0]. *)
Definition Counter := dict nat.

Definition counter_get (k : ostr) (c : Counter) : nat :=
  match dict_get k c with Some n => n | None => 0 end.

(** [c[k] += 1]. *)
Definition counter_incr (k : ostr) (c : Counter) : Counter :=
  dict_set k (counter_get k c + 1) c.

(** [s.add(x)] on a [set] of strings. *)
Definition set_add (x : string) (s : list string) : list string :=
  if Str.mem x s then s else s ++ [x].

(* ================================================================== *)
(** ** ElementTree                                                     *)
(* ================================================================== *)

Module ET.

#[local] Set Warnings "-register-all".

(** An [Element].  [ident] is [id(element)], the address of the
    object. *)
Inductive node : Type :=
  Element {
    tag : string;
    attrib : list (string * string);
    text : option string;
    children : list node;
    ident : N
  }.

(** [elem.get(key)]. *)
Fixpoint assoc (key : string) (l : list (string * string)) : ostr :=
  match l with
  | [] => None
  | (k, v) :: l' => if String.eqb k key then Some v else assoc key l'
  end.

Definition get (e : node) (key : string) : ostr := assoc key (attrib e).

(** [elem.get(key, default)]. *)
Definition get_default (e : node) (key default : string) : ostr :=
  match get e key with
  | Some v => Some v
  | None => Some default
  end.

(** [elem.iter()]: the element and its descendants in document order. *)
Fixpoint iter (e : node) : list node :=
  match e with
  | Element _ _ _ cs _ => e :: flat_map iter cs
  end.

Definition descendants (e : node) : list node := flat_map iter (children e).

Definition has_tag (t : string) (e : node) : bool := String.eqb (tag e) t.

(** The steps of the paths the engine uses, after the leading [.]:
    [/t] and [//t]. *)
Inductive step :=
| Child (t : string)
| Desc (t : string).

Definition path := list step.

Definition step_tag (s : step) : string :=
  match s with Child t | Desc t => t end.

(** [ElementPath.prepare_child] and [prepare_descendant]. *)
Definition select_step (s : step) (ctx : list node) : list node :=
  match s with
  | Child t => flat_map (fun e => filter (has_tag t) (children e)) ctx
  | Desc t => flat_map (fun e => filter (has_tag t) (descendants e)) ctx
  end.

Definition select (p : path) (e : node) : list node :=
  fold_left (fun ctx s => select_step s ctx) p [e].

(** [ElementPath.xpath_tokenizer] without a prefix map.  For a tag that
    does not start with [{] and holds a colon the tokenizer splits off
    the prefix and looks it up:
    [if not namespaces: raise KeyError], and then
    [except KeyError: raise SyntaxError("prefix %r not found in prefix map")].
    The engine never passes a prefix map, so every such tag has an
    unknown prefix. *)
Definition unknown_prefix (t : string) : option string :=
  match t with
  | EmptyString => None
  | String c _ =>
      if Ascii.eqb c "{"%char then None else Str.before_first ":"%char t
  end.

Fixpoint first_unknown_prefix (p : path) : option string :=
  match p with
  | [] => None
  | s :: p' =>
      match unknown_prefix (step_tag s) with
      | Some pre => Some pre
      | None => first_unknown_prefix p'
      end
  end.

(** [elem.findall(path)], no [namespaces] argument: the path is
    tokenized and compiled before any node is visited, so a prefixed tag
    anywhere in it raises [SyntaxError], whatever the tree holds. *)
Definition findall (e : node) (p : path) : result (list node) :=
  match first_unknown_prefix p with
  | Some pre =>
      Raise (SyntaxError ("prefix '" ^^ pre ^^ "' not found in prefix map"))
  | None => Ok (select p e)
  end.

(** [elem.find(path)]: the first match or [None]. *)
Definition find (e : node) (p : path) : result (option node) :=
  match findall e p with
  | Ok l => Ok (hd_error l)
  | Raise x => Raise x
  end.

(** The truth value of the result of [find].  [None] is falsy, and so
    is an element without child elements: [Element.__bool__] returns
    [len(self._children) != 0] (with a warning that asks for
    [len(elem)] or [elem is not None] instead). *)
Definition elem_bool (o : option node) : bool :=
  match o with
  | Some e => match children e with [] => false | _ :: _ => true end
  | None => false
  end.

End ET.
Import ET.

(** [elem.find(p1) or elem.find(p2)]: the second search is made only
    when the result of the first is falsy. *)
Definition find_or (e : node) (p1 p2 : path) : result (option node) :=
  (a <~ find e p1 ;;
   if elem_bool a then Ok a else find e p2)%se.

(** [text or '']. *)
Definition text_or_empty (t : option string) : string :=
  match por t (Some "") with Some s => s | None => "" end.

(** [_extract_notes], lines 617-622. *)
Definition _extract_notes (element : node) : result string :=
  (notes_elem <~ find_or element [Desc "Notes"] [Desc "Documentation"] ;;
   match notes_elem with
   | Some ne => Ok (text_or_empty (text ne))
   | None =>
       Ok (match get_default element "Notes" "" with
           | Some s => s
           | None => ""
           end)
   end)%se.

(* ================================================================== *)
(** ** The extracted model                                             *)
(* ================================================================== *)

(** [str(n)] for a non-negative integer. *)
Definition str_of_N (n : N) : string := NilZero.string_of_uint (N.to_uint n).

(** How an f-string shows a value that is [None] or a [str]. *)
Definition fmt (v : ostr) : string :=
  match v with Some s => s | None => "None" end.

(** How an f-string shows a [bool]. *)
Definition fmt_bool (b : bool) : string := if b then "True" else "False".

(** [v == 'true'] for the result of [get]. *)
Definition is_true_str (v : ostr) : bool := ostr_eqb v (Some "true").

Record attr_info := {
  attr_id : ostr; attr_name : ostr; attr_type : ostr; attr_visibility : ostr;
  attr_static : bool; attr_default : ostr; attr_notes : string;
  attr_stereotype : ostr
}.

Record param_info := {
  param_name : ostr; param_type : ostr; param_kind : ostr; param_default : ostr
}.

Record op_info := {
  op_id : ostr; op_name : ostr; op_type : ostr; op_visibility : ostr;
  op_static : bool; op_abstract : bool; op_notes : string;
  op_stereotype : ostr; op_parameters : list param_info
}.

Record tag_info := { tv_name : ostr; tv_value : ostr; tv_notes : string }.

Record pkg_info := {
  pkg_id : ostr; pkg_name : ostr; pkg_parent_id : ostr; pkg_stereotype : ostr;
  pkg_notes : string; pkg_created : ostr; pkg_modified : ostr;
  pkg_author : ostr; pkg_version : ostr;
  pkg_elements : list ostr; pkg_sub_packages : list ostr
}.

Record elem_info := {
  el_id : ostr; el_name : ostr; el_type : ostr; el_package_id : ostr;
  el_stereotype : ostr; el_notes : string; el_abstract : bool;
  el_visibility : ostr; el_created : ostr; el_modified : ostr;
  el_author : ostr; el_version : ostr; el_complexity : ostr; el_status : ostr;
  el_attributes : list attr_info; el_operations : list op_info;
  el_tagged_values : list tag_info
}.

Record diag_elem_info := {
  de_element_id : ostr; de_geometry : ostr; de_style : ostr; de_left : ostr;
  de_top : ostr; de_right : ostr; de_bottom : ostr; de_sequence : ostr
}.

Record diag_info := {
  dg_id : ostr; dg_name : ostr; dg_type : ostr; dg_package_id : ostr;
  dg_author : ostr; dg_created : ostr; dg_modified : ostr; dg_version : ostr;
  dg_notes : string; dg_elements : list diag_elem_info;
  dg_has_image : bool; dg_image_data : ostr; dg_image_format : ostr;
  dg_style_ex : ostr; dg_swim_lanes : ostr; dg_scale : ostr
}.

Record role_info := {
  role_name : ostr; role_multiplicity : ostr; role_visibility : ostr
}.

Record conn_info := {
  cn_id : ostr; cn_name : ostr; cn_type : ostr; cn_source_id : ostr;
  cn_target_id : ostr; cn_direction : ostr; cn_stereotype : ostr;
  cn_notes : string; cn_source_role : option role_info;
  cn_target_role : option role_info
}.

(** [self.stats]. *)
Record stats_t := {
  total_packages : nat; total_elements : nat; total_diagrams : nat;
  total_connectors : nat; element_types : Counter; diagram_types : Counter;
  connector_types : Counter
}.

(** The analyzer object; [stdout] holds the lines printed so far. *)
Record analyzer := {
  packages : dict pkg_info;
  elements : dict elem_info;
  diagrams : dict diag_info;
  connectors : dict conn_info;
  tagged_values : dict (list tag_info);
  model_info : dict ostr;
  authors : list string;
  versions : list string;
  stats : stats_t;
  stdout : list string
}.

(** [reset], lines 16-39 (printed lines are kept: they are not a field of
    the Python object). *)
Definition reset (out : list string) : analyzer :=
  {| packages := []; elements := []; diagrams := []; connectors := [];
     tagged_values := []; model_info := []; authors := []; versions := [];
     stats := {| total_packages := 0; total_elements := 0;
                 total_diagrams := 0; total_connectors := 0;
                 element_types := []; diagram_types := [];
                 connector_types := [] |};
     stdout := out |}.

Definition with_packages (f : dict pkg_info -> dict pkg_info) (a : analyzer) :=
  {| packages := f (packages a); elements := elements a; diagrams := diagrams a;
     connectors := connectors a; tagged_values := tagged_values a;
     model_info := model_info a; authors := authors a; versions := versions a;
     stats := stats a; stdout := stdout a |}.

Definition with_elements (f : dict elem_info -> dict elem_info) (a : analyzer) :=
  {| packages := packages a; elements := f (elements a); diagrams := diagrams a;
     connectors := connectors a; tagged_values := tagged_values a;
     model_info := model_info a; authors := authors a; versions := versions a;
     stats := stats a; stdout := stdout a |}.

Definition with_diagrams (f : dict diag_info -> dict diag_info) (a : analyzer) :=
  {| packages := packages a; elements := elements a; diagrams := f (diagrams a);
     connectors := connectors a; tagged_values := tagged_values a;
     model_info := model_info a; authors := authors a; versions := versions a;
     stats := stats a; stdout := stdout a |}.

Definition with_connectors (f : dict conn_info -> dict conn_info) (a : analyzer) :=
  {| packages := packages a; elements := elements a; diagrams := diagrams a;
     connectors := f (connectors a); tagged_values := tagged_values a;
     model_info := model_info a; authors := authors a; versions := versions a;
     stats := stats a; stdout := stdout a |}.

Definition with_tagged_values
  (f : dict (list tag_info) -> dict (list tag_info)) (a : analyzer) :=
  {| packages := packages a; elements := elements a; diagrams := diagrams a;
     connectors := connectors a; tagged_values := f (tagged_values a);
     model_info := model_info a; authors := authors a; versions := versions a;
     stats := stats a; stdout := stdout a |}.

Definition with_model_info (f : dict ostr -> dict ostr) (a : analyzer) :=
  {| packages := packages a; elements := elements a; diagrams := diagrams a;
     connectors := connectors a; tagged_values := tagged_values a;
     model_info := f (model_info a); authors := authors a; versions := versions a;
     stats := stats a; stdout := stdout a |}.

Definition with_authors (f : list string -> list string) (a : analyzer) :=
  {| packages := packages a; elements := elements a; diagrams := diagrams a;
     connectors := connectors a; tagged_values := tagged_values a;
     model_info := model_info a; authors := f (authors a); versions := versions a;
     stats := stats a; stdout := stdout a |}.

Definition with_versions (f : list string -> list string) (a : analyzer) :=
  {| packages := packages a; elements := elements a; diagrams := diagrams a;
     connectors := connectors a; tagged_values := tagged_values a;
     model_info := model_info a; authors := authors a; versions := f (versions a);
     stats := stats a; stdout := stdout a |}.

Definition with_stats (f : stats_t -> stats_t) (a : analyzer) :=
  {| packages := packages a; elements := elements a; diagrams := diagrams a;
     connectors := connectors a; tagged_values := tagged_values a;
     model_info := model_info a; authors := authors a; versions := versions a;
     stats := f (stats a); stdout := stdout a |}.

Definition with_stdout (f : list string -> list string) (a : analyzer) :=
  {| packages := packages a; elements := elements a; diagrams := diagrams a;
     connectors := connectors a; tagged_values := tagged_values a;
     model_info := model_info a; authors := authors a; versions := versions a;
     stats := stats a; stdout := f (stdout a) |}.

Definition incr_total_packages (s : stats_t) :=
  {| total_packages := total_packages s + 1; total_elements := total_elements s;
     total_diagrams := total_diagrams s; total_connectors := total_connectors s;
     element_types := element_types s; diagram_types := diagram_types s;
     connector_types := connector_types s |}.

Definition incr_total_elements (s : stats_t) :=
  {| total_packages := total_packages s; total_elements := total_elements s + 1;
     total_diagrams := total_diagrams s; total_connectors := total_connectors s;
     element_types := element_types s; diagram_types := diagram_types s;
     connector_types := connector_types s |}.

Definition incr_total_diagrams (s : stats_t) :=
  {| total_packages := total_packages s; total_elements := total_elements s;
     total_diagrams := total_diagrams s + 1; total_connectors := total_connectors s;
     element_types := element_types s; diagram_types := diagram_types s;
     connector_types := connector_types s |}.

Definition incr_total_connectors (s : stats_t) :=
  {| total_packages := total_packages s; total_elements := total_elements s;
     total_diagrams := total_diagrams s; total_connectors := total_connectors s + 1;
     element_types := element_types s; diagram_types := diagram_types s;
     connector_types := connector_types s |}.

Definition incr_element_type (k : ostr) (s : stats_t) :=
  {| total_packages := total_packages s; total_elements := total_elements s;
     total_diagrams := total_diagrams s; total_connectors := total_connectors s;
     element_types := counter_incr k (element_types s);
     diagram_types := diagram_types s; connector_types := connector_types s |}.

Definition incr_diagram_type (k : ostr) (s : stats_t) :=
  {| total_packages := total_packages s; total_elements := total_elements s;
     total_diagrams := total_diagrams s; total_connectors := total_connectors s;
     element_types := element_types s;
     diagram_types := counter_incr k (diagram_types s);
     connector_types := connector_types s |}.

Definition incr_connector_type (k : ostr) (s : stats_t) :=
  {| total_packages := total_packages s; total_elements := total_elements s;
     total_diagrams := total_diagrams s; total_connectors := total_connectors s;
     element_types := element_types s; diagram_types := diagram_types s;
     connector_types := counter_incr k (connector_types s) |}.

(** [print(line)]. *)
Definition print (line : string) : SE analyzer unit :=
  modify (with_stdout (fun out => out ++ [line])).

(** [if v: self.authors.add(v)] and the same for versions. *)
Definition track_author (v : ostr) (a : analyzer) : analyzer :=
  match v with
  | Some s => if truthy v then with_authors (set_add s) a else a
  | None => a
  end.

Definition track_version (v : ostr) (a : analyzer) : analyzer :=
  match v with
  | Some s => if truthy v then with_versions (set_add s) a else a
  | None => a
  end.

(** [elem.tag.split('}')[-1]]. *)
Definition local_name (e : node) : string := Str.after_last "}"%char (tag e).

(** [elem.tag.split('}')[-1].lower()]. *)
Definition tag_name (e : node) : string := Str.lower (local_name e).

(* ================================================================== *)
(** ** Entity extractors                                               *)
(* ================================================================== *)

(** Run a computation over a local object inside a method of the
    analyzer; an exception propagates (the local object is then out of
    reach). *)
Definition on_local {L} (m : SE L unit) (l : L) : SE analyzer L :=
  fun self =>
    match m l with
    | (l', Ok _) => (self, Ok l')
    | (_, Raise e) => (self, Raise e)
    end.

(** The loop of lines 160-175, with its [break]. *)
Fixpoint model_info_loop (model_candidates : list node) (mi : dict ostr)
  : dict ostr :=
  match model_candidates with
  | [] => mi
  | elem :: rest =>
      if String.eqb (tag_name elem) "documentation" && truthy (text elem) then
        model_info_loop rest (dict_set (Some "documentation") (text elem) mi)
      else if String.eqb (tag_name elem) "model" then
        dict_set (Some "modified") (get elem "Modified" |or| get elem "modified")
       (dict_set (Some "created") (get elem "Created" |or| get elem "created")
       (dict_set (Some "type")
          (get elem "Type" |or| get elem "type" |or| Some "UML Model")
       (dict_set (Some "id")
          (get elem "xmi.id" |or| get elem "id" |or| get elem "Id")
       (dict_set (Some "name")
          (get elem "name" |or| get elem "Name" |or| get elem "xmi.name"
           |or| Some "Unnamed Model") mi))))
      else model_info_loop rest mi
  end.

(** [self.model_info.get('name')]. *)
Definition model_info_name (mi : dict ostr) : ostr :=
  match dict_get (Some "name") mi with
  | Some v => v
  | None => None
  end.

(** [_extract_model_info], lines 145-186. *)
Definition _extract_model_info (root : node) : SE analyzer unit :=
  try_except
    (modify (with_model_info (fun mi0 =>
       let model_candidates :=
         filter (fun elem => Str.mem (tag_name elem) ["model"; "documentation"])
                (iter root) in
       let mi := model_info_loop model_candidates mi0 in
       if negb (truthy (model_info_name mi)) then
         dict_set (Some "type") (Some ("XML Root: " ^^ local_name root))
        (dict_set (Some "name")
           (get root "name" |or| get root "Name" |or| Some "Extracted Model") mi)
       else mi)))
    (fun e =>
       (print ("Error extracting model info: " ^^ exn_str e) ;;;
        modify (with_model_info (fun mi =>
          dict_set (Some "type") (Some "Unknown")
         (dict_set (Some "name") (Some "Unknown Model") mi))))%se).

(** The recognition test of lines 194-202. *)
Definition is_package_candidate (elem : node) : bool :=
  if Str.mem (tag_name elem) ["package"; "packages"] then true
  else truthy (get elem "Name") && truthy (get elem "PackageID").

Definition package_candidates (root : node) : list node :=
  filter is_package_candidate (iter root).

(** The dictionary literal of lines 205-219. *)
Definition make_pkg_info (pkg : node) : result pkg_info :=
  (notes <~ _extract_notes pkg ;;
   Ok {| pkg_id := get pkg "Id" |or| get pkg "id" |or| get pkg "xmi.id"
                   |or| Some (str_of_N (ident pkg));
         pkg_name := get pkg "Name" |or| get pkg "name"
                     |or| Some "Unnamed Package";
         pkg_parent_id := get pkg "ParentID" |or| get pkg "parent"
                          |or| get pkg "owner";
         pkg_stereotype := get pkg "Stereotype" |or| get pkg "stereotype";
         pkg_notes := notes;
         pkg_created := get pkg "Created" |or| get pkg "created";
         pkg_modified := get pkg "Modified" |or| get pkg "modified";
         pkg_author := get pkg "Author" |or| get pkg "author";
         pkg_version := get pkg "Version" |or| get pkg "version";
         pkg_elements := [];
         pkg_sub_packages := [] |})%se.

(** Lines 221-228: the authors and versions, the collection, the
    total. *)
Definition record_package (info : pkg_info) (self : analyzer) : analyzer :=
  with_stats incr_total_packages
    (with_packages (dict_set (pkg_id info) info)
       (track_version (pkg_version info)
          (track_author (pkg_author info) self))).

(** The body of the loop of lines 204-228. *)
Definition package_step (pkg : node) : SE analyzer unit :=
  (info <- lift (make_pkg_info pkg) ;;
   modify (record_package info))%se.

(** [_extract_packages], lines 188-231. *)
Definition _extract_packages (root : node) : SE analyzer unit :=
  try_except
    (for_each (package_candidates root) package_step)
    (fun e => print ("Error extracting packages: " ^^ exn_str e)).

Definition with_attributes (f : list attr_info -> list attr_info) (e : elem_info) :=
  {| el_id := el_id e; el_name := el_name e; el_type := el_type e;
     el_package_id := el_package_id e; el_stereotype := el_stereotype e;
     el_notes := el_notes e; el_abstract := el_abstract e;
     el_visibility := el_visibility e; el_created := el_created e;
     el_modified := el_modified e; el_author := el_author e;
     el_version := el_version e; el_complexity := el_complexity e;
     el_status := el_status e; el_attributes := f (el_attributes e);
     el_operations := el_operations e;
     el_tagged_values := el_tagged_values e |}.

Definition with_operations (f : list op_info -> list op_info) (e : elem_info) :=
  {| el_id := el_id e; el_name := el_name e; el_type := el_type e;
     el_package_id := el_package_id e; el_stereotype := el_stereotype e;
     el_notes := el_notes e; el_abstract := el_abstract e;
     el_visibility := el_visibility e; el_created := el_created e;
     el_modified := el_modified e; el_author := el_author e;
     el_version := el_version e; el_complexity := el_complexity e;
     el_status := el_status e; el_attributes := el_attributes e;
     el_operations := f (el_operations e);
     el_tagged_values := el_tagged_values e |}.

Definition set_tagged_values (tvs : list tag_info) (e : elem_info) :=
  {| el_id := el_id e; el_name := el_name e; el_type := el_type e;
     el_package_id := el_package_id e; el_stereotype := el_stereotype e;
     el_notes := el_notes e; el_abstract := el_abstract e;
     el_visibility := el_visibility e; el_created := el_created e;
     el_modified := el_modified e; el_author := el_author e;
     el_version := el_version e; el_complexity := el_complexity e;
     el_status := el_status e; el_attributes := el_attributes e;
     el_operations := el_operations e; el_tagged_values := tvs |}.

(** The dictionary literal of lines 302-311. *)
Definition make_attr_info (attr : node) : result attr_info :=
  (notes <~ _extract_notes attr ;;
   Ok {| attr_id := get attr "Id" |or| get attr "id";
         attr_name := get attr "Name" |or| get_default attr "name" "unnamed";
         attr_type := get attr "Type" |or| get attr "type";
         attr_visibility := get attr "Visibility" |or| get attr "visibility";
         attr_static := is_true_str (get attr "Static");
         attr_default := get attr "Default";
         attr_notes := notes;
         attr_stereotype := get attr "Stereotype" |})%se.

(** [_extract_attributes], lines 297-312; the object it mutates is
    [elem_info]. *)
Definition _extract_attributes (element : node) : SE elem_info unit :=
  (a1 <- lift (findall element [Desc "Attributes"; Child "Attribute"]) ;;
   a2 <- lift (findall element [Desc "Attribute"]) ;;
   for_each (a1 ++ a2) (fun attr =>
     info <- lift (make_attr_info attr) ;;
     modify (with_attributes (fun l => l ++ [info]))))%se.

Definition make_param_info (param : node) : param_info :=
  {| param_name := get param "Name" |or| get param "name";
     param_type := get param "Type" |or| get param "type";
     param_kind := get param "Kind";
     param_default := get param "Default" |}.

(** The dictionary literal of lines 319-329 and the parameter loop of
    lines 332-340. *)
Definition make_op_info (op : node) : result op_info :=
  (notes <~ _extract_notes op ;;
   p1 <~ findall op [Desc "Parameters"; Child "Parameter"] ;;
   p2 <~ findall op [Desc "Parameter"] ;;
   Ok {| op_id := get op "Id" |or| get op "id";
         op_name := get op "Name" |or| get_default op "name" "unnamed";
         op_type := get op "Type" |or| get op "type";
         op_visibility := get op "Visibility" |or| get op "visibility";
         op_static := is_true_str (get op "Static");
         op_abstract := is_true_str (get op "Abstract");
         op_notes := notes;
         op_stereotype := get op "Stereotype";
         op_parameters := map make_param_info (p1 ++ p2) |})%se.

(** [_extract_operations], lines 314-342. *)
Definition _extract_operations (element : node) : SE elem_info unit :=
  (o1 <- lift (findall element [Desc "Operations"; Child "Operation"]) ;;
   o2 <- lift (findall element [Desc "Operation"]) ;;
   for_each (o1 ++ o2) (fun op =>
     info <- lift (make_op_info op) ;;
     modify (with_operations (fun l => l ++ [info]))))%se.

(** The recognition test of lines 239-250. *)
Definition is_element_candidate (elem : node) : bool :=
  if Str.mem (tag_name elem)
       ["element"; "class"; "component"; "actor"; "usecase"; "interface";
        "object"; "node"; "artifact"]
  then true
  else truthy (get elem "Name") && truthy (get elem "Type") &&
       match get elem "Type" with
       | Some t =>
           Str.mem t ["Class"; "Component"; "Actor"; "UseCase"; "Interface";
                      "Object"; "Node"; "Artifact"]
       | None => false
       end.

Definition element_candidates (root : node) : list node :=
  filter is_element_candidate (iter root).

(** The dictionary literal of lines 253-275. *)
Definition make_elem_info (elem : node) : result elem_info :=
  (notes <~ _extract_notes elem ;;
   Ok {| el_id := get elem "Id" |or| get elem "id" |or| get elem "xmi.id"
                  |or| Some (str_of_N (ident elem));
         el_name := get elem "Name" |or| get elem "name"
                    |or| Some "Unnamed Element";
         el_type := get elem "Type" |or| get elem "type"
                    |or| Some (local_name elem);
         el_package_id := get elem "PackageID" |or| get elem "package"
                          |or| get elem "owner";
         el_stereotype := get elem "Stereotype" |or| get elem "stereotype";
         el_notes := notes;
         el_abstract := is_true_str (get elem "Abstract")
                        || is_true_str (get elem "isAbstract");
         el_visibility := get elem "Visibility" |or| get elem "visibility";
         el_created := get elem "Created" |or| get elem "created";
         el_modified := get elem "Modified" |or| get elem "modified";
         el_author := get elem "Author" |or| get elem "author";
         el_version := get elem "Version" |or| get elem "version";
         el_complexity := get elem "Complexity";
         el_status := get elem "Status" |or| get elem "status";
         el_attributes := [];
         el_operations := [];
         el_tagged_values := [] |})%se.

(** Lines 284-292: the type counter, the authors and versions, the
    collection, the total. *)
Definition record_element (info : elem_info) (self : analyzer) : analyzer :=
  with_stats incr_total_elements
    (with_elements (dict_set (el_id info) info)
       (track_version (el_version info)
          (track_author (el_author info)
             (with_stats (incr_element_type (el_type info)) self)))).

(** The line printed at line 282. *)
Definition facet_warning (info : elem_info) (e : exn) : string :=
  "Error extracting attributes/operations for "
  ^^ fmt (el_name info) ^^ ": " ^^ exn_str e.

Section ElementFacets.

(** The two sub-extractors called at lines 279-280.  They are the
    section's variables so that the [try] block around them can be
    studied for sub-extractors that raise; [_extract_elements] below
    closes the section over [_extract_attributes] and
    [_extract_operations]. *)
Variable extract_attributes : node -> SE elem_info unit.
Variable extract_operations : node -> SE elem_info unit.

(** The body of the [try] of lines 278-280. *)
Definition extract_facets (elem : node) : SE elem_info unit :=
  (extract_attributes elem ;;; extract_operations elem)%se.

(** The body of the loop of lines 252-292. *)
Definition element_step (elem : node) : SE analyzer unit :=
  (info0 <- lift (make_elem_info elem) ;;
   let '(info, r) := extract_facets elem info0 in
   (match r with
    | Ok _ => ret tt
    | Raise e => print (facet_warning info e)
    end) ;;;
   modify (record_element info))%se.

Definition extract_elements_with (root : node) : SE analyzer unit :=
  try_except
    (for_each (element_candidates root) element_step)
    (fun e => print ("Error extracting elements: " ^^ exn_str e)).

End ElementFacets.

(** [_extract_elements], lines 233-295. *)
Definition _extract_elements : node -> SE analyzer unit :=
  extract_elements_with _extract_attributes _extract_operations.

Definition make_role_info (r : node) : role_info :=
  {| role_name := get r "Name" |or| get r "name";
     role_multiplicity := get r "Multiplicity";
     role_visibility := get r "Visibility" |}.

(** Lines 563-591. *)
Definition make_conn_info (conn : node) : result conn_info :=
  (notes <~ _extract_notes conn ;;
   source_role <~ find_or conn [Desc "SourceRole"] [Desc "Source"] ;;
   target_role <~ find_or conn [Desc "TargetRole"] [Desc "Target"] ;;
   Ok {| cn_id := get conn "Id" |or| get conn "id";
         cn_name := get conn "Name" |or| get conn "name";
         cn_type := get conn "Type" |or| get conn "type";
         cn_source_id := get conn "SourceID" |or| get conn "source";
         cn_target_id := get conn "TargetID" |or| get conn "target";
         cn_direction := get conn "Direction";
         cn_stereotype := get conn "Stereotype";
         cn_notes := notes;
         cn_source_role := option_map make_role_info source_role;
         cn_target_role := option_map make_role_info target_role |})%se.

(** Lines 557-560. *)
Definition connector_candidates (root : node) : result (list node) :=
  (c1 <~ findall root [Desc "Connectors"; Child "Connector"] ;;
   c2 <~ findall root [Desc "Connector"] ;;
   Ok (c1 ++ c2))%se.

(** Lines 593-597: the type counter, the collection, the total. *)
Definition record_connector (info : conn_info) (self : analyzer) : analyzer :=
  with_stats incr_total_connectors
    (with_connectors (dict_set (cn_id info) info)
       (with_stats (incr_connector_type (cn_type info)) self)).

(** The body of the loop of lines 562-597. *)
Definition connector_step (conn : node) : SE analyzer unit :=
  (info <- lift (make_conn_info conn) ;;
   modify (record_connector info))%se.

(** [_extract_connectors], lines 555-597. *)
Definition _extract_connectors (root : node) : SE analyzer unit :=
  (connectors <- lift (connector_candidates root) ;;
   for_each connectors connector_step)%se.

(** [self.tagged_values[element_id].append(tag_info)] on a
    [defaultdict(list)]. *)
Definition tagged_append (k : ostr) (t : tag_info)
  (d : dict (list tag_info)) : dict (list tag_info) :=
  match dict_get k d with
  | Some l => dict_set k (l ++ [t]) d
  | None => dict_set k [t] d
  end.

(** The body of the loop of lines 606-615. *)
Definition tagged_value_step (tv : node) : SE analyzer unit :=
  (let element_id := get tv "ElementID" |or| get tv "element" in
   notes <- lift (_extract_notes tv) ;;
   let info := {| tv_name := get tv "Name" |or| get tv "name";
                  tv_value := get tv "Value" |or| get tv "value" |or| text tv;
                  tv_notes := notes |} in
   if truthy element_id then
     modify (with_tagged_values (tagged_append element_id info))
   else ret tt)%se.

(** [_extract_tagged_values], lines 599-615. *)
Definition _extract_tagged_values (root : node) : SE analyzer unit :=
  (t1 <- lift (findall root [Desc "TaggedValues"; Child "TaggedValue"]) ;;
   t2 <- lift (findall root [Desc "TaggedValue"]) ;;
   for_each (t1 ++ t2) tagged_value_step)%se.

(* ================================================================== *)
(** ** Diagrams and the image detector                                 *)
(* ================================================================== *)

Definition with_dg_elements
  (f : list diag_elem_info -> list diag_elem_info) (d : diag_info) :=
  {| dg_id := dg_id d; dg_name := dg_name d; dg_type := dg_type d;
     dg_package_id := dg_package_id d; dg_author := dg_author d;
     dg_created := dg_created d; dg_modified := dg_modified d;
     dg_version := dg_version d; dg_notes := dg_notes d;
     dg_elements := f (dg_elements d); dg_has_image := dg_has_image d;
     dg_image_data := dg_image_data d; dg_image_format := dg_image_format d;
     dg_style_ex := dg_style_ex d; dg_swim_lanes := dg_swim_lanes d;
     dg_scale := dg_scale d |}.

(** [diag_info['has_image'] = True], [diag_info['image_data'] = data],
    [diag_info['image_format'] = format]. *)
Definition set_image (data : ostr) (format : string) (d : diag_info) :=
  {| dg_id := dg_id d; dg_name := dg_name d; dg_type := dg_type d;
     dg_package_id := dg_package_id d; dg_author := dg_author d;
     dg_created := dg_created d; dg_modified := dg_modified d;
     dg_version := dg_version d; dg_notes := dg_notes d;
     dg_elements := dg_elements d; dg_has_image := true;
     dg_image_data := data; dg_image_format := Some format;
     dg_style_ex := dg_style_ex d; dg_swim_lanes := dg_swim_lanes d;
     dg_scale := dg_scale d |}.

(** The dictionary literal of lines 438-448. *)
Definition make_diag_elem_info (diag_elem : node) : diag_elem_info :=
  {| de_element_id := get diag_elem "ElementID" |or| get diag_elem "element"
                      |or| get diag_elem "Object_ID" |or| get diag_elem "objectId";
     de_geometry := get diag_elem "Geometry" |or| get diag_elem "geometry";
     de_style := get diag_elem "Style" |or| get diag_elem "style";
     de_left := get diag_elem "left";
     de_top := get diag_elem "top";
     de_right := get diag_elem "right";
     de_bottom := get diag_elem "bottom";
     de_sequence := get diag_elem "Sequence" |}.

(** The six search patterns of lines 428-433. *)
Definition placement_patterns : list path :=
  [ [Desc "DiagramElements"; Child "DiagramElement"];
    [Desc "DiagramElement"];
    [Desc "elements"; Child "element"];
    [Desc "diagramElement"];
    [Desc "DiagramObjects"; Child "DiagramObject"];
    [Desc "DiagramObject"] ].

(** Evaluate a list of calls in order; the first exception ends it. *)
Fixpoint collect {A B} (f : A -> result B) (l : list A) : result (list B) :=
  match l with
  | [] => Ok []
  | a :: l' => (b <~ f a ;; bs <~ collect f l' ;; Ok (b :: bs))%se
  end.

(** [element_sources], lines 427-434. *)
Definition element_sources (diagram_elem : node) : result (list (list node)) :=
  collect (findall diagram_elem) placement_patterns.

(** [_extract_diagram_elements], lines 424-449; the object it mutates is
    [diag_info]. *)
Definition _extract_diagram_elements (diagram_elem : node)
  : SE diag_info unit :=
  (sources <- lift (element_sources diagram_elem) ;;
   for_each sources (fun elements =>
     for_each elements (fun diag_elem =>
       modify (with_dg_elements
                 (fun l => l ++ [make_diag_elem_info diag_elem])))))%se.

(** [_detect_image_format], lines 539-553. *)
Definition _detect_image_format (tag_name : string) : string :=
  let tag_lower := Str.lower tag_name in
  if Str.contains "png" tag_lower then "png"
  else if Str.contains "jpg" tag_lower || Str.contains "jpeg" tag_lower
  then "jpeg"
  else if Str.contains "bmp" tag_lower then "bmp"
  else if Str.contains "metafile" tag_lower || Str.contains "emf" tag_lower
          || Str.contains "wmf" tag_lower
  then "metafile"
  else if Str.contains "image" tag_lower then "image"
  else "unknown".

(** [string.ascii_letters + string.digits + '+/=']. *)
Definition base64_chars : string :=
  "abcdefghijklmnopqrstuvwxyzABCDEFGHIJKLMNOPQRSTUVWXYZ0123456789+/=".

(** [c in base64_chars] for a character [c]. *)
Definition in_base64_chars (c : ascii) : bool :=
  Str.contains (String c EmptyString) base64_chars.

(** The thirteen paths of lines 454-473, in order. *)
Definition image_source_paths : list path :=
  [ [Desc "Image"]; [Desc "MetaFile"]; [Desc "DiagramImage"];
    [Desc "Metafile"];
    [Desc "xmi:Extension"; Desc "image"];
    [Desc "image"]; [Desc "png"]; [Desc "jpg"]; [Desc "bmp"];
    [Desc "PDATA1"]; [Desc "PDATA2"]; [Desc "PDATA3"]; [Desc "StyleEx"] ].

(** [image_sources], lines 454-473. *)
Definition image_sources (diagram_elem : node) : result (list (option node)) :=
  collect (find diagram_elem) image_source_paths.

(** The four attributes of lines 507-512. *)
Definition image_refs (diagram_elem : node) : list ostr :=
  [ get diagram_elem "ImageFile"; get diagram_elem "imageFile";
    get diagram_elem "ImagePath"; get diagram_elem "imagePath" ].

(** The loop of lines 514-520, with its [break]. *)
Fixpoint apply_image_refs (refs : list ostr) (d : diag_info)
  : SE analyzer diag_info :=
  match refs with
  | [] => ret d
  | ref :: rest =>
      if truthy ref then
        (print ("Found image file reference: " ^^ fmt ref) ;;;
         ret (set_image ref "file_reference" d))%se
      else apply_image_refs rest d
  end.

(** Lines 412-420: the type counter, the authors and versions, the
    collection, the total. *)
Definition record_diagram (info : diag_info) (self : analyzer) : analyzer :=
  with_stats incr_total_diagrams
    (with_diagrams (dict_set (dg_id info) info)
       (track_version (dg_version info)
          (track_author (dg_author info)
             (with_stats (incr_diagram_type (dg_type info)) self)))).

(** Lines 349-369; [namespaces] is the empty dictionary (no
    [namespaces_map] attribute is ever set), so the [uml] branch is
    skipped. *)
Definition diagram_candidates (root : node) : result (list node) :=
  (c1 <~ findall root [Desc "Diagrams"; Child "Diagram"] ;;
   c2 <~ findall root [Desc "Diagram"] ;;
   c3 <~ findall root [Desc "diagrams"; Child "diagram"] ;;
   c4 <~ findall root [Desc "xmi:Extension"; Desc "diagrams"] ;;
   c5 <~ findall root [Desc "t_diagram"] ;;
   c6 <~ findall root [Desc "EAP"; Desc "diagrams"; Desc "diagram"] ;;
   Ok (c1 ++ c2 ++ c3 ++ c4 ++ c5 ++ c6))%se.

(** The de-duplication by [id(diag)] of lines 372-378. *)
Fixpoint unique_by_ident (seen : list N) (l : list node) : list node :=
  match l with
  | [] => []
  | diag :: l' =>
      if existsb (N.eqb (ident diag)) seen then unique_by_ident seen l'
      else diag :: unique_by_ident (ident diag :: seen) l'
  end.

(** The dictionary literal of lines 383-404. *)
Definition make_diag_info (diag : node) : result diag_info :=
  (notes <~ _extract_notes diag ;;
   Ok {| dg_id := get diag "Id" |or| get diag "xmi.id" |or| get diag "id"
                  |or| get diag "diagramId"
                  |or| Some (str_of_N (ident diag));
         dg_name := get diag "Name" |or| get diag "name"
                    |or| get diag "xmi:name" |or| Some "Unnamed Diagram";
         dg_type := get diag "Type" |or| get diag "type"
                    |or| get diag "DiagramType" |or| Some "Unknown";
         dg_package_id := get diag "PackageID" |or| get diag "package"
                          |or| get diag "owner";
         dg_author := get diag "Author" |or| get diag "author";
         dg_created := get diag "Created" |or| get diag "created";
         dg_modified := get diag "Modified" |or| get diag "modified";
         dg_version := get diag "Version" |or| get diag "version";
         dg_notes := notes;
         dg_elements := [];
         dg_has_image := false;
         dg_image_data := None;
         dg_image_format := None;
         dg_style_ex := get diag "StyleEx";
         dg_swim_lanes := get diag "SwimLanes";
         dg_scale := get diag "Scale" |})%se.

Section Detector.

(** Whether [base64.b64decode(s, validate=True)] returns (rather than
    raises) on the ASCII string [s]: the decoder is the standard
    library's. *)
Variable b64decode_validate : string -> bool.

(** [_is_base64], lines 522-537. *)
Definition _is_base64 (s : string) : bool :=
  if Nat.ltb (String.length s) 4 then false
  else if negb (Str.all in_base64_chars s) then false
  else b64decode_validate s.

(** The loop of lines 475-504, with its [break]s.  The [try] of lines
    480-504 encloses calls that do not raise ([_is_base64] has its own
    handler), so its handler is never entered. *)
Fixpoint scan_image_sources (sources : list (option node)) (d : diag_info)
  : SE analyzer diag_info :=
  match sources with
  | [] => ret d
  | None :: rest => scan_image_sources rest d
  | Some img_elem :: rest =>
      let image_text :=
        text img_elem |or| get img_elem "data" |or| get img_elem "content" in
      match image_text with
      | Some t =>
          let stripped := Str.strip t in
          if truthy image_text && truthy (Some stripped) then
            if _is_base64 stripped then
              (print ("Found base64 image in " ^^ tag img_elem
                      ^^ " for diagram " ^^ fmt (dg_name d)) ;;;
               ret (set_image (Some stripped)
                      (_detect_image_format (tag img_elem)) d))%se
            else if Nat.ltb 100 (String.length stripped)
                    && (Str.contains "EMF" t || Str.contains "WMF" t) then
              (print ("Found metafile data in " ^^ tag img_elem
                      ^^ " for diagram " ^^ fmt (dg_name d)) ;;;
               ret (set_image (Some stripped) "metafile" d))%se
            else if Nat.ltb 50 (String.length stripped) then
              (print ("Found potential image data in " ^^ tag img_elem
                      ^^ " for diagram " ^^ fmt (dg_name d)) ;;;
               ret (set_image (Some stripped) "unknown" d))%se
            else scan_image_sources rest d
          else scan_image_sources rest d
      | None => scan_image_sources rest d
      end
  end.

(** Lines 475-520: the scan of the candidate nodes, then the
    file-reference attributes. *)
Definition classify_image (sources : list (option node))
  (diagram_elem : node) (d : diag_info) : SE analyzer diag_info :=
  (d1 <- scan_image_sources sources d ;;
   apply_image_refs (image_refs diagram_elem) d1)%se.

(** [_extract_diagram_image_enhanced], lines 451-520. *)
Definition _extract_diagram_image_enhanced (diagram_elem : node)
  (d : diag_info) : SE analyzer diag_info :=
  (sources <- lift (image_sources diagram_elem) ;;
   classify_image sources diagram_elem d)%se.

(** The body of the loop of lines 382-422. *)
Definition diagram_step (diag : node) : SE analyzer unit :=
  (info0 <- lift (make_diag_info diag) ;;
   info1 <- on_local (_extract_diagram_elements diag) info0 ;;
   info <- _extract_diagram_image_enhanced diag info1 ;;
   modify (record_diagram info) ;;;
   print ("Processed diagram: " ^^ fmt (dg_name info) ^^ " (Type: "
          ^^ fmt (dg_type info) ^^ ", Has Image: "
          ^^ fmt_bool (dg_has_image info) ^^ ")"))%se.

(** [_extract_diagrams], lines 344-422. *)
Definition _extract_diagrams (root : node) : SE analyzer unit :=
  (candidates <- lift (diagram_candidates root) ;;
   let unique_diagrams := unique_by_ident [] candidates in
   print ("Found " ^^ str_of_N (N.of_nat (List.length unique_diagrams))
          ^^ " potential diagram elements") ;;;
   for_each unique_diagrams diagram_step)%se.

End Detector.

(* ================================================================== *)
(** ** The model assembler                                             *)
(* ================================================================== *)

Definition with_sub_packages (f : list ostr -> list ostr) (p : pkg_info) :=
  {| pkg_id := pkg_id p; pkg_name := pkg_name p;
     pkg_parent_id := pkg_parent_id p; pkg_stereotype := pkg_stereotype p;
     pkg_notes := pkg_notes p; pkg_created := pkg_created p;
     pkg_modified := pkg_modified p; pkg_author := pkg_author p;
     pkg_version := pkg_version p; pkg_elements := pkg_elements p;
     pkg_sub_packages := f (pkg_sub_packages p) |}.

Definition with_pkg_elements (f : list ostr -> list ostr) (p : pkg_info) :=
  {| pkg_id := pkg_id p; pkg_name := pkg_name p;
     pkg_parent_id := pkg_parent_id p; pkg_stereotype := pkg_stereotype p;
     pkg_notes := pkg_notes p; pkg_created := pkg_created p;
     pkg_modified := pkg_modified p; pkg_author := pkg_author p;
     pkg_version := pkg_version p; pkg_elements := f (pkg_elements p);
     pkg_sub_packages := pkg_sub_packages p |}.

(** Lines 627-629.  The keys and the parent ids do not change during the
    loop, so it runs over the items as they are when it starts. *)
Definition link_sub_packages (pk : dict pkg_info) : dict pkg_info :=
  fold_left
    (fun acc '(pkg_id, pkg) =>
       if truthy (pkg_parent_id pkg) && dict_mem (pkg_parent_id pkg) acc then
         dict_update (pkg_parent_id pkg)
           (with_sub_packages (fun l => l ++ [pkg_id])) acc
       else acc)
    pk pk.

(** Lines 632-634. *)
Definition link_elements (els : dict elem_info) (pk : dict pkg_info)
  : dict pkg_info :=
  fold_left
    (fun acc '(elem_id, elem) =>
       if truthy (el_package_id elem) && dict_mem (el_package_id elem) acc then
         dict_update (el_package_id elem)
           (with_pkg_elements (fun l => l ++ [elem_id])) acc
       else acc)
    els pk.

(** Lines 637-639. *)
Definition attach_tagged_values (tvs : dict (list tag_info))
  (els : dict elem_info) : dict elem_info :=
  map (fun '(elem_id, elem) =>
         match dict_get elem_id tvs with
         | Some l => (elem_id, set_tagged_values l elem)
         | None => (elem_id, elem)
         end)
      els.

(** [_calculate_stats], lines 624-639. *)
Definition _calculate_stats (self : analyzer) : analyzer :=
  let self1 := with_packages link_sub_packages self in
  let self2 := with_packages (link_elements (elements self1)) self1 in
  with_elements (attach_tagged_values (tagged_values self2)) self2.

(* ================================================================== *)
(** ** The content loader                                              *)
(* ================================================================== *)

Module Codec.

(** The contents of a file, and a decoded [str] as its code points. *)
Definition bytes := list Byte.byte.
Definition pystr := list N.

(** The state of the UTF-8 decoder between two bytes: at the start of
    a character, or inside one, with the number of continuation bytes
    still due, the bits read so far and the range the next byte must
    fall in. *)
Inductive ustate :=
| Start
| Cont (need : nat) (acc : N) (lo hi : N).

(** A first byte: an ASCII character, the start of a longer sequence,
    or [None] for an invalid start byte.  The ranges exclude overlong
    forms, surrogates and code points above U+10FFFF. *)
Definition start_byte (b : N) : option (N + ustate) :=
  if (b <? 0x80)%N then Some (inl b)
  else if (b <? 0xC2)%N then None
  else if (b <? 0xE0)%N then Some (inr (Cont 1 (N.land b 0x1F) 0x80 0xBF))
  else if (b =? 0xE0)%N then Some (inr (Cont 2 (N.land b 0x0F) 0xA0 0xBF))
  else if (b =? 0xED)%N then Some (inr (Cont 2 (N.land b 0x0F) 0x80 0x9F))
  else if (b <? 0xF0)%N then Some (inr (Cont 2 (N.land b 0x0F) 0x80 0xBF))
  else if (b =? 0xF0)%N then Some (inr (Cont 3 (N.land b 0x07) 0x90 0xBF))
  else if (b <? 0xF4)%N then Some (inr (Cont 3 (N.land b 0x07) 0x80 0xBF))
  else if (b =? 0xF4)%N then Some (inr (Cont 3 (N.land b 0x07) 0x80 0x8F))
  else None.

(** [bs.decode('utf-8', errors=...)]: with [strict] an invalid sequence
    is a [UnicodeDecodeError] ([None]); with [errors='ignore'] the
    invalid bytes are dropped and decoding goes on with the byte that
    ended the sequence. *)
Fixpoint utf8_decode_from (strict : bool) (st : ustate) (bs : bytes)
  : option pystr :=
  match bs with
  | [] =>
      match st with
      | Start => Some []
      | Cont _ _ _ _ => if strict then None else Some []
      end
  | b :: rest =>
      let n := Byte.to_N b in
      let at_start :=
        match start_byte n with
        | Some (inl cp) =>
            option_map (cons cp) (utf8_decode_from strict Start rest)
        | Some (inr st') => utf8_decode_from strict st' rest
        | None => if strict then None else utf8_decode_from strict Start rest
        end in
      match st with
      | Start => at_start
      | Cont need acc lo hi =>
          if ((lo <=? n) && (n <=? hi))%N then
            let acc' := N.lor (N.shiftl acc 6) (N.land n 0x3F) in
            match need with
            | S (S k) => utf8_decode_from strict (Cont (S k) acc' 0x80 0xBF) rest
            | _ => option_map (cons acc') (utf8_decode_from strict Start rest)
            end
          else if strict then None else at_start
      end
  end.

Definition utf8_decode (bs : bytes) : option pystr :=
  utf8_decode_from true Start bs.

(** [bs.decode('utf-8', errors='ignore')]; it never raises. *)
Definition utf8_decode_ignore (bs : bytes) : pystr :=
  match utf8_decode_from false Start bs with
  | Some t => t
  | None => []
  end.

(** [bs.decode('latin-1')]: every byte is the code point of its value;
    no byte sequence is rejected. *)
Definition latin1_decode (bs : bytes) : pystr := map Byte.to_N bs.

(** Reading in text mode translates [\r\n] and [\r] to [\n]. *)
Fixpoint universal_newlines (t : pystr) : pystr :=
  match t with
  | [] => []
  | c :: rest =>
      if (c =? 13)%N then
        match rest with
        | c' :: rest' =>
            if (c' =? 10)%N then 10%N :: universal_newlines rest'
            else 10%N :: universal_newlines rest
        | [] => [10%N]
        end
      else c :: universal_newlines rest
  end.

(** U+FFFD, what [errors='replace'] would put for an invalid
    sequence. *)
Definition replacement_character : N := 0xFFFD%N.

End Codec.
Import Codec.

(** The names of line 131. *)
Inductive encoding := utf_8 | latin_1 | cp1252 | iso_8859_1 | utf_16.

Definition encodings : list encoding :=
  [utf_8; latin_1; cp1252; iso_8859_1; utf_16].

Section Loader.

(** The codecs of the standard library that the loader names after
    [latin-1]: each gives the text, or [None] for a
    [UnicodeDecodeError]. *)
Variable decode_cp1252 : bytes -> option pystr.
Variable decode_utf16 : bytes -> option pystr.

Definition decode (enc : encoding) (raw : bytes) : option pystr :=
  match enc with
  | utf_8 => utf8_decode raw
  | latin_1 | iso_8859_1 => Some (latin1_decode raw)
  | cp1252 => decode_cp1252 raw
  | utf_16 => decode_utf16 raw
  end.

(** The loop of lines 133-138 over a file that holds [raw]. *)
Fixpoint try_encodings (encs : list encoding) (raw : bytes) : option pystr :=
  match encs with
  | [] => None
  | enc :: rest =>
      match decode enc raw with
      | Some t => Some (universal_newlines t)
      | None => try_encodings rest raw
      end
  end.

(** [_read_file_with_encoding], lines 129-143.  [file] is what opening
    and reading the path gives: the bytes, or the [OSError] of a
    missing or unreadable file, which no handler catches. *)
Definition _read_file_with_encoding (file : result bytes) : result pystr :=
  match file with
  | Raise e => Raise e
  | Ok raw =>
      match try_encodings encodings raw with
      | Some t => Ok t
      | None => Ok (utf8_decode_ignore raw)
      end
  end.

End Loader.

(* ================================================================== *)
(** ** The resilient parser                                            *)
(* ================================================================== *)

(** The code points of an ASCII string. *)
Fixpoint codes (s : string) : pystr :=
  match s with
  | EmptyString => []
  | String c s' => N_of_ascii c :: codes s'
  end.

Definition is_letter_cp (c : N) : bool :=
  (((65 <=? c) && (c <=? 90)) || ((97 <=? c) && (c <=? 122)))%N.

Definition is_alnum_cp (c : N) : bool :=
  (is_letter_cp c || ((48 <=? c) && (c <=? 57)))%N.

(** Whether the prefix and then a letter stand at the head of [t]. *)
Fixpoint prefix_then_letter (prefix t : pystr) : bool :=
  match prefix, t with
  | [], c :: _ => is_letter_cp c
  | p :: prefix', c :: t' => (p =? c)%N && prefix_then_letter prefix' t'
  | _, [] => false
  end.

(** Where [re.sub] is between two characters: looking for a match,
    dropping the [n] characters left of a matched prefix, or copying the
    identifier that follows it. *)
Inductive sub_state := Scan | Skip (n : nat) | Copy.

(** [re.sub] of line 125 for one prefix: the pattern is the prefix
    followed by a group, a letter and then letters and digits as far as
    they go; the matches are found from left to right and do not
    overlap; each is replaced by its group. *)
Fixpoint sub_prefix (prefix : pystr) (st : sub_state) (t : pystr) : pystr :=
  match t with
  | [] => []
  | c :: rest =>
      let scan :=
        if prefix_then_letter prefix t
        then sub_prefix prefix (Skip (List.length prefix - 1)) rest
        else c :: sub_prefix prefix Scan rest in
      match st with
      | Scan => scan
      | Skip (S n) => sub_prefix prefix (Skip n) rest
      | Skip O | Copy =>
          if is_alnum_cp c then c :: sub_prefix prefix Copy rest else scan
      end
  end.

(** The prefixes of line 120. *)
Definition problematic_prefixes : list string :=
  ["xml:"; "xmlns:"; "xsi:"; "uml:"; "xmi:"].

(** [_clean_xml_content], lines 114-127. *)
Definition _clean_xml_content (content : pystr) : pystr :=
  fold_left (fun cleaned prefix => sub_prefix (codes prefix) Scan cleaned)
            problematic_prefixes content.

(** The three parse attempts of lines 49-64, as they are made. *)
Inductive attempt :=
| ParseFile                         (* [ET.parse(xml_file_path)] *)
| ParseContent (content : pystr)     (* [ET.fromstring(content)] *)
| ParseCleaned (cleaned : pystr).    (* [ET.fromstring(cleaned_content)] *)

Definition is_stripping_attempt (a : attempt) : bool :=
  match a with ParseCleaned _ => true | _ => false end.

Section Analyze.

Variable decode_cp1252 : bytes -> option pystr.
Variable decode_utf16 : bytes -> option pystr.
Variable b64decode_validate : string -> bool.

(** The expat parser behind [ET.parse(path).getroot()], run on the
    bytes of the file, and behind [ET.fromstring(text)]. *)
Variable ET_parse : bytes -> result node.
Variable ET_fromstring : pystr -> result node.

(** Lines 49-64: the root, or the exception that leaves
    [analyze_file], together with the attempts made.  Only
    [ET.ParseError] is caught. *)
Definition parse_root (raw : bytes) (content : pystr)
  : list attempt * result node :=
  match ET_parse raw with
  | Raise (ParseError e) =>
      match ET_fromstring content with
      | Raise (ParseError _) =>
          let cleaned_content := _clean_xml_content content in
          match ET_fromstring cleaned_content with
          | Raise (ParseError _) =>
              ([ParseFile; ParseContent content; ParseCleaned cleaned_content],
               Raise (ValueError ("Invalid XML format: " ^^ e)))
          | r =>
              ([ParseFile; ParseContent content; ParseCleaned cleaned_content],
               r)
          end
      | r => ([ParseFile; ParseContent content], r)
      end
  | r => ([ParseFile], r)
  end.

(** One extractor under its [try] of lines 67-95. *)
Definition guarded (what : string) (m : SE analyzer unit) : SE analyzer unit :=
  try_except m
    (fun e => print ("Warning: Could not extract " ^^ what ^^ ": " ^^ exn_str e)).

(** Lines 66-98 on a fresh analyzer. *)
Definition extract_model (root : node) : analyzer :=
  _calculate_stats
    (fst ((guarded "model info" (_extract_model_info root) ;;;
           guarded "packages" (_extract_packages root) ;;;
           guarded "elements" (_extract_elements root) ;;;
           guarded "diagrams" (_extract_diagrams b64decode_validate root) ;;;
           guarded "connectors" (_extract_connectors root) ;;;
           guarded "tagged values" (_extract_tagged_values root))%se
          (reset []))).

(** [analyze_file], lines 41-112.  The result holds the analyzer whose
    fields make up the returned dictionary ([file_name] and [file_size]
    are left out), or the exception raised, and the parse attempts
    made. *)
Definition analyze_file (file : result bytes) : list attempt * result analyzer :=
  match _read_file_with_encoding decode_cp1252 decode_utf16 file, file with
  | Ok content, Ok raw =>
      match parse_root raw content with
      | (attempts, Ok root) => (attempts, Ok (extract_model root))
      | (attempts, Raise e) => (attempts, Raise e)
      end
  | Raise e, _ => ([], Raise e)
  | Ok _, Raise e => ([], Raise e)
  end.

End Analyze.

(* ================================================================== *)
(** ** Total views, and the inputs of the examples                     *)
(* ================================================================== *)

(** The notes of a node: [_extract_notes] returns on every node
    ([extract_notes_total]). *)
Definition notes_of (element : node) : string :=
  match _extract_notes element with Ok s => s | Raise _ => "" end.

(** Induction on a node with the property for all its children. *)
Fixpoint node_forall_ind (P : node -> Prop)
  (H : forall t a tx cs i, Forall P cs -> P (Element t a tx cs i))
  (n : node) : P n :=
  match n with
  | Element t a tx cs i =>
      H t a tx cs i
        ((fix children_ok (l : list node) : Forall P l :=
            match l with
            | [] => Forall_nil P
            | c :: l' => Forall_cons c (node_forall_ind P H c) (children_ok l')
            end) cs)
  end.

(** A node without children. *)
Definition leaf (t : string) (a : list (string * string))
  (tx : option string) (i : N) : node :=
  Element t a tx [] i.

(** [<Package Id="P1"><Notes>hello</Notes></Package>]. *)
Definition package_with_notes : node :=
  Element "Package" [("Id", "P1")] None [leaf "Notes" [] (Some "hello") 2] 1.



(** A stand-in for the library decoder in the closed examples: it
    accepts the canonical strings of RFC 4648 (alphabet characters in a
    multiple of four, at most two [=], at the end only), all of which
    [base64.b64decode(s, validate=True)] decodes. *)
Fixpoint canonical_body (s : string) : bool :=
  match s with
  | EmptyString => true
  | "=" | "==" => true
  | String c s' => negb (Ascii.eqb c "=") && in_base64_chars c && canonical_body s'
  end.

Definition canonical_base64 (s : string) : bool :=
  Nat.eqb (String.length s mod 4) 0 && canonical_body s.

(** Stand-ins for the codecs after [latin-1] and for an expat parser that
    rejects its input, for the closed examples. *)
Definition no_codec (_ : bytes) : option pystr := None.

Definition expat_message : string :=
  "not well-formed (invalid token): line 1, column 0".

Definition rejecting_parse (_ : bytes) : result node :=
  Raise (ParseError expat_message).

Definition rejecting_fromstring (_ : pystr) : result node :=
  Raise (ParseError "syntax error: line 1, column 0").

(** The bytes of an ASCII string. *)
Fixpoint ascii_bytes (s : string) : bytes :=
  match s with
  | EmptyString => []
  | String c s' => byte_of_ascii c :: ascii_bytes s'
  end.

(** [<Root><Connector Type="Association"/><Connector Type="Dependency"/></Root>]:
    two connector nodes without any id attribute. *)
Definition two_connectors_without_id : node :=
  Element "Root" [] None
    [ leaf "Connector" [("Type", "Association")] None 2;
      leaf "Connector" [("Type", "Dependency")] None 3 ] 1.

(** The message of a result that is an [ET.ParseError]. *)
Definition parse_error_msg {A} (r : result A) : option string :=
  match r with
  | Raise (ParseError m) => Some m
  | _ => None
  end.

(** A sub-extractor that fails at once, to exercise the [try] of lines
    278-282. *)
Definition failing_facet (_ : node) : SE elem_info unit :=
  raise (Fault "boom").

(** A sub-extractor that appends one entry and then fails. *)
Definition half_done_attributes (element : node) : SE elem_info unit :=
  (modify (with_attributes (fun l =>
     l ++ [{| attr_id := None; attr_name := Some "total"; attr_type := None;
              attr_visibility := None; attr_static := false;
              attr_default := None; attr_notes := "";
              attr_stereotype := None |}])) ;;;
   raise (Fault "boom"))%se.

(** [<Class Id="E1" Name="Order"><Operation Name="pay"/></Class>]. *)
Definition order_class : node :=
  Element "Class" [("Id", "E1"); ("Name", "Order")] None
    [leaf "Operation" [("Name", "pay")] None 2] 1.

(** A line end. *)
Definition newline : ascii := ascii_of_nat 10.





(** The diagram information of a node, before placements and image:
    [make_diag_info] returns on every node ([make_diag_info_eq]). *)
Definition diag_info_of (diag : node) : diag_info :=
  {| dg_id := get diag "Id" |or| get diag "xmi.id" |or| get diag "id"
              |or| get diag "diagramId" |or| Some (str_of_N (ident diag));
     dg_name := get diag "Name" |or| get diag "name"
                |or| get diag "xmi:name" |or| Some "Unnamed Diagram";
     dg_type := get diag "Type" |or| get diag "type"
                |or| get diag "DiagramType" |or| Some "Unknown";
     dg_package_id := get diag "PackageID" |or| get diag "package"
                      |or| get diag "owner";
     dg_author := get diag "Author" |or| get diag "author";
     dg_created := get diag "Created" |or| get diag "created";
     dg_modified := get diag "Modified" |or| get diag "modified";
     dg_version := get diag "Version" |or| get diag "version";
     dg_notes := notes_of diag;
     dg_elements := [];
     dg_has_image := false;
     dg_image_data := None;
     dg_image_format := None;
     dg_style_ex := get diag "StyleEx";
     dg_swim_lanes := get diag "SwimLanes";
     dg_scale := get diag "Scale" |}.

(** The candidates of lines 427-437 in the order in which their entries
    are appended: pattern by pattern, each in document order. *)
Definition placement_candidates (diagram_elem : node) : list node :=
  flat_map (fun p => select p diagram_elem) placement_patterns.

(** The same object: the same [id]. *)
Definition same_node (n m : node) : bool := N.eqb (ident m) (ident n).

(** How often an object occurs in a list of nodes. *)
Definition count_node (n : node) (l : list node) : nat :=
  List.length (filter (same_node n) l).

(** The patterns among the six that select the node [n] under
    [diagram_elem]. *)
Definition matching_patterns (diagram_elem n : node) : list path :=
  filter (fun p => existsb (same_node n) (select p diagram_elem))
         placement_patterns.

(** [<Diagram Id="D1"><DiagramElements><DiagramElement ElementID="E1"/>
    </DiagramElements></Diagram>]. *)
Definition nested_placement : node :=
  leaf "DiagramElement" [("ElementID", "E1")] None 3.

Definition diagram_with_nested_placement : node :=
  Element "Diagram" [("Id", "D1")] None
    [Element "DiagramElements" [] None [nested_placement] 2] 1.

(** The key under which each extractor stores a node: the [id] entry of
    lines 206-207, 254-255 and 564. *)
Definition package_key (pkg : node) : ostr :=
  get pkg "Id" |or| get pkg "id" |or| get pkg "xmi.id"
  |or| Some (str_of_N (ident pkg)).

Definition element_key (elem : node) : ostr :=
  get elem "Id" |or| get elem "id" |or| get elem "xmi.id"
  |or| Some (str_of_N (ident elem)).

Definition connector_key (conn : node) : ostr :=
  get conn "Id" |or| get conn "id".

(** The candidate list of lines 557-560 (the two searches never raise,
    see [connector_candidates_eq]). *)
Definition connector_nodes (root : node) : list node :=
  select [Desc "Connectors"; Child "Connector"] root
  ++ select [Desc "Connector"] root.

(** Two entries of a list have the same key. *)
Definition shares_key {X} (key : X -> ostr) (l : list X) : Prop :=
  exists i j k,
    i < j /\
    nth_error (map key l) i = Some k /\
    nth_error (map key l) j = Some k.

(** The keys of a dictionary after storing under each of [ks] in turn. *)
Definition add_key (k : ostr) (ks : list ostr) : list ostr :=
  if existsb (ostr_eqb k) ks then ks else ks ++ [k].

Definition add_keys (acc ks : list ostr) : list ostr :=
  fold_left (fun a k => add_key k a) ks acc.

(** A computation leaves a view of the object as it is. *)
Definition keeps {S A V} (view : S -> V) (m : SE S A) : Prop :=
  forall s, view (fst (m s)) = view s.

(** [<Root><Connectors><Connector Id="C1"/></Connectors></Root>]: one
    connector node, reached by both searches of lines 558-559. *)
Definition one_nested_connector : node :=
  Element "Root" [] None
    [Element "Connectors" [] None [leaf "Connector" [("Id", "C1")] None 3] 2] 1.

(** [<Root><Diagram Id="D1"/><Diagram Id="D1"/></Root>]: two diagram
    nodes with the same id. *)
Definition two_diagrams_same_id : node :=
  Element "Root" [] None
    [leaf "Diagram" [("Id", "D1")] None 2; leaf "Diagram" [("Id", "D1")] None 3] 1.

(** The four collections with their totals, as views of the analyzer. *)
Definition pk_view (s : analyzer) := (packages s, total_packages (stats s)).
Definition el_view (s : analyzer) :=
  (elements s, total_elements (stats s), element_types (stats s)).
Definition dg_view (s : analyzer) := (diagrams s, total_diagrams (stats s)).
Definition cn_view (s : analyzer) := (connectors s, total_connectors (stats s)).

(** The fields of an element's information that the sub-extractors of
    attributes and operations never touch. *)
Definition el_header (i : elem_info) :=
  (el_id i, el_name i, el_type i, el_package_id i, el_author i, el_version i).

(** The package information of a node: [make_pkg_info] returns it on
    every node ([make_pkg_info_eq]). *)
Definition pkg_info_of (pkg : node) : pkg_info :=
  {| pkg_id := package_key pkg;
     pkg_name := get pkg "Name" |or| get pkg "name" |or| Some "Unnamed Package";
     pkg_parent_id := get pkg "ParentID" |or| get pkg "parent"
                      |or| get pkg "owner";
     pkg_stereotype := get pkg "Stereotype" |or| get pkg "stereotype";
     pkg_notes := notes_of pkg;
     pkg_created := get pkg "Created" |or| get pkg "created";
     pkg_modified := get pkg "Modified" |or| get pkg "modified";
     pkg_author := get pkg "Author" |or| get pkg "author";
     pkg_version := get pkg "Version" |or| get pkg "version";
     pkg_elements := [];
     pkg_sub_packages := [] |}.

(** The element information of a node before its attributes and
    operations ([make_elem_info_eq]), and after them. *)
Definition elem_base_of (elem : node) : elem_info :=
  {| el_id := element_key elem;
     el_name := get elem "Name" |or| get elem "name" |or| Some "Unnamed Element";
     el_type := get elem "Type" |or| get elem "type" |or| Some (local_name elem);
     el_package_id := get elem "PackageID" |or| get elem "package"
                      |or| get elem "owner";
     el_stereotype := get elem "Stereotype" |or| get elem "stereotype";
     el_notes := notes_of elem;
     el_abstract := is_true_str (get elem "Abstract")
                    || is_true_str (get elem "isAbstract");
     el_visibility := get elem "Visibility" |or| get elem "visibility";
     el_created := get elem "Created" |or| get elem "created";
     el_modified := get elem "Modified" |or| get elem "modified";
     el_author := get elem "Author" |or| get elem "author";
     el_version := get elem "Version" |or| get elem "version";
     el_complexity := get elem "Complexity";
     el_status := get elem "Status" |or| get elem "status";
     el_attributes := [];
     el_operations := [];
     el_tagged_values := [] |}.

Definition elem_info_of (elem : node) : elem_info :=
  fst (extract_facets _extract_attributes _extract_operations elem
         (elem_base_of elem)).

(** The collections after the package and element loops, from their
    candidate lists. *)
Definition packages_of (candidates : list node) : dict pkg_info :=
  fold_left (fun d p => dict_set (package_key p) (pkg_info_of p) d) candidates [].

Definition elements_of (candidates : list node) : dict elem_info :=
  fold_left (fun d e => dict_set (element_key e) (elem_info_of e) d) candidates [].

Definition element_types_of (candidates : list node) : Counter :=
  fold_left (fun c e => counter_incr (el_type (elem_info_of e)) c) candidates [].

(** Scenario A: the nodes of the document that an extractor recognises
    as a package or as an element are one node
    [<Package Id="P1" Name="Core">] and one node
    [<Element Id="E1" Name="Order" Type="Class" PackageID="P1">], in
    either order and with any content; every other node is recognised by
    neither test. *)
Definition is_scenario_package (n : node) : Prop :=
  tag n = "Package" /\ attrib n = [("Id", "P1"); ("Name", "Core")].

Definition is_scenario_element (n : node) : Prop :=
  tag n = "Element" /\
  attrib n = [("Id", "E1"); ("Name", "Order"); ("Type", "Class");
              ("PackageID", "P1")].

Definition recognised (n : node) : bool :=
  is_package_candidate n || is_element_candidate n.

Definition scenario_A (root : node) : Prop :=
  exists P E,
    is_scenario_package P /\ is_scenario_element E /\
    (filter recognised (iter root) = [P; E] \/
     filter recognised (iter root) = [E; P]).

(** [<Root><Package Id="P1" Name="Core"/><Element Id="E1" Name="Order"
    Type="Class" PackageID="P1"/></Root>]. *)
Definition scenario_A_package : node :=
  leaf "Package" [("Id", "P1"); ("Name", "Core")] None 2.

Definition scenario_A_element : node :=
  leaf "Element"
    [("Id", "E1"); ("Name", "Order"); ("Type", "Class"); ("PackageID", "P1")]
    None 3.

Definition scenario_A_document : node :=
  Element "Root" [] None [scenario_A_package; scenario_A_element] 1.

(* ================================================================== *)
(** ** The extractors in closed form                                   *)
(* ================================================================== *)

(** The nodes that the loops of lines 301, 318, 333 and 606 visit (the
    searches of lines 299, 316, 332 and 601-604), in the order of the
    visits: the matches of the first search, then those of the
    second. *)
Definition attribute_nodes (element : node) : list node :=
  select [Desc "Attributes"; Child "Attribute"] element
  ++ select [Desc "Attribute"] element.

Definition operation_nodes (element : node) : list node :=
  select [Desc "Operations"; Child "Operation"] element
  ++ select [Desc "Operation"] element.

Definition parameter_nodes (op : node) : list node :=
  select [Desc "Parameters"; Child "Parameter"] op
  ++ select [Desc "Parameter"] op.

Definition tagged_value_nodes (root : node) : list node :=
  select [Desc "TaggedValues"; Child "TaggedValue"] root
  ++ select [Desc "TaggedValue"] root.

(** The entries built for an attribute and for an operation:
    [make_attr_info] and [make_op_info] return them on every node
    ([make_attr_info_eq], [make_op_info_eq]). *)
Definition attr_info_of (attr : node) : attr_info :=
  {| attr_id := get attr "Id" |or| get attr "id";
     attr_name := get attr "Name" |or| get_default attr "name" "unnamed";
     attr_type := get attr "Type" |or| get attr "type";
     attr_visibility := get attr "Visibility" |or| get attr "visibility";
     attr_static := is_true_str (get attr "Static");
     attr_default := get attr "Default";
     attr_notes := notes_of attr;
     attr_stereotype := get attr "Stereotype" |}.

Definition op_info_of (op : node) : op_info :=
  {| op_id := get op "Id" |or| get op "id";
     op_name := get op "Name" |or| get_default op "name" "unnamed";
     op_type := get op "Type" |or| get op "type";
     op_visibility := get op "Visibility" |or| get op "visibility";
     op_static := is_true_str (get op "Static");
     op_abstract := is_true_str (get op "Abstract");
     op_notes := notes_of op;
     op_stereotype := get op "Stereotype";
     op_parameters := map make_param_info (parameter_nodes op) |}.

(** The element id of a tagged value, line 607, and its entry, lines
    608-612. *)
Definition tagged_key (tv : node) : ostr :=
  get tv "ElementID" |or| get tv "element".

Definition tag_info_of (tv : node) : tag_info :=
  {| tv_name := get tv "Name" |or| get tv "name";
     tv_value := get tv "Value" |or| get tv "value" |or| text tv;
     tv_notes := notes_of tv |}.

(** Lines 614-615 for one tagged value. *)
Definition record_tagged_value (tv : node) (self : analyzer) : analyzer :=
  if truthy (tagged_key tv) then
    with_tagged_values (tagged_append (tagged_key tv) (tag_info_of tv)) self
  else self.

(** The node a role is read from, lines 577 and 585: the first match of
    the first tag when it has child elements, the first match of the
    second tag otherwise. *)
Definition role_node (conn : node) (first second : string) : option node :=
  if elem_bool (hd_error (select [Desc first] conn))
  then hd_error (select [Desc first] conn)
  else hd_error (select [Desc second] conn).

(** The entry built for a connector ([make_conn_info_eq]). *)
Definition conn_info_of (conn : node) : conn_info :=
  {| cn_id := connector_key conn;
     cn_name := get conn "Name" |or| get conn "name";
     cn_type := get conn "Type" |or| get conn "type";
     cn_source_id := get conn "SourceID" |or| get conn "source";
     cn_target_id := get conn "TargetID" |or| get conn "target";
     cn_direction := get conn "Direction";
     cn_stereotype := get conn "Stereotype";
     cn_notes := notes_of conn;
     cn_source_role :=
       option_map make_role_info (role_node conn "SourceRole" "Source");
     cn_target_role :=
       option_map make_role_info (role_node conn "TargetRole" "Target") |}.

(** The nodes that the loop of lines 160-175 runs over. *)
Definition model_candidates (root : node) : list node :=
  filter (fun elem => Str.mem (tag_name elem) ["model"; "documentation"])
         (iter root).

(** The model information of a document: what lines 145-181 leave in a
    dictionary that is empty at the start. *)
Definition model_info_of (root : node) : dict ostr :=
  let mi := model_info_loop (model_candidates root) [] in
  if negb (truthy (model_info_name mi)) then
    dict_set (Some "type") (Some ("XML Root: " ^^ local_name root))
   (dict_set (Some "name")
      (get root "name" |or| get root "Name" |or| Some "Extracted Model") mi)
  else mi.

(** The line printed by the handler of lines 84-85. *)
Definition diagrams_warning : string :=
  "Warning: Could not extract diagrams: prefix 'xmi' not found in prefix map".

(** The analyzer after the six extractors, before the assembler: the
    loops, one after the other, over their candidate lists. *)
Definition extraction_state (root : node) : analyzer :=
  fold_left (fun self tv => record_tagged_value tv self)
    (tagged_value_nodes root)
    (fold_left (fun self conn => record_connector (conn_info_of conn) self)
       (connector_nodes root)
       (with_stdout (fun out => out ++ [diagrams_warning])
          (fold_left (fun self elem => record_element (elem_info_of elem) self)
             (element_candidates root)
             (fold_left (fun self pkg => record_package (pkg_info_of pkg) self)
                (package_candidates root)
                (with_model_info (fun _ => model_info_of root) (reset [])))))).

(** The keys of the packages whose parent id is [k], and of the
    elements whose package id is [k], in the order of the collection. *)
Definition children_of (k : ostr) (pk : dict pkg_info) : list ostr :=
  map fst
    (filter (fun '(_, pkg) =>
               truthy (pkg_parent_id pkg) && ostr_eqb (pkg_parent_id pkg) k)
            pk).

Definition members_of (k : ostr) (els : dict elem_info) : list ostr :=
  map fst
    (filter (fun '(_, elem) =>
               truthy (el_package_id elem) && ostr_eqb (el_package_id elem) k)
            els).

(** The last entry of a list that satisfies a test. *)
Definition last_with {X} (p : X -> bool) (l : list X) : option X :=
  List.find p (rev l).

(** [sum(c.values())] for a counter. *)
Definition counter_total (c : Counter) : nat := list_sum (map snd c).

(** The collections and counters after the loops, from their candidate
    lists. *)
Definition connectors_of (candidates : list node) : dict conn_info :=
  fold_left (fun d c => dict_set (connector_key c) (conn_info_of c) d)
            candidates [].

Definition connector_types_of (candidates : list node) : Counter :=
  fold_left (fun n c => counter_incr (cn_type (conn_info_of c)) n) candidates [].

Definition tagged_values_of (candidates : list node) : dict (list tag_info) :=
  fold_left
    (fun d tv =>
       if truthy (tagged_key tv)
       then tagged_append (tagged_key tv) (tag_info_of tv) d
       else d)
    candidates [].

(** [if v: names.add(v)], lines 222-225 and 286-289. *)
Definition add_name (v : ostr) (names : list string) : list string :=
  match v with
  | Some s => if truthy v then set_add s names else names
  | None => names
  end.

Definition authors_of (root : node) : list string :=
  fold_left (fun l e => add_name (el_author (elem_info_of e)) l)
    (element_candidates root)
    (fold_left (fun l p => add_name (pkg_author (pkg_info_of p)) l)
       (package_candidates root) []).

Definition versions_of (root : node) : list string :=
  fold_left (fun l e => add_name (el_version (elem_info_of e)) l)
    (element_candidates root)
    (fold_left (fun l p => add_name (pkg_version (pkg_info_of p)) l)
       (package_candidates root) []).

(** The tagged values that name the element id [k], in the order of the
    visits. *)
Definition tagged_for (k : ostr) (root : node) : list tag_info :=
  map tag_info_of
    (filter (fun tv => truthy (tagged_key tv) && ostr_eqb k (tagged_key tv))
            (tagged_value_nodes root)).

(** [<Class Id="E1" Name="Order"><Attributes><Attribute Name="total"/>
    </Attributes><Operation Name="pay"><Parameters><Parameter Name="sum"/>
    </Parameters></Operation><Class Id="E2" Name="Line"><Attribute
    Name="qty"/></Class></Class>]. *)
Definition total_attribute : node := leaf "Attribute" [("Name", "total")] None 3.

Definition sum_parameter : node := leaf "Parameter" [("Name", "sum")] None 6.

Definition pay_operation : node :=
  Element "Operation" [("Name", "pay")] None
    [Element "Parameters" [] None [sum_parameter] 5] 4.

Definition line_class : node :=
  Element "Class" [("Id", "E2"); ("Name", "Line")] None
    [leaf "Attribute" [("Name", "qty")] None 8] 7.

Definition order_with_line : node :=
  Element "Class" [("Id", "E1"); ("Name", "Order")] None
    [ Element "Attributes" [] None [total_attribute] 2;
      pay_operation;
      line_class ] 1.

(** A document with a package tree, a package and an element that name
    a missing package, two connectors with the same id, and tagged
    values with, without and with an unknown element id:
    [<Root>
       <Package Id="P1" Name="Core"/>
       <Package Id="P2" Name="Sub" ParentID="P1"/>
       <Package Id="P3" Name="Lost" ParentID="P9"/>
       <Class Id="E1" Name="Order" package="P2" Author="ann"/>
       <Class Id="E2" Name="Stray" package="P7" Author="ann"/>
       <Connector Id="C1" Type="Association" SourceID="E1" TargetID="E9">
         <SourceRole Name="from"/></Connector>
       <Connector Id="C1" Type="Dependency" SourceID="E2" TargetID="E1"/>
       <TaggedValues><TaggedValue ElementID="E1" Name="owner" Value="ops"/>
       </TaggedValues>
       <TaggedValue Name="orphan" Value="x"/>
       <TaggedValue ElementID="E7" Name="ghost" Value="y"/>
     </Root>]. *)
Definition association_connector : node :=
  Element "Connector"
    [("Id", "C1"); ("Type", "Association"); ("SourceID", "E1"); ("TargetID", "E9")]
    None [leaf "SourceRole" [("Name", "from")] None 8] 7.

Definition owner_tag : node :=
  leaf "TaggedValue" [("ElementID", "E1"); ("Name", "owner"); ("Value", "ops")]
    None 11.

Definition library_document : node :=
  Element "Root" [] None
    [ leaf "Package" [("Id", "P1"); ("Name", "Core")] None 2;
      leaf "Package" [("Id", "P2"); ("Name", "Sub"); ("ParentID", "P1")] None 3;
      leaf "Package" [("Id", "P3"); ("Name", "Lost"); ("ParentID", "P9")] None 4;
      leaf "Class"
        [("Id", "E1"); ("Name", "Order"); ("package", "P2"); ("Author", "ann")]
        None 5;
      leaf "Class"
        [("Id", "E2"); ("Name", "Stray"); ("package", "P7"); ("Author", "ann")]
        None 6;
      association_connector;
      leaf "Connector"
        [("Id", "C1"); ("Type", "Dependency"); ("SourceID", "E2");
         ("TargetID", "E1")] None 9;
      Element "TaggedValues" [] None [owner_tag] 10;
      leaf "TaggedValue" [("Name", "orphan"); ("Value", "x")] None 12;
      leaf "TaggedValue" [("ElementID", "E7"); ("Name", "ghost"); ("Value", "y")]
        None 13 ] 1.

(** The text of the dialogue of [show_diagrams], lines 1096-1101 of
    class [EAAnalyzerGUI], from the returned [diagrams]. *)
Definition show_diagrams (diagrams : dict diag_info) : string :=
  let diagrams_with_images := filter (fun d => dg_has_image d) (map snd diagrams) in
  "Found " ^^ str_of_N (N.of_nat (List.length diagrams)) ^^ " diagrams."
  ^^ String newline
       (str_of_N (N.of_nat (List.length diagrams_with_images))
        ^^ " diagrams have embedded images."
        ^^ String newline (String newline
             "Diagram viewer will be implemented in the next phase.")).

(** The two tests of the loop of lines 160-175. *)
Definition is_model_node (elem : node) : bool :=
  String.eqb (tag_name elem) "model".

Definition is_documentation_node (elem : node) : bool :=
  String.eqb (tag_name elem) "documentation" && truthy (text elem).

(** The nodes of a list that come before its first model node. *)
Fixpoint before_model (l : list node) : list node :=
  match l with
  | [] => []
  | elem :: rest => if is_model_node elem then [] else elem :: before_model rest
  end.


(** One list is obtained from another by deleting entries. *)
Inductive deleted_from {A : Type} : list A -> list A -> Prop :=
| deleted_nil : deleted_from [] []
| deleted_keep (x : A) (l1 l2 : list A) :
    deleted_from l1 l2 -> deleted_from (x :: l1) (x :: l2)
| deleted_drop (x : A) (l1 l2 : list A) :
    deleted_from l1 l2 -> deleted_from l1 (x :: l2).

(* ================================================================== *)
(** ** The result views of [EAAnalyzerGUI]                             *)
(* ================================================================== *)

(** A row of the table of elements: the [values] of lines 954-962. *)
Record element_row := {
  row_name : ostr; row_type : ostr; row_package_name : ostr;
  row_stereotype : ostr; row_attributes : nat; row_operations : nat;
  row_author : ostr
}.

(** [populate_elements], lines 939-962: the rows of the table after the
    call, in order. *)
Definition populate_elements (elements : dict elem_info)
  (packages : dict pkg_info) : list element_row :=
  map (fun '(elem_id, elem) =>
         let package_name :=
           if truthy (el_package_id elem) && dict_mem (el_package_id elem) packages
           then match dict_get (el_package_id elem) packages with
                | Some p => pkg_name p
                | None => Some ""
                end
           else Some "" in
         {| row_name := el_name elem;
            row_type := el_type elem;
            row_package_name := package_name;
            row_stereotype := el_stereotype elem;
            row_attributes := List.length (el_attributes elem);
            row_operations := List.length (el_operations elem);
            row_author := el_author elem |})
      elements.

(** A row of the table of packages: the [values] of lines 929-937. *)
Record package_row := {
  prow_name : ostr; prow_stereotype : ostr; prow_elements : nat;
  prow_sub_packages : nat; prow_author : ostr; prow_version : ostr;
  prow_modified : ostr
}.

(** [populate_packages], lines 919-937. *)
Definition populate_packages (packages : dict pkg_info) : list package_row :=
  map (fun '(pkg_id, pkg) =>
         {| prow_name := pkg_name pkg;
            prow_stereotype := pkg_stereotype pkg;
            prow_elements := List.length (pkg_elements pkg);
            prow_sub_packages := List.length (pkg_sub_packages pkg);
            prow_author := pkg_author pkg;
            prow_version := pkg_version pkg;
            prow_modified := pkg_modified pkg |})
      packages.

#[local] Set Warnings "-register-all".

(** An item of a [ttk.Treeview]: its text and the items inserted below
    it, in order. *)
Inductive tree_item :=
| TreeItem (item_text : string) (item_children : list tree_item).

(** The texts of an item and of the items below it, from top to
    bottom. *)
Fixpoint item_texts (t : tree_item) : list string :=
  match t with
  | TreeItem s cs => s :: flat_map item_texts cs
  end.

(** Run [f] over a list; [None] as soon as one call gives [None]. *)
Fixpoint traverse {A B} (f : A -> option B) (l : list A) : option (list B) :=
  match l with
  | [] => Some []
  | a :: l' =>
      match f a with
      | Some b => option_map (cons b) (traverse f l')
      | None => None
      end
  end.

(** The text of line 1078. *)
Definition package_label (package : pkg_info) : string :=
  fmt (pkg_name package) ^^ " ("
  ^^ str_of_N (N.of_nat (List.length (pkg_elements package))) ^^ " elements)".

(** The packages that the loop of lines 1080-1082 recurses into: those
    of the listed ids that are keys of [all_packages]. *)
Definition listed_packages (all_packages : dict pkg_info) (ids : list ostr)
  : list pkg_info :=
  flat_map (fun sub_pkg_id =>
              match dict_get sub_pkg_id all_packages with
              | Some sub => [sub]
              | None => []
              end)
           ids.

(** [_add_package_to_tree], lines 1077-1082: the item inserted for the
    package, with the items below it.  [depth] is the number of nested
    calls that the interpreter still allows; [None] stands for the
    [RecursionError] raised when they are used up. *)
Fixpoint _add_package_to_tree (depth : nat) (all_packages : dict pkg_info)
  (package : pkg_info) : option tree_item :=
  match depth with
  | 0 => None
  | S d =>
      option_map (TreeItem (package_label package))
        (traverse (_add_package_to_tree d all_packages)
           (listed_packages all_packages (pkg_sub_packages package)))
  end.

(** [show_package_hierarchy], lines 1056-1075: the items at the top of
    the tree. *)
Definition show_package_hierarchy (depth : nat) (packages : dict pkg_info)
  : option (list tree_item) :=
  let root_packages :=
    filter (fun pkg => negb (truthy (pkg_parent_id pkg))) (map snd packages) in
  traverse (_add_package_to_tree depth packages) root_packages.

(** The packages for which [_add_package_to_tree] is called, in the
    order of the calls. *)
Fixpoint packages_added (depth : nat) (all_packages : dict pkg_info)
  (package : pkg_info) : option (list pkg_info) :=
  match depth with
  | 0 => None
  | S d =>
      option_map (fun below => package :: List.concat below)
        (traverse (packages_added d all_packages)
           (listed_packages all_packages (pkg_sub_packages package)))
  end.

Definition packages_shown (depth : nat) (packages : dict pkg_info)
  : option (list pkg_info) :=
  option_map (@List.concat pkg_info)
    (traverse (packages_added depth packages)
       (filter (fun pkg => negb (truthy (pkg_parent_id pkg))) (map snd packages))).

(** The parent id stored for a key. *)
Definition parent_of (packages : dict pkg_info) (k : ostr) : ostr :=
  match dict_get k packages with
  | Some p => pkg_parent_id p
  | None => None
  end.

(** A list of keys in which each key has the next one as its parent, up
    to a last key without parent. *)
Fixpoint linked (packages : dict pkg_info) (path : list ostr) : Prop :=
  match path with
  | [] => True
  | k :: rest =>
      match rest with
      | [] => truthy (parent_of packages k) = false
      | k' :: _ => truthy (parent_of packages k) = true /\ parent_of packages k = k'
      end /\ linked packages rest
  end.

(* ================================================================== *)
(** ** The size in the returned dictionary                             *)
(* ================================================================== *)

(** The number of bytes of a code point in UTF-8; a surrogate cannot be
    encoded. *)
Definition utf8_length (cp : N) : option nat :=
  if (cp <? 0x80)%N then Some 1
  else if (cp <? 0x800)%N then Some 2
  else if ((0xD800 <=? cp) && (cp <=? 0xDFFF))%N then None
  else if (cp <? 0x10000)%N then Some 3
  else Some 4.

(** [len(content.encode('utf-8'))]; [None] for the
    [UnicodeEncodeError] of a surrogate. *)
Fixpoint encoded_length (content : pystr) : option nat :=
  match content with
  | [] => Some 0
  | cp :: rest =>
      match utf8_length cp, encoded_length rest with
      | Some a, Some b => Some (a + b)
      | _, _ => None
      end
  end.

(** The entry [file_size] of line 102.  [UnicodeEncodeError] is a
    [ValueError]; no handler of [analyze_file] would catch it. *)
Definition file_size (content : pystr) : result nat :=
  match encoded_length content with
  | Some n => Ok n
  | None =>
      Raise (ValueError "'utf-8' codec can't encode character: surrogates not allowed")
  end.

(** The bytes of a file that are not ASCII. *)
Definition high_bytes (raw : bytes) : nat :=
  List.length (filter (fun b => (0x80 <=? Byte.to_N b)%N) raw).

(** [<Class Id="E1" Notes="from attribute"><Notes>own</Notes>
    <Operation><Documentation>of the operation</Documentation></Operation>
    </Class>]: a [Notes] child without child elements, and a
    [Documentation] node further down. *)
Definition class_with_notes : node :=
  Element "Class" [("Id", "E1"); ("Notes", "from attribute")] None
    [ leaf "Notes" [] (Some "own") 2;
      Element "Operation" [] None
        [leaf "Documentation" [] (Some "of the operation") 4] 3 ] 1.

(* ================================================================== *)
(** * Properties                                                       *)
(* ================================================================== *)

(** ** The monad and its loops *)

Lemma for_each_pure {S X} (body : X -> SE S unit) (g : X -> S -> S) :
  (forall x s, body x s = (g x s, Ok tt)) ->
  forall xs s,
    for_each xs body s = (fold_left (fun acc x => g x acc) xs s, Ok tt).
Proof.
  intros Hbody xs; induction xs as [|x xs IH]; intros s; cbn.
  - reflexivity.
  - unfold bind. rewrite Hbody. apply IH.
Qed.

(** ** Paths without a prefix never raise *)

Lemma find_plain (e : node) (t : string) :
  unknown_prefix t = None ->
  find e [Desc t] = Ok (hd_error (select [Desc t] e)).
Proof.
  intros H. unfold find, findall. cbn. rewrite H. reflexivity.
Qed.

Lemma find_or_plain (e : node) (t1 t2 : string) :
  unknown_prefix t1 = None -> unknown_prefix t2 = None ->
  exists r, find_or e [Desc t1] [Desc t2] = Ok r.
Proof.
  intros H1 H2. unfold find_or. rewrite find_plain by exact H1. cbn [rbind].
  destruct (elem_bool _); [eauto|]. rewrite find_plain by exact H2. eauto.
Qed.

(** [_extract_notes] returns on every node. *)
Lemma extract_notes_total (element : node) :
  exists s, _extract_notes element = Ok s.
Proof.
  unfold _extract_notes.
  destruct (find_or_plain element "Notes" "Documentation") as [r ->];
    try reflexivity.
  cbn [rbind]. destruct r; eauto.
Qed.

Lemma extract_notes_eq (element : node) :
  _extract_notes element = Ok (notes_of element).
Proof.
  unfold notes_of. destruct (extract_notes_total element) as [s ->]. reflexivity.
Qed.

(** The information built for a package and for an element. *)
Lemma make_pkg_info_eq (pkg : node) : make_pkg_info pkg = Ok (pkg_info_of pkg).
Proof. unfold make_pkg_info. now rewrite extract_notes_eq. Qed.

Lemma make_elem_info_eq (elem : node) :
  make_elem_info elem = Ok (elem_base_of elem).
Proof. unfold make_elem_info. now rewrite extract_notes_eq. Qed.

(** ** C2: the notes helper *)

(** What the helper returns, case by case: the text of the first Notes
    descendant when that node has children; otherwise the text of the
    first Documentation descendant; otherwise the Notes attribute;
    otherwise the empty string. *)
Lemma extract_notes_cases (element : node) :
  _extract_notes element =
  Ok (let from_attribute :=
        match get element "Notes" with Some s => s | None => "" end in
      let from_documentation :=
        match hd_error (select [Desc "Documentation"] element) with
        | Some doc => text_or_empty (text doc)
        | None => from_attribute
        end in
      match hd_error (select [Desc "Notes"] element) with
      | Some n =>
          match children n with
          | _ :: _ => text_or_empty (text n)
          | [] => from_documentation
          end
      | None => from_documentation
      end).
Proof.
  unfold _extract_notes, find_or.
  rewrite !find_plain by reflexivity. cbn [rbind]. unfold get_default.
  destruct (hd_error (select [Desc "Notes"] element)) as [n|]; cbn [elem_bool].
  - destruct (children n); cbn [rbind]; [|reflexivity].
    destruct (hd_error (select [Desc "Documentation"] element)); [reflexivity|].
    now destruct (get element "Notes").
  - cbn [rbind].
    destruct (hd_error (select [Desc "Documentation"] element)); [reflexivity|].
    now destruct (get element "Notes").
Qed.

(** C2.  On [<Package Id="P1"><Notes>hello</Notes></Package>] the notes
    helper finds the nested Notes child, which has no children of its own
    and is therefore falsy in the [or] of line 619; with no Documentation
    child the helper falls through to the absent Notes attribute and
    returns the empty string, not the child's text. *)
Theorem extract_notes_drops_childless_notes :
  find package_with_notes [Desc "Notes"]
    = Ok (Some (leaf "Notes" [] (Some "hello") 2)) /\
  _extract_notes package_with_notes = Ok "".
Proof. split; reflexivity. Qed.

(** ** The base64 alphabet *)




(** ** The content loader *)

(** Latin-1 accepts every byte sequence, so the loop over the encodings
    ends at its second name at the latest. *)
Lemma try_encodings_result (dc du : bytes -> option pystr) (raw : bytes) :
  try_encodings dc du encodings raw =
  Some (universal_newlines
          (match utf8_decode raw with
           | Some t => t
           | None => latin1_decode raw
           end)).
Proof.
  unfold encodings. cbn. destruct (utf8_decode raw); reflexivity.
Qed.

Lemma utf8_ignore_total (bs : bytes) :
  forall st, exists t, utf8_decode_from false st bs = Some t.
Proof.
  induction bs as [|b bs IH]; intros st; cbn [utf8_decode_from].
  - destruct st; eauto.
  - assert (Hstart : exists t,
      match start_byte (Byte.to_N b) with
      | Some (inl cp) => option_map (cons cp) (utf8_decode_from false Start bs)
      | Some (inr st') => utf8_decode_from false st' bs
      | None => utf8_decode_from false Start bs
      end = Some t).
    { destruct (start_byte (Byte.to_N b)) as [[cp|st']|]; auto.
      destruct (IH Start) as [t ->]. cbn. eauto. }
    destruct st as [|need acc lo hi]; [exact Hstart|].
    destruct (_ && _); [|exact Hstart].
    destruct need as [|[|k]]; auto; destruct (IH Start) as [t ->]; cbn; eauto.
Qed.

(** The lenient decoding always gives a text. *)
Lemma utf8_decode_ignore_spec (bs : bytes) :
  utf8_decode_from false Start bs = Some (utf8_decode_ignore bs).
Proof.
  unfold utf8_decode_ignore.
  now destruct (utf8_ignore_total bs Start) as [t ->].
Qed.

(** X27.  With any cp1252 and utf-16 codecs: a file that can be read
    is returned in its UTF-8 reading when its bytes are valid UTF-8 and
    in its Latin-1 reading otherwise, line ends translated: the loop of
    lines 133-138 never leaves without a text, so the codecs after
    [latin-1] and the raw-bytes reading of lines 140-143 have no part in
    the result; and the load fails exactly when the file cannot be
    opened or read, with the exception of the read. *)
Theorem loader_returns_utf8_or_latin1 (decode_cp1252 decode_utf16 : bytes -> option pystr) :
  (forall raw,
      try_encodings decode_cp1252 decode_utf16 encodings raw <> None /\
      _read_file_with_encoding decode_cp1252 decode_utf16 (Ok raw) =
      Ok (universal_newlines
            (match utf8_decode raw with
             | Some t => t
             | None => latin1_decode raw
             end))) /\
  (forall file,
      (exists e, _read_file_with_encoding decode_cp1252 decode_utf16 file = Raise e)
      <-> (exists e, file = Raise e)) /\
  (forall e,
      _read_file_with_encoding decode_cp1252 decode_utf16 (Raise e) = Raise e).
Proof.
  split; [|split].
  - intros raw. unfold _read_file_with_encoding.
    rewrite try_encodings_result. split; [discriminate | reflexivity].
  - intros file. unfold _read_file_with_encoding. destruct file as [raw|e].
    + rewrite try_encodings_result. split; intros [e H]; discriminate.
    + split; intros _; eauto.
  - reflexivity.
Qed.


(** ** C4: the parse strategies *)

Lemma parse_error_msg_some {A} (r : result A) (m : string) :
  parse_error_msg r = Some m <-> r = Raise (ParseError m).
Proof.
  destruct r as [a|[]]; cbn; split; intros H; inversion H; reflexivity.
Qed.

Lemma parse_error_msg_none {A} (r : result A) :
  parse_error_msg r = None -> forall m, r <> Raise (ParseError m).
Proof. intros H m ->. discriminate. Qed.

(** The only handler is for [ET.ParseError]: each attempt is made when
    the one before raised it, and any other outcome is final. *)
Lemma parse_root_cases (P : bytes -> result node) (F : pystr -> result node)
  (raw : bytes) (content : pystr) :
  parse_root P F raw content =
  let three := [ParseFile; ParseContent content;
                ParseCleaned (_clean_xml_content content)] in
  match parse_error_msg (P raw) with
  | None => ([ParseFile], P raw)
  | Some e =>
      match parse_error_msg (F content) with
      | None => ([ParseFile; ParseContent content], F content)
      | Some _ =>
          match parse_error_msg (F (_clean_xml_content content)) with
          | None => (three, F (_clean_xml_content content))
          | Some _ => (three, Raise (ValueError ("Invalid XML format: " ^^ e)))
          end
      end
  end.
Proof.
  unfold parse_root.
  destruct (P raw) as [r1|[]]; try reflexivity.
  destruct (F content) as [r2|[]]; try reflexivity.
  destruct (F (_clean_xml_content content)) as [r3|[]]; reflexivity.
Qed.

(** C4.  With any parser and codecs: for a file that cannot be read no
    attempt is made; for a file that can be read, the attempts made are
    an initial part of the list strict parse, parse of the decoded text,
    parse of the stripped text; the second is made
    exactly when the first raised a parse error and the third exactly
    when the first two did; a strict parse that succeeds is the only
    attempt, nothing is stripped, and the analysis returns a model; and
    when all three raise a parse error the analysis raises the
    [ValueError] whose message carries the message of the first.  Each
    attempt decides the outcome: when the parse of the decoded text
    succeeds after a parse error of the strict parse, the model is
    extracted from its tree and nothing is stripped; when the parse of
    the stripped text succeeds after two parse errors, the model is
    extracted from its tree; and an exception of an attempt that is not
    a parse error ends the attempts and is the outcome. *)
Theorem parse_strategies_in_order
  (decode_cp1252 decode_utf16 : bytes -> option pystr)
  (b64decode_validate : string -> bool)
  (ET_parse : bytes -> result node) (ET_fromstring : pystr -> result node)
  (raw : bytes) (content : pystr) :
  _read_file_with_encoding decode_cp1252 decode_utf16 (Ok raw) = Ok content ->
  let run := analyze_file decode_cp1252 decode_utf16 b64decode_validate
               ET_parse ET_fromstring (Ok raw) in
  let cleaned := _clean_xml_content content in
  (forall e,
      analyze_file decode_cp1252 decode_utf16 b64decode_validate
        ET_parse ET_fromstring (Raise e) = ([], Raise e)) /\
  (exists n, fst run =
             firstn (S n) [ParseFile; ParseContent content; ParseCleaned cleaned]) /\
  (In (ParseContent content) (fst run)
   <-> exists m, ET_parse raw = Raise (ParseError m)) /\
  (existsb is_stripping_attempt (fst run) = true
   <-> exists m m', ET_parse raw = Raise (ParseError m) /\
                    ET_fromstring content = Raise (ParseError m')) /\
  (forall root,
      ET_parse raw = Ok root ->
      fst run = [ParseFile] /\
      snd run = Ok (extract_model b64decode_validate root)) /\
  (forall m1 m2 m3,
      ET_parse raw = Raise (ParseError m1) ->
      ET_fromstring content = Raise (ParseError m2) ->
      ET_fromstring cleaned = Raise (ParseError m3) ->
      fst run = [ParseFile; ParseContent content; ParseCleaned cleaned] /\
      snd run = Raise (ValueError ("Invalid XML format: " ^^ m1))) /\
  (forall m1 root,
      ET_parse raw = Raise (ParseError m1) ->
      ET_fromstring content = Ok root ->
      run = ([ParseFile; ParseContent content],
             Ok (extract_model b64decode_validate root))) /\
  (forall m1 m2 root,
      ET_parse raw = Raise (ParseError m1) ->
      ET_fromstring content = Raise (ParseError m2) ->
      ET_fromstring cleaned = Ok root ->
      run = ([ParseFile; ParseContent content; ParseCleaned cleaned],
             Ok (extract_model b64decode_validate root))) /\
  (forall e,
      ET_parse raw = Raise e ->
      (forall m, e <> ParseError m) ->
      run = ([ParseFile], Raise e)) /\
  (forall m1 e,
      ET_parse raw = Raise (ParseError m1) ->
      ET_fromstring content = Raise e ->
      (forall m, e <> ParseError m) ->
      run = ([ParseFile; ParseContent content], Raise e)) /\
  (forall m1 m2 e,
      ET_parse raw = Raise (ParseError m1) ->
      ET_fromstring content = Raise (ParseError m2) ->
      ET_fromstring cleaned = Raise e ->
      (forall m, e <> ParseError m) ->
      run = ([ParseFile; ParseContent content; ParseCleaned cleaned], Raise e)).
Proof.
  intros Hread run cleaned. split; [reflexivity|].
  assert (Hrun : run =
    match parse_root ET_parse ET_fromstring raw content with
    | (attempts, Ok root) =>
        (attempts, Ok (extract_model b64decode_validate root))
    | (attempts, Raise e) => (attempts, Raise e)
    end).
  { subst run. unfold analyze_file. now rewrite Hread. }
  clearbody run. subst run. rewrite parse_root_cases. cbv zeta.
  fold cleaned. clearbody cleaned.
  destruct (parse_error_msg (ET_parse raw)) as [e1|] eqn:E1.
  2: { (* the strict parse returned, or raised something else *)
       assert (H1 := parse_error_msg_none _ E1).
       destruct (ET_parse raw) as [r1|x1] eqn:EP; cbn [fst snd].
       all: split; [now exists 0|].
       all: split; [split; [intros [H|[]]; discriminate
                           | intros [m H]; try discriminate; now destruct (H1 m)]|].
       all: split; [split; [discriminate
                           | intros (m & m' & H & _); try discriminate;
                             now destruct (H1 m)]|].
       all: split; [intros root H; inversion H; subst; now split|].
       all: split; [intros m1 m2 m3 H; try discriminate; now destruct (H1 m1)|].
       all: split; [intros m1 root H; try discriminate; now destruct (H1 m1)|].
       all: split; [intros m1 m2 root H; try discriminate; now destruct (H1 m1)|].
       all: split; [intros e H _; inversion H; subst; reflexivity|].
       all: split; [intros m1 e H; try discriminate; now destruct (H1 m1)
                   | intros m1 m2 e H; try discriminate; now destruct (H1 m1)]. }
  apply parse_error_msg_some in E1.
  destruct (parse_error_msg (ET_fromstring content)) as [e2|] eqn:E2.
  2: { (* the parse of the decoded text returned, or raised something else *)
       assert (H2 := parse_error_msg_none _ E2).
       destruct (ET_fromstring content) as [r2|x2] eqn:EF; cbn [fst snd].
       all: split; [now exists 1|].
       all: split; [split; [eauto | intros _; right; now left]|].
       all: split; [split; [discriminate
                           | intros (m & m' & _ & H); try discriminate;
                             now destruct (H2 m')]|].
       all: split; [intros root H; rewrite E1 in H; discriminate|].
       all: split; [intros m1 m2 m3 _ H; try discriminate; now destruct (H2 m2)|].
       all: split; [intros m1 root _ H; inversion H; subst; reflexivity|].
       all: split; [intros m1 m2 root _ H; try discriminate; now destruct (H2 m2)|].
       all: split; [intros e H Hn; rewrite E1 in H; inversion H; subst;
                    now destruct (Hn e1)|].
       all: split; [intros m1 e _ H _; inversion H; subst; reflexivity
                   | intros m1 m2 e _ H; try discriminate; now destruct (H2 m2)]. }
  apply parse_error_msg_some in E2.
  destruct (parse_error_msg (ET_fromstring cleaned)) as [e3|] eqn:E3.
  2: { (* the parse of the stripped text returned, or raised something else *)
       assert (H3 := parse_error_msg_none _ E3).
       destruct (ET_fromstring cleaned) as [r3|x3] eqn:EC; cbn [fst snd].
       all: split; [now exists 2|].
       all: split; [split; [eauto | intros _; right; now left]|].
       all: split; [split; [eauto | reflexivity]|].
       all: split; [intros root H; rewrite E1 in H; discriminate|].
       all: split; [intros m1 m2 m3 _ _ H; try discriminate; now destruct (H3 m3)|].
       all: split; [intros m1 root _ H; rewrite E2 in H; discriminate|].
       all: split; [intros m1 m2 root _ _ H; inversion H; subst; reflexivity|].
       all: split; [intros e H Hn; rewrite E1 in H; inversion H; subst;
                    now destruct (Hn e1)|].
       all: split; [intros m1 e _ H Hn; rewrite E2 in H; inversion H; subst;
                    now destruct (Hn e2)
                   | intros m1 m2 e _ _ H _; inversion H; subst; reflexivity]. }
  apply parse_error_msg_some in E3. cbn [fst snd].
  split; [now exists 2|].
  split; [split; [eauto | intros _; right; now left]|].
  split; [split; [eauto | reflexivity]|].
  split; [intros root H; rewrite E1 in H; discriminate|].
  split.
  { intros m1 m2 m3 H1 _ _. rewrite E1 in H1. inversion H1; subst. now split. }
  split; [intros m1 root _ H; rewrite E2 in H; discriminate|].
  split; [intros m1 m2 root _ _ H; rewrite E3 in H; discriminate|].
  split; [intros e H Hn; rewrite E1 in H; inversion H; subst; now destruct (Hn e1)|].
  split.
  - intros m1 e _ H Hn. rewrite E2 in H. inversion H; subst. now destruct (Hn e2).
  - intros m1 m2 e _ _ H Hn. rewrite E3 in H. inversion H; subst.
    now destruct (Hn e3).
Qed.

(** A file that all three attempts reject with a parse error. *)
Lemma parse_strategies_in_order_witness :
  analyze_file no_codec no_codec canonical_base64
    rejecting_parse rejecting_fromstring (Ok (ascii_bytes "<a"))
  = ([ParseFile; ParseContent (codes "<a");
      ParseCleaned (_clean_xml_content (codes "<a"))],
     Raise (ValueError ("Invalid XML format: " ^^ expat_message))).
Proof.
  pose proof (parse_strategies_in_order no_codec no_codec canonical_base64
                rejecting_parse rejecting_fromstring
                (ascii_bytes "<a") (codes "<a") eq_refl) as H.
  cbv zeta in H. destruct H as (_ & _ & _ & _ & _ & H & _).
  destruct (H expat_message "syntax error: line 1, column 0"
              "syntax error: line 1, column 0" eq_refl eq_refl eq_refl) as [H1 H2].
  rewrite (surjective_pairing (analyze_file _ _ _ _ _ _)).
  now rewrite H1, H2.
Defined.

(** ** C6: the keys of the collections *)

(** C6.  On [<Root><Connector Type="Association"/><Connector
    Type="Dependency"/></Root>] no identifier is synthesized for the
    connectors: line 564 has no [str(id(conn))] alternative, both are
    stored under the key [None], and the second replaces the first. *)
Theorem connector_without_id_keyed_by_none (b64decode_validate : string -> bool) :
  let model := extract_model b64decode_validate two_connectors_without_id in
  dict_keys (connectors model) = [None] /\
  option_map cn_type (dict_get None (connectors model)) = Some (Some "Dependency") /\
  total_connectors (stats model) = 2.
Proof. repeat split. Qed.

(** ** C5: the try block around the two sub-extractors *)

(** C5, as the code has it.  The two sub-extractions of an element start
    from empty lists and run in one [try] block: when the attribute
    sub-extraction raises, the
    operation sub-extraction is not run (the outcome does not depend on
    it) and the operation list stays as the attribute sub-extraction left
    it; when the operation sub-extraction raises, what both did before
    the exception is kept; in both cases one warning with the element's
    name is printed and the element is recorded; without an exception
    nothing is printed. *)
Theorem facets_share_one_try
  (extract_attributes extract_operations : node -> SE elem_info unit)
  (elem : node) (info0 : elem_info) (self : analyzer) :
  make_elem_info elem = Ok info0 ->
  (el_attributes info0 = [] /\ el_operations info0 = []) /\
  (forall info1 e,
      extract_attributes elem info0 = (info1, Raise e) ->
      element_step extract_attributes extract_operations elem self =
      (record_element info1
         (with_stdout (fun out => out ++ [facet_warning info1 e]) self),
       Ok tt)) /\
  (forall info1 info2 e,
      extract_attributes elem info0 = (info1, Ok tt) ->
      extract_operations elem info1 = (info2, Raise e) ->
      element_step extract_attributes extract_operations elem self =
      (record_element info2
         (with_stdout (fun out => out ++ [facet_warning info2 e]) self),
       Ok tt)) /\
  (forall info1 info2,
      extract_attributes elem info0 = (info1, Ok tt) ->
      extract_operations elem info1 = (info2, Ok tt) ->
      element_step extract_attributes extract_operations elem self =
      (record_element info2 self, Ok tt)).
Proof.
  intros Hmake. split.
  { rewrite make_elem_info_eq in Hmake. injection Hmake as <-. now split. }
  unfold element_step, extract_facets, bind, lift, modify, print, ret.
  rewrite Hmake. repeat split.
  - intros info1 e Ha. now rewrite Ha.
  - intros info1 info2 e Ha Ho. now rewrite Ha, Ho.
  - intros info1 info2 Ha Ho. now rewrite Ha, Ho.
Qed.

(** An attribute sub-extraction that fails on
    [<Class Id="E1" Name="Order"><Operation Name="pay"/></Class>]. *)
Lemma facets_share_one_try_witness :
  exists info,
    make_elem_info order_class = Ok info /\
    element_step failing_facet _extract_operations order_class (reset []) =
    (record_element info
       (with_stdout
          (fun out => out ++ ["Error extracting attributes/operations for Order: boom"])
          (reset [])),
     Ok tt).
Proof.
  eexists. split; [reflexivity|].
  exact (proj1 (proj2 (facets_share_one_try failing_facet _extract_operations
                         order_class _ (reset []) eq_refl))
           _ (Fault "boom") eq_refl).
Defined.

(** C5 as stated fails on
    [<Class Id="E1" Name="Order"><Operation Name="pay"/></Class>]: the
    operation sub-extraction finds one operation when it runs, but after
    a failure of the attribute sub-extraction the element is recorded
    without it; and an attribute sub-extraction that fails after its
    first entry leaves that entry in the list. *)
Lemma attribute_fault_skips_operations :
  (exists info0 info,
      make_elem_info order_class = Ok info0 /\
      _extract_operations order_class info0 = (info, Ok tt) /\
      map op_name (el_operations info) = [Some "pay"]) /\
  (exists info,
      dict_get (Some "E1")
        (elements (fst (element_step failing_facet _extract_operations
                          order_class (reset []))))
      = Some info /\
      el_operations info = []) /\
  (exists info,
      dict_get (Some "E1")
        (elements (fst (element_step half_done_attributes _extract_operations
                          order_class (reset []))))
      = Some info /\
      map attr_name (el_attributes info) = [Some "total"] /\
      el_operations info = []).
Proof.
  repeat split; repeat eexists; reflexivity.
Qed.

(** ** The image detector *)

Lemma make_diag_info_eq (diag : node) :
  make_diag_info diag = Ok (diag_info_of diag).
Proof.
  unfold make_diag_info. now rewrite extract_notes_eq.
Qed.

(** The fifth path of the list of lines 454-473 carries the prefix
    [xmi:], which [find] cannot resolve without a prefix map: building
    the list raises, for every node. *)
Lemma image_sources_raises (diagram_elem : node) :
  image_sources diagram_elem
  = Raise (SyntaxError "prefix 'xmi' not found in prefix map").
Proof. reflexivity. Qed.

Lemma extract_diagram_image_raises (dec : string -> bool)
  (diagram_elem : node) (d : diag_info) (self : analyzer) :
  _extract_diagram_image_enhanced dec diagram_elem d self
  = (self, Raise (SyntaxError "prefix 'xmi' not found in prefix map")).
Proof. reflexivity. Qed.

(** ** C7: base64 detection *)






(** ** C3: the image of a diagram *)


(** ** C10: placements are not de-duplicated *)

Lemma iter_unfold (e : node) : iter e = e :: descendants e.
Proof. destruct e; reflexivity. Qed.

Lemma count_node_app (n : node) (l1 l2 : list node) :
  count_node n (l1 ++ l2) = count_node n l1 + count_node n l2.
Proof. unfold count_node. now rewrite filter_app, length_app. Qed.

Lemma count_node_cons (n m : node) (l : list node) :
  count_node n (m :: l) = (if same_node n m then 1 else 0) + count_node n l.
Proof. unfold count_node. cbn. now destruct (same_node n m). Qed.

Lemma count_node_filter (n : node) (p : node -> bool) (l : list node) :
  count_node n (filter p l) <= count_node n l.
Proof.
  induction l as [|m l IH]; [apply le_n|].
  cbn [filter]. destruct (p m); rewrite ?count_node_cons; lia.
Qed.

Lemma count_node_flat_map_le (n : node) (f g : node -> list node) (l : list node) :
  (forall e, count_node n (f e) <= count_node n (g e)) ->
  count_node n (flat_map f l) <= count_node n (flat_map g l).
Proof.
  intros H; induction l as [|m l IH]; cbn [flat_map]; [apply le_n|].
  rewrite !count_node_app. specialize (H m). lia.
Qed.

Lemma count_node_flat_map_filter (n : node) (g : node -> list node)
  (p : node -> bool) (l : list node) :
  count_node n (flat_map g (filter p l)) <= count_node n (flat_map g l).
Proof.
  induction l as [|m l IH]; cbn [filter flat_map]; [apply le_n|].
  destruct (p m); cbn [flat_map]; rewrite !count_node_app; lia.
Qed.

(** Every node but the root is the child of exactly one node: the
    children of all nodes, taken together, are the descendants. *)
Lemma count_children_of_all (n : node) :
  forall e, count_node n (flat_map children (iter e)) = count_node n (descendants e).
Proof.
  induction e as [t a tx cs i IH] using node_forall_ind.
  rewrite iter_unfold. unfold descendants. cbn [flat_map children].
  rewrite count_node_app.
  induction IH as [|c cs Hc _ IHcs]; cbn [flat_map]; [reflexivity|].
  rewrite flat_map_app, !count_node_app, count_node_cons.
  assert (Hiter : count_node n (iter c)
                  = (if same_node n c then 1 else 0) + count_node n (descendants c))
    by (rewrite iter_unfold; apply count_node_cons).
  lia.
Qed.

Lemma count_node_unique (n : node) (l : list node) :
  NoDup (map ident l) -> count_node n l <= 1.
Proof.
  induction l as [|m l IH]; cbn [map]; intros H; [cbn; lia|].
  inversion H as [|? ? Hnotin Hnodup]; subst. rewrite count_node_cons.
  destruct (same_node n m) eqn:E; [|specialize (IH Hnodup); lia].
  assert (count_node n l = 0); [|lia].
  unfold same_node in E. apply N.eqb_eq in E.
  unfold count_node. clear IH H Hnodup.
  induction l as [|k l IHl]; [reflexivity|]. cbn [filter map] in *.
  destruct (same_node n k) eqn:Ek.
  - unfold same_node in Ek. apply N.eqb_eq in Ek.
    exfalso. apply Hnotin. left. congruence.
  - apply IHl. intros Hin. apply Hnotin. now right.
Qed.

Lemma count_node_positive (n : node) (l : list node) :
  existsb (same_node n) l = true <-> 1 <= count_node n l.
Proof.
  induction l as [|m l IH]; cbn [existsb].
  - cbn. split; [discriminate | lia].
  - rewrite count_node_cons. destruct (same_node n m); cbn [orb].
    + split; [lia | reflexivity].
    + rewrite IH. cbn. reflexivity.
Qed.

(** Under a node whose objects have distinct ids, each of the six
    patterns selects a node at most once. *)
Lemma count_node_descendants (n e : node) :
  NoDup (map ident (iter e)) -> count_node n (descendants e) <= 1.
Proof.
  intros H. rewrite iter_unfold in H. cbn [map] in H.
  inversion H; subst. now apply count_node_unique.
Qed.

Lemma count_select_desc (n e : node) (t : string) :
  NoDup (map ident (iter e)) -> count_node n (select [Desc t] e) <= 1.
Proof.
  intros H. unfold select. cbn [fold_left select_step flat_map].
  rewrite app_nil_r.
  pose proof (count_node_filter n (has_tag t) (descendants e)).
  pose proof (count_node_descendants n e H). lia.
Qed.

Lemma count_select_desc_child (n e : node) (a b : string) :
  NoDup (map ident (iter e)) ->
  count_node n (select [Desc a; Child b] e) <= 1.
Proof.
  intros H. unfold select. cbn [fold_left select_step flat_map].
  rewrite app_nil_r.
  pose proof (count_node_flat_map_le n
                (fun e0 => filter (has_tag b) (children e0)) children
                (filter (has_tag a) (descendants e))
                (fun e0 => count_node_filter n (has_tag b) (children e0))) as H1.
  pose proof (count_node_flat_map_filter n children (has_tag a) (descendants e)) as H2.
  pose proof (count_children_of_all n e) as H3.
  rewrite iter_unfold in H3. cbn [flat_map] in H3. rewrite count_node_app in H3.
  pose proof (count_node_descendants n e H). lia.
Qed.

Lemma count_matching (n : node) (f : path -> list node) (ps : list path) :
  (forall p, In p ps -> count_node n (f p) <= 1) ->
  count_node n (flat_map f ps)
  = List.length (filter (fun p => existsb (same_node n) (f p)) ps).
Proof.
  induction ps as [|p ps IH]; intros H; [reflexivity|].
  cbn [flat_map filter]. rewrite count_node_app.
  rewrite IH by (intros q Hq; apply H; now right).
  assert (Hp := H p (or_introl eq_refl)).
  destruct (existsb (same_node n) (f p)) eqn:E.
  - apply count_node_positive in E. cbn [List.length]. lia.
  - assert (count_node n (f p) = 0); [|lia].
    destruct (count_node n (f p)) eqn:Ec; [reflexivity|].
    assert (existsb (same_node n) (f p) = true)
      by (apply count_node_positive; lia).
    congruence.
Qed.

Lemma count_at_least_matching (n : node) (f : path -> list node) (ps : list path) :
  List.length (filter (fun p => existsb (same_node n) (f p)) ps)
  <= count_node n (flat_map f ps).
Proof.
  induction ps as [|p ps IH]; [apply le_n|].
  cbn [flat_map filter]. rewrite count_node_app.
  destruct (existsb (same_node n) (f p)) eqn:E; [|lia].
  apply count_node_positive in E. cbn [List.length]. lia.
Qed.

Lemma element_sources_eq (diagram_elem : node) :
  element_sources diagram_elem
  = Ok (map (fun p => select p diagram_elem) placement_patterns).
Proof. reflexivity. Qed.

Lemma append_placements (xs : list node) :
  forall d,
    fold_left
      (fun acc x => with_dg_elements (fun l => l ++ [make_diag_elem_info x]) acc)
      xs d
    = with_dg_elements (fun l => l ++ map make_diag_elem_info xs) d.
Proof.
  induction xs as [|x xs IH]; intros d; cbn [fold_left map].
  - destruct d. unfold with_dg_elements. cbn. now rewrite app_nil_r.
  - rewrite IH. unfold with_dg_elements. cbn. now rewrite <- app_assoc.
Qed.

Lemma append_placement_lists (ls : list (list node)) :
  forall d,
    fold_left
      (fun acc xs =>
         with_dg_elements (fun l => l ++ map make_diag_elem_info xs) acc)
      ls d
    = with_dg_elements
        (fun l => l ++ map make_diag_elem_info (List.concat ls)) d.
Proof.
  induction ls as [|xs ls IH]; intros d; cbn [fold_left List.concat].
  - destruct d. unfold with_dg_elements. cbn. now rewrite app_nil_r.
  - rewrite IH. unfold with_dg_elements. cbn.
    now rewrite map_app, app_assoc.
Qed.

(** C10.  [_extract_diagram_elements] appends, to the placement list of
    the diagram, one entry for every node of every one of the six lists
    of matches, in order and without looking at what is already there.
    So a node is entered at least once for each pattern that selects
    it, exactly once for each when the objects under the diagram node
    have distinct ids, and a node selected by two patterns or more is
    entered twice or more. *)
Theorem placements_not_deduplicated (diagram_elem : node) (d : diag_info) :
  _extract_diagram_elements diagram_elem d
  = (with_dg_elements
       (fun l => l ++ map make_diag_elem_info (placement_candidates diagram_elem))
       d,
     Ok tt) /\
  (forall n,
      List.length (matching_patterns diagram_elem n)
      <= count_node n (placement_candidates diagram_elem)) /\
  (NoDup (map ident (iter diagram_elem)) ->
   forall n,
     count_node n (placement_candidates diagram_elem)
     = List.length (matching_patterns diagram_elem n)) /\
  (forall n,
      2 <= List.length (matching_patterns diagram_elem n) ->
      2 <= count_node n (placement_candidates diagram_elem)).
Proof.
  assert (Hge := fun n =>
    count_at_least_matching n (fun p => select p diagram_elem) placement_patterns).
  repeat split.
  - unfold _extract_diagram_elements, bind, lift.
    rewrite element_sources_eq.
    rewrite (for_each_pure _
               (fun xs acc =>
                  with_dg_elements (fun l => l ++ map make_diag_elem_info xs) acc)).
    + rewrite append_placement_lists. unfold placement_candidates.
      now rewrite flat_map_concat_map.
    + intros xs s.
      rewrite (for_each_pure _
                 (fun x acc =>
                    with_dg_elements (fun l => l ++ [make_diag_elem_info x]) acc))
        by reflexivity.
      now rewrite append_placements.
  - exact Hge.
  - intros Hids n. unfold placement_candidates, matching_patterns.
    apply count_matching. intros p Hp.
    cbn in Hp.
    repeat (destruct Hp as [<-|Hp];
            [first [now apply count_select_desc
                   | now apply count_select_desc_child]|]).
    destruct Hp.
  - intros n H. specialize (Hge n).
    unfold matching_patterns in H. unfold placement_candidates. lia.
Qed.

(** The DiagramElement child of a DiagramElements container is selected
    by the first and by the second pattern, and entered twice. *)
Lemma placements_not_deduplicated_witness :
  NoDup (map ident (iter diagram_with_nested_placement)) /\
  count_node nested_placement (placement_candidates diagram_with_nested_placement)
    = 2 /\
  map de_element_id
    (dg_elements
       (fst (_extract_diagram_elements diagram_with_nested_placement
               (diag_info_of diagram_with_nested_placement))))
    = [Some "E1"; Some "E1"].
Proof.
  assert (Hids : NoDup (map ident (iter diagram_with_nested_placement))).
  { cbn. repeat constructor; cbn; intuition discriminate. }
  destruct (placements_not_deduplicated diagram_with_nested_placement
              (diag_info_of diagram_with_nested_placement))
    as (Hrun & _ & Hcount & _).
  split; [exact Hids|]. split.
  - now rewrite (Hcount Hids nested_placement).
  - now rewrite Hrun.
Defined.

(** ** Frames: what a computation leaves alone *)

Section Keeps.
Context {S V : Type} (view : S -> V).

Lemma keeps_ret {A} (a : A) : keeps view (@ret S A a).
Proof. intros s. reflexivity. Qed.

Lemma keeps_raise {A} (e : exn) : keeps view (@raise S A e).
Proof. intros s. reflexivity. Qed.

Lemma keeps_lift {A} (r : result A) : keeps view (@lift S A r).
Proof. intros s. reflexivity. Qed.

Lemma keeps_modify (f : S -> S) :
  (forall s, view (f s) = view s) -> keeps view (modify f).
Proof. intros H s. apply H. Qed.

Lemma keeps_bind {A B} (m : SE S A) (f : A -> SE S B) :
  keeps view m -> (forall a, keeps view (f a)) -> keeps view (bind m f).
Proof.
  intros Hm Hf s. unfold bind. specialize (Hm s).
  destruct (m s) as [s1 [a|e]]; cbn [fst] in *.
  - now rewrite Hf.
  - exact Hm.
Qed.

Lemma keeps_try_except {A} (m : SE S A) (h : exn -> SE S A) :
  keeps view m -> (forall e, keeps view (h e)) -> keeps view (try_except m h).
Proof.
  intros Hm Hh s. unfold try_except. specialize (Hm s).
  destruct (m s) as [s1 [a|e]]; cbn [fst] in *.
  - exact Hm.
  - now rewrite Hh.
Qed.

Lemma keeps_for_each {X} (xs : list X) (body : X -> SE S unit) :
  (forall x, keeps view (body x)) -> keeps view (for_each xs body).
Proof.
  intros H. induction xs as [|x xs IH]; cbn [for_each].
  - apply keeps_ret.
  - apply keeps_bind; [apply H | intros _; exact IH].
Qed.

End Keeps.

Lemma keeps_print {V} (view : analyzer -> V) (line : string) :
  (forall f s, view (with_stdout f s) = view s) -> keeps view (print line).
Proof. intros H. apply keeps_modify. intros s. apply H. Qed.

Lemma keeps_on_local {V L} (view : analyzer -> V) (m : SE L unit) (l : L) :
  keeps view (on_local m l).
Proof. intros s. unfold on_local. now destruct (m l) as [l' [[]|e]]. Qed.

(** A view that does not look at the printed lines, the authors or the
    versions is kept by whatever only touches those; the tactic runs
    through the structure of an extractor and settles each update. *)
Ltac settle_update :=
  intros;
  unfold record_package, record_element, record_connector, record_diagram,
         track_author, track_version;
  repeat match goal with
         | |- context [match ?v with Some _ => _ | None => _ end] => destruct v
         | |- context [if ?b then _ else _] => destruct b
         end;
  reflexivity.

Ltac frame :=
  repeat first
    [ apply keeps_try_except
    | apply keeps_bind
    | apply keeps_for_each
    | apply keeps_lift
    | apply keeps_ret
    | apply keeps_raise
    | apply keeps_on_local
    | apply keeps_modify; settle_update
    | intro ].

Section ExtractorFrames.
Context {V : Type} (view : analyzer -> V).

(** The view ignores the printed lines. *)
Hypothesis view_stdout : forall f s, view (with_stdout f s) = view s.

Lemma keeps_guarded (what : string) (m : SE analyzer unit) :
  keeps view m -> keeps view (guarded what m).
Proof.
  intros H. apply keeps_try_except; [exact H|].
  intros e. now apply keeps_print.
Qed.

End ExtractorFrames.

Lemma model_info_keeps {V} (view : analyzer -> V) (root : node) :
  (forall f s, view (with_stdout f s) = view s) ->
  (forall f s, view (with_model_info f s) = view s) ->
  keeps view (_extract_model_info root).
Proof.
  intros H1 H2. unfold _extract_model_info. apply keeps_try_except.
  - apply keeps_modify. intros s. apply H2.
  - intros e. apply keeps_bind; [now apply keeps_print|].
    intros _. apply keeps_modify. intros s. apply H2.
Qed.

Lemma tagged_values_keeps {V} (view : analyzer -> V) (root : node) :
  (forall f s, view (with_tagged_values f s) = view s) ->
  keeps view (_extract_tagged_values root).
Proof.
  intros H. unfold _extract_tagged_values, tagged_value_step.
  apply keeps_bind; [apply keeps_lift|]. intros t1.
  apply keeps_bind; [apply keeps_lift|]. intros t2.
  apply keeps_for_each. intros tv.
  apply keeps_bind; [apply keeps_lift|]. intros notes.
  destruct (truthy _); [apply keeps_modify; intros s; apply H | apply keeps_ret].
Qed.

Lemma packages_keeps_el (root : node) : keeps el_view (_extract_packages root).
Proof.
  unfold _extract_packages, package_step. frame.
Qed.

Lemma packages_keeps_cn (root : node) : keeps cn_view (_extract_packages root).
Proof.
  unfold _extract_packages, package_step. frame.
Qed.

Lemma packages_keeps_dg (root : node) : keeps dg_view (_extract_packages root).
Proof.
  unfold _extract_packages, package_step. frame.
Qed.

Lemma element_step_keeps {V} (view : analyzer -> V) (elem : node) :
  (forall f s, view (with_stdout f s) = view s) ->
  (forall info s, view (record_element info s) = view s) ->
  keeps view (element_step _extract_attributes _extract_operations elem).
Proof.
  intros H1 H2. unfold element_step.
  apply keeps_bind; [apply keeps_lift|]. intros info0.
  destruct (extract_facets _ _ elem info0) as [info [[]|e]].
  - apply keeps_bind; [apply keeps_ret|]. intros _.
    apply keeps_modify. intros s. apply H2.
  - apply keeps_bind; [now apply keeps_print|]. intros _.
    apply keeps_modify. intros s. apply H2.
Qed.

Lemma elements_keeps {V} (view : analyzer -> V) (root : node) :
  (forall f s, view (with_stdout f s) = view s) ->
  (forall info s, view (record_element info s) = view s) ->
  keeps view (_extract_elements root).
Proof.
  intros H1 H2. unfold _extract_elements, extract_elements_with.
  apply keeps_try_except.
  - apply keeps_for_each. intros elem. now apply element_step_keeps.
  - intros e. now apply keeps_print.
Qed.

Lemma connectors_keeps {V} (view : analyzer -> V) (root : node) :
  (forall info s, view (record_connector info s) = view s) ->
  keeps view (_extract_connectors root).
Proof.
  intros H. unfold _extract_connectors, connector_step.
  apply keeps_bind; [apply keeps_lift|]. intros cs.
  apply keeps_for_each. intros conn.
  apply keeps_bind; [apply keeps_lift|]. intros info.
  apply keeps_modify. intros s. apply H.
Qed.

(** The fourth search of [_extract_diagrams] carries the prefix [xmi:]:
    the method raises before it looks at a single candidate. *)
Lemma diagram_candidates_raises (root : node) :
  diagram_candidates root
  = Raise (SyntaxError "prefix 'xmi' not found in prefix map").
Proof. reflexivity. Qed.

Lemma extract_diagrams_raises (dec : string -> bool) (root : node) (s : analyzer) :
  _extract_diagrams dec root s
  = (s, Raise (SyntaxError "prefix 'xmi' not found in prefix map")).
Proof. reflexivity. Qed.

Lemma guarded_diagrams (dec : string -> bool) (root : node) (s : analyzer) :
  guarded "diagrams" (_extract_diagrams dec root) s
  = (with_stdout
       (fun out =>
          out ++ ["Warning: Could not extract diagrams: prefix 'xmi' not found in prefix map"])
       s,
     Ok tt).
Proof. reflexivity. Qed.

(** ** Dictionaries: keys and sizes *)

Lemma ostr_eqb_refl (k : ostr) : ostr_eqb k k = true.
Proof. destruct k; cbn; [apply String.eqb_refl | reflexivity]. Qed.

Lemma dict_keys_length {V} (d : dict V) : List.length (dict_keys d) = List.length d.
Proof. apply length_map. Qed.

Lemma dict_keys_set {V} (k : ostr) (v : V) (d : dict V) :
  dict_keys (dict_set k v d) = add_key k (dict_keys d).
Proof.
  unfold add_key, dict_keys.
  induction d as [|[k' v'] d IH]; cbn [dict_set map fst existsb app];
    [reflexivity|].
  destruct (ostr_eqb k k'); cbn [map fst orb]; [reflexivity|].
  rewrite IH. destruct (existsb (ostr_eqb k) (map fst d)); reflexivity.
Qed.

Lemma dict_keys_update {V} (k : ostr) (f : V -> V) (d : dict V) :
  dict_keys (dict_update k f d) = dict_keys d.
Proof.
  unfold dict_keys.
  induction d as [|[k' v'] d IH]; cbn [dict_update map fst]; [reflexivity|].
  destruct (ostr_eqb k k'); cbn [map fst]; [reflexivity | now rewrite IH].
Qed.

Lemma add_key_length (k : ostr) (ks : list ostr) :
  List.length (add_key k ks) <= S (List.length ks).
Proof.
  unfold add_key. destruct (existsb _ ks); [lia|].
  rewrite length_app. cbn. lia.
Qed.

Lemma add_key_member (k : ostr) (ks : list ostr) :
  existsb (ostr_eqb k) (add_key k ks) = true.
Proof.
  unfold add_key. destruct (existsb (ostr_eqb k) ks) eqn:E; [exact E|].
  rewrite existsb_app. cbn. now rewrite ostr_eqb_refl, orb_true_r.
Qed.

Lemma add_key_keeps_member (k k' : ostr) (ks : list ostr) :
  existsb (ostr_eqb k) ks = true -> existsb (ostr_eqb k) (add_key k' ks) = true.
Proof.
  intros H. unfold add_key. destruct (existsb (ostr_eqb k') ks); [exact H|].
  rewrite existsb_app, H. reflexivity.
Qed.

Lemma add_keys_keeps_member (k : ostr) (l acc : list ostr) :
  existsb (ostr_eqb k) acc = true -> existsb (ostr_eqb k) (add_keys acc l) = true.
Proof.
  revert acc. induction l as [|k' l IH]; intros acc H; [exact H|].
  change (add_keys acc (k' :: l)) with (add_keys (add_key k' acc) l).
  apply IH. now apply add_key_keeps_member.
Qed.

Lemma add_keys_app (acc l1 l2 : list ostr) :
  add_keys acc (l1 ++ l2) = add_keys (add_keys acc l1) l2.
Proof. apply fold_left_app. Qed.

Lemma add_keys_length (l acc : list ostr) :
  List.length (add_keys acc l) <= List.length acc + List.length l.
Proof.
  revert acc. induction l as [|k l IH]; intros acc.
  - cbn. lia.
  - change (add_keys acc (k :: l)) with (add_keys (add_key k acc) l).
    specialize (IH (add_key k acc)). pose proof (add_key_length k acc).
    cbn [List.length]. lia.
Qed.

(** A key that comes twice adds one entry at most. *)
Lemma add_keys_repeated (k : ostr) (l1 l2 l3 acc : list ostr) :
  List.length (add_keys acc (l1 ++ k :: l2 ++ k :: l3))
  < List.length acc + List.length (l1 ++ k :: l2 ++ k :: l3).
Proof.
  rewrite add_keys_app.
  change (k :: l2 ++ k :: l3) with ([k] ++ l2 ++ [k] ++ l3).
  rewrite !add_keys_app.
  set (a0 := add_keys acc l1).
  set (a1 := add_keys a0 [k]).
  set (a2 := add_keys a1 l2).
  assert (Hmem : existsb (ostr_eqb k) a2 = true).
  { apply (add_keys_keeps_member k l2 a1). apply add_key_member. }
  assert (Hsame : add_keys a2 [k] = a2) by (unfold add_keys, add_key; cbn; now rewrite Hmem).
  rewrite Hsame.
  pose proof (add_keys_length l3 a2) as H3.
  pose proof (add_keys_length l2 a1) as H2.
  pose proof (add_keys_length [k] a0) as Hk.
  pose proof (add_keys_length l1 acc) as H1.
  fold a0 in H1. fold a1 in Hk, H2. fold a2 in H2, H3.
  rewrite !length_app. cbn [List.length] in *. lia.
Qed.

Lemma shares_key_split {X} (key : X -> ostr) (l : list X) :
  shares_key key l ->
  exists k l1 l2 l3, map key l = l1 ++ k :: l2 ++ k :: l3.
Proof.
  intros (i & j & k & Hij & Hi & Hj).
  destruct (nth_error_split _ _ Hi) as (l1 & r & Hl & Hlen).
  rewrite Hl in Hj.
  rewrite nth_error_app2 in Hj by lia.
  replace (j - List.length l1) with (S (j - List.length l1 - 1)) in Hj by lia.
  cbn [nth_error] in Hj.
  destruct (nth_error_split _ _ Hj) as (l2 & l3 & Hr & _).
  exists k, l1, l2, l3. now rewrite Hl, Hr.
Qed.

Lemma shared_key_saves_an_entry {X} (key : X -> ostr) (l : list X) (acc : list ostr) :
  shares_key key l ->
  List.length (add_keys acc (map key l)) < List.length acc + List.length l.
Proof.
  intros H. destruct (shares_key_split key l H) as (k & l1 & l2 & l3 & E).
  rewrite <- (length_map key l), E. apply add_keys_repeated.
Qed.

(** ** The recording loops *)

(** A loop whose body never raises, counts one and stores under the key
    of its candidate. *)
Lemma recording_loop {X} (body : X -> SE analyzer unit) (key : X -> ostr)
  (total : analyzer -> nat) (keys : analyzer -> list ostr) :
  (forall x s, exists s',
      body x s = (s', Ok tt) /\
      total s' = total s + 1 /\
      keys s' = add_key (key x) (keys s)) ->
  forall xs s, exists s',
    for_each xs body s = (s', Ok tt) /\
    total s' = total s + List.length xs /\
    keys s' = add_keys (keys s) (map key xs).
Proof.
  intros Hbody xs. induction xs as [|x xs IH]; intros s; cbn [for_each map].
  - exists s. repeat split. cbn. lia.
  - destruct (Hbody x s) as (s1 & Hrun & Htot & Hkeys).
    destruct (IH s1) as (s2 & Hrun2 & Htot2 & Hkeys2).
    exists s2. unfold bind. rewrite Hrun. repeat split.
    + exact Hrun2.
    + rewrite Htot2, Htot. cbn. lia.
    + rewrite Hkeys2, Hkeys. reflexivity.
Qed.

Lemma make_pkg_info_ok (pkg : node) :
  exists info, make_pkg_info pkg = Ok info /\ pkg_id info = package_key pkg.
Proof.
  unfold make_pkg_info. rewrite extract_notes_eq. cbn [rbind].
  eexists. split; reflexivity.
Qed.

Lemma extract_packages_run (root : node) (s : analyzer) :
  exists s',
    _extract_packages root s = (s', Ok tt) /\
    total_packages (stats s') = total_packages (stats s)
                                + List.length (package_candidates root) /\
    dict_keys (packages s')
    = add_keys (dict_keys (packages s)) (map package_key (package_candidates root)).
Proof.
  destruct (recording_loop package_step package_key
              (fun a => total_packages (stats a))
              (fun a => dict_keys (packages a))) with
    (xs := package_candidates root) (s := s) as (s' & Hrun & H).
  - intros pkg a. unfold package_step, bind, lift, modify.
    destruct (make_pkg_info_ok pkg) as (info & -> & <-).
    eexists. split; [reflexivity|]. split.
    + unfold record_package, track_version, track_author.
      destruct (pkg_version info) as [v|]; [destruct (truthy _)|];
        (destruct (pkg_author info) as [w|]; [destruct (truthy _)|]); reflexivity.
    + unfold record_package, track_version, track_author.
      destruct (pkg_version info) as [v|]; [destruct (truthy _)|];
        (destruct (pkg_author info) as [w|]; [destruct (truthy _)|]);
        cbn; apply dict_keys_set.
  - exists s'. split; [|exact H].
    unfold _extract_packages, try_except. now rewrite Hrun.
Qed.

Lemma make_elem_info_ok (elem : node) :
  exists info, make_elem_info elem = Ok info /\ el_id info = element_key elem.
Proof.
  unfold make_elem_info. rewrite extract_notes_eq. cbn [rbind].
  eexists. split; reflexivity.
Qed.

Lemma attributes_keep_header (element : node) :
  keeps el_header (_extract_attributes element).
Proof. unfold _extract_attributes. frame. Qed.

Lemma operations_keep_header (element : node) :
  keeps el_header (_extract_operations element).
Proof. unfold _extract_operations. frame. Qed.

Lemma facets_keep_header (elem : node) :
  keeps el_header (extract_facets _extract_attributes _extract_operations elem).
Proof.
  unfold extract_facets. apply keeps_bind.
  - apply attributes_keep_header.
  - intros _. apply operations_keep_header.
Qed.

(** One element: whatever the sub-extractors do, the element is recorded
    under its key. *)
Lemma element_step_run (elem : node) (s : analyzer) :
  exists info out,
    element_step _extract_attributes _extract_operations elem s
    = (record_element info (with_stdout (fun l => l ++ out) s), Ok tt) /\
    forall info0, make_elem_info elem = Ok info0 -> el_header info = el_header info0.
Proof.
  unfold element_step, bind, lift.
  destruct (make_elem_info_ok elem) as (info0 & Hmake & Hid). rewrite Hmake.
  pose proof (facets_keep_header elem info0) as Hhead.
  destruct (extract_facets _ _ elem info0) as [info [[]|e]]; cbn [fst] in Hhead.
  - exists info, []. split.
    + unfold ret, modify. f_equal. f_equal. destruct s. unfold with_stdout. cbn.
      now rewrite app_nil_r.
    + intros i0 H. injection H as <-. exact Hhead.
  - exists info, [facet_warning info e]. split; [reflexivity|].
    intros i0 H. injection H as <-. exact Hhead.
Qed.

Lemma extract_elements_run (root : node) (s : analyzer) :
  exists s',
    _extract_elements root s = (s', Ok tt) /\
    total_elements (stats s') = total_elements (stats s)
                                + List.length (element_candidates root) /\
    dict_keys (elements s')
    = add_keys (dict_keys (elements s)) (map element_key (element_candidates root)).
Proof.
  destruct (recording_loop
              (element_step _extract_attributes _extract_operations) element_key
              (fun a => total_elements (stats a))
              (fun a => dict_keys (elements a))) with
    (xs := element_candidates root) (s := s) as (s' & Hrun & H).
  - intros elem a.
    destruct (element_step_run elem a) as (info & out & Hrun & Hhead).
    destruct (make_elem_info_ok elem) as (info0 & Hmake & Hid).
    specialize (Hhead info0 Hmake).
    assert (Hkey : el_id info = element_key elem).
    { rewrite <- Hid. unfold el_header in Hhead. now inversion Hhead. }
    eexists. split; [exact Hrun|]. split.
    + unfold record_element, track_version, track_author.
      destruct (el_version info) as [v|]; [destruct (truthy _)|];
        (destruct (el_author info) as [w|]; [destruct (truthy _)|]); reflexivity.
    + rewrite <- Hkey. unfold record_element, track_version, track_author.
      destruct (el_version info) as [v|]; [destruct (truthy _)|];
        (destruct (el_author info) as [w|]; [destruct (truthy _)|]);
        cbn; apply dict_keys_set.
  - exists s'. split; [|exact H].
    unfold _extract_elements, extract_elements_with, try_except. now rewrite Hrun.
Qed.

Lemma make_conn_info_ok (conn : node) :
  exists info, make_conn_info conn = Ok info /\ cn_id info = connector_key conn.
Proof.
  unfold make_conn_info. rewrite extract_notes_eq. cbn [rbind].
  destruct (find_or_plain conn "SourceRole" "Source") as [r1 ->]; try reflexivity.
  destruct (find_or_plain conn "TargetRole" "Target") as [r2 ->]; try reflexivity.
  cbn [rbind]. eexists. split; reflexivity.
Qed.

Lemma connector_candidates_eq (root : node) :
  connector_candidates root = Ok (connector_nodes root).
Proof. reflexivity. Qed.

Lemma extract_connectors_run (root : node) (s : analyzer) :
  exists s',
    _extract_connectors root s = (s', Ok tt) /\
    total_connectors (stats s') = total_connectors (stats s)
                                  + List.length (connector_nodes root) /\
    dict_keys (connectors s')
    = add_keys (dict_keys (connectors s)) (map connector_key (connector_nodes root)).
Proof.
  destruct (recording_loop connector_step connector_key
              (fun a => total_connectors (stats a))
              (fun a => dict_keys (connectors a))) with
    (xs := connector_nodes root) (s := s) as (s' & Hrun & H).
  - intros conn a. unfold connector_step, bind, lift, modify.
    destruct (make_conn_info_ok conn) as (info & -> & <-).
    eexists. split; [reflexivity|]. split; [reflexivity|].
    cbn. apply dict_keys_set.
  - exists s'. split; [|exact H].
    unfold _extract_connectors, bind, lift. rewrite connector_candidates_eq.
    exact Hrun.
Qed.

(** ** The run of the six extractors and the assembler *)

Lemma guarded_ok (what : string) (m : SE analyzer unit) (s s' : analyzer) :
  m s = (s', Ok tt) -> guarded what m s = (s', Ok tt).
Proof. intros H. unfold guarded, try_except. now rewrite H. Qed.

Lemma guarded_returns (what : string) (m : SE analyzer unit) (s : analyzer) :
  exists s', guarded what m s = (s', Ok tt).
Proof.
  unfold guarded, try_except.
  destruct (m s) as [s' [[]|e]]; eexists; reflexivity.
Qed.

(** The states between the extractors. *)
Lemma extract_model_stages (dec : string -> bool) (root : node) :
  exists s1 s2 s3 s5 s6,
    guarded "model info" (_extract_model_info root) (reset []) = (s1, Ok tt) /\
    _extract_packages root s1 = (s2, Ok tt) /\
    _extract_elements root s2 = (s3, Ok tt) /\
    _extract_connectors root
      (with_stdout
         (fun out =>
            out ++ ["Warning: Could not extract diagrams: prefix 'xmi' not found in prefix map"])
         s3) = (s5, Ok tt) /\
    guarded "tagged values" (_extract_tagged_values root) s5 = (s6, Ok tt) /\
    extract_model dec root = _calculate_stats s6.
Proof.
  destruct (guarded_returns "model info" (_extract_model_info root) (reset []))
    as [s1 H1].
  destruct (extract_packages_run root s1) as (s2 & H2 & _).
  destruct (extract_elements_run root s2) as (s3 & H3 & _).
  destruct (extract_connectors_run root
              (with_stdout
                 (fun out =>
                    out ++ ["Warning: Could not extract diagrams: prefix 'xmi' not found in prefix map"])
                 s3)) as (s5 & H5 & _).
  destruct (guarded_returns "tagged values" (_extract_tagged_values root) s5)
    as [s6 H6].
  exists s1, s2, s3, s5, s6. repeat split; try assumption.
  unfold extract_model, bind.
  rewrite H1, (guarded_ok _ _ _ _ H2), (guarded_ok _ _ _ _ H3), guarded_diagrams,
    (guarded_ok _ _ _ _ H5), H6.
  reflexivity.
Qed.

Lemma fold_left_keeps_keys {V X} (f : dict V -> X -> dict V) (l : list X) :
  (forall a x, dict_keys (f a x) = dict_keys a) ->
  forall acc, dict_keys (fold_left f l acc) = dict_keys acc.
Proof.
  intros H. induction l as [|x l IH]; intros acc; cbn [fold_left];
    [reflexivity|]. now rewrite IH, H.
Qed.

Lemma link_sub_packages_keys (pk : dict pkg_info) :
  dict_keys (link_sub_packages pk) = dict_keys pk.
Proof.
  unfold link_sub_packages. apply fold_left_keeps_keys.
  intros a [k p]. destruct (_ && _); [apply dict_keys_update | reflexivity].
Qed.

Lemma link_elements_keys (els : dict elem_info) (pk : dict pkg_info) :
  dict_keys (link_elements els pk) = dict_keys pk.
Proof.
  unfold link_elements. apply fold_left_keeps_keys.
  intros a [k e]. destruct (_ && _); [apply dict_keys_update | reflexivity].
Qed.

Lemma attach_tagged_values_keys (tvs : dict (list tag_info)) (els : dict elem_info) :
  dict_keys (attach_tagged_values tvs els) = dict_keys els.
Proof.
  unfold attach_tagged_values, dict_keys. rewrite map_map. apply map_ext.
  intros [k e]. now destruct (dict_get k tvs).
Qed.

(** The assembler changes no key, no total and no counter. *)
Lemma calculate_stats_keeps (s : analyzer) :
  stats (_calculate_stats s) = stats s /\
  dict_keys (packages (_calculate_stats s)) = dict_keys (packages s) /\
  dict_keys (elements (_calculate_stats s)) = dict_keys (elements s) /\
  diagrams (_calculate_stats s) = diagrams s /\
  connectors (_calculate_stats s) = connectors s.
Proof.
  unfold _calculate_stats. repeat split.
  - cbn [packages with_elements with_packages].
    now rewrite link_elements_keys, link_sub_packages_keys.
  - cbn [elements with_elements with_packages].
    apply attach_tagged_values_keys.
Qed.

(** What each extractor leaves alone, along the run. *)
Lemma stage_frames (root : node) (s1 s2 s3 s5 s6 : analyzer) :
  let s4 :=
    with_stdout
      (fun out =>
         out ++ ["Warning: Could not extract diagrams: prefix 'xmi' not found in prefix map"])
      s3 in
  guarded "model info" (_extract_model_info root) (reset []) = (s1, Ok tt) ->
  _extract_packages root s1 = (s2, Ok tt) ->
  _extract_elements root s2 = (s3, Ok tt) ->
  _extract_connectors root s4 = (s5, Ok tt) ->
  guarded "tagged values" (_extract_tagged_values root) s5 = (s6, Ok tt) ->
  (pk_view s1 = pk_view (reset []) /\ pk_view s6 = pk_view s2) /\
  (el_view s2 = el_view (reset []) /\ el_view s6 = el_view s3) /\
  (cn_view s4 = cn_view (reset []) /\ cn_view s6 = cn_view s5) /\
  dg_view s6 = dg_view (reset []).
Proof.
  intros s4 H1 H2 H3 H5 H6.
  assert (V1 : forall {V} (view : analyzer -> V),
             (forall f s, view (with_stdout f s) = view s) ->
             (forall f s, view (with_model_info f s) = view s) ->
             view s1 = view (reset [])).
  { intros V view Ha Hb.
    pose proof (keeps_guarded view Ha "model info" _
                  (model_info_keeps view root Ha Hb) (reset [])) as K.
    now rewrite H1 in K. }
  assert (V6 : forall {V} (view : analyzer -> V),
             (forall f s, view (with_stdout f s) = view s) ->
             (forall f s, view (with_tagged_values f s) = view s) ->
             view s6 = view s5).
  { intros V view Ha Hb.
    pose proof (keeps_guarded view Ha "tagged values" _
                  (tagged_values_keeps view root Hb) s5) as K.
    now rewrite H6 in K. }
  assert (V3 : forall {V} (view : analyzer -> V),
             (forall f s, view (with_stdout f s) = view s) ->
             (forall info s, view (record_element info s) = view s) ->
             view s3 = view s2).
  { intros V view Ha Hb.
    pose proof (elements_keeps view root Ha Hb s2) as K. now rewrite H3 in K. }
  assert (V5 : forall {V} (view : analyzer -> V),
             (forall info s, view (record_connector info s) = view s) ->
             view s5 = view s4).
  { intros V view Ha.
    pose proof (connectors_keeps view root Ha s4) as K. now rewrite H5 in K. }
  assert (E2 : el_view s2 = el_view s1).
  { pose proof (packages_keeps_el root s1) as K. now rewrite H2 in K. }
  assert (C2 : cn_view s2 = cn_view s1).
  { pose proof (packages_keeps_cn root s1) as K. now rewrite H2 in K. }
  assert (D2 : dg_view s2 = dg_view s1).
  { pose proof (packages_keeps_dg root s1) as K. now rewrite H2 in K. }
  repeat split.
  - now apply V1.
  - rewrite (V6 _ pk_view), (V5 _ pk_view), <- (V3 _ pk_view);
      first [reflexivity | settle_update].
  - rewrite E2. now apply V1.
  - rewrite (V6 _ el_view), (V5 _ el_view); first [reflexivity | settle_update].
  - change (cn_view s4) with (cn_view s3).
    rewrite (V3 _ cn_view), C2; first [now apply V1 | settle_update].
  - now apply V6.
  - rewrite (V6 _ dg_view), (V5 _ dg_view); try settle_update.
    change (dg_view s4) with (dg_view s3).
    rewrite (V3 _ dg_view), D2; first [now apply V1 | settle_update].
Qed.

(** What the run leaves in the four collections and their totals. *)
Lemma extract_model_collections (dec : string -> bool) (root : node) :
  let model := extract_model dec root in
  total_packages (stats model) = List.length (package_candidates root) /\
  dict_keys (packages model) = add_keys [] (map package_key (package_candidates root)) /\
  total_elements (stats model) = List.length (element_candidates root) /\
  dict_keys (elements model) = add_keys [] (map element_key (element_candidates root)) /\
  total_connectors (stats model) = List.length (connector_nodes root) /\
  dict_keys (connectors model) = add_keys [] (map connector_key (connector_nodes root)) /\
  total_diagrams (stats model) = 0 /\
  diagrams model = [].
Proof.
  cbv zeta.
  destruct (extract_model_stages dec root)
    as (s1 & s2 & s3 & s5 & s6 & H1 & H2 & H3 & H5 & H6 & ->).
  destruct (calculate_stats_keeps s6) as (-> & -> & -> & -> & ->).
  destruct (stage_frames root s1 s2 s3 s5 s6 H1 H2 H3 H5 H6)
    as ((P1 & P6) & (E2 & E6) & (C4 & C6) & D6).
  destruct (extract_packages_run root s1) as (s2' & R2 & T2 & K2).
  rewrite H2 in R2. injection R2 as <-.
  destruct (extract_elements_run root s2) as (s3' & R3 & T3 & K3).
  rewrite H3 in R3. injection R3 as <-.
  set (s4 := with_stdout _ s3) in *.
  destruct (extract_connectors_run root s4) as (s5' & R5 & T5 & K5).
  rewrite H5 in R5. injection R5 as <-.
  unfold pk_view, el_view, cn_view, dg_view in *. subst s4.
  cbn [with_stdout packages elements connectors diagrams stats reset
       total_packages total_elements total_connectors total_diagrams
       element_types] in *.
  injection P1 as P1 P1'. injection P6 as P6 P6'.
  injection E2 as E2 E2' _. injection E6 as E6 E6' _.
  injection C4 as C4 C4'. injection C6 as C6 C6'.
  injection D6 as D6 D6'.
  repeat split.
  - lia.
  - now rewrite P6, K2, P1.
  - lia.
  - now rewrite E6, K3, E2.
  - lia.
  - now rewrite C6, K5, C4.
  - lia.
  - exact D6.
Qed.

(** ** Keys of packages and elements *)

Lemma in_add_key (k k' : ostr) (ks : list ostr) :
  In k (add_key k' ks) -> k = k' \/ In k ks.
Proof.
  unfold add_key. destruct (existsb _ ks); [now right|].
  intros H. apply in_app_or in H as [H|[H|[]]]; auto.
Qed.

Lemma in_add_keys (k : ostr) (l acc : list ostr) :
  In k (add_keys acc l) -> In k acc \/ In k l.
Proof.
  revert acc. induction l as [|k' l IH]; intros acc H; [now left|].
  change (add_keys acc (k' :: l)) with (add_keys (add_key k' acc) l) in H.
  destruct (IH _ H) as [H1|H1].
  - destruct (in_add_key _ _ _ H1) as [->|H2]; [right; now left | now left].
  - right. now right.
Qed.

Lemma por_string (a : ostr) (s : string) : exists s', (a |or| Some s) = Some s'.
Proof. unfold por. destruct a as [x|]; cbn; [destruct (negb _)|]; eauto. Qed.

(** Packages and elements are always stored under a string: their chain
    of alternatives ends with [str(id(node))]. *)
Lemma package_and_element_keys_are_strings (dec : string -> bool) (root : node)
  (k : ostr) :
  In k (dict_keys (packages (extract_model dec root))) \/
  In k (dict_keys (elements (extract_model dec root))) ->
  exists s, k = Some s.
Proof.
  destruct (extract_model_collections dec root) as (_ & Kp & _ & Ke & _).
  cbv zeta in *. rewrite Kp, Ke.
  intros [H|H]; apply in_add_keys in H as [[]|H]; apply in_map_iff in H.
  - destruct H as (pkg & <- & _). unfold package_key.
    destruct (por_string (get pkg "Id" |or| get pkg "id" |or| get pkg "xmi.id")
                (str_of_N (ident pkg))) as [s ->]. eauto.
  - destruct H as (elem & <- & _). unfold element_key.
    destruct (por_string (get elem "Id" |or| get elem "id" |or| get elem "xmi.id")
                (str_of_N (ident elem))) as [s ->]. eauto.
Qed.

(** ** C9: totals and collection sizes *)

Lemma add_keys_size_le {X} (key : X -> ostr) (l : list X) (d : list ostr) :
  d = add_keys [] (map key l) -> List.length d <= List.length l.
Proof.
  intros ->. pose proof (add_keys_length (map key l) []) as H.
  rewrite length_map in H. exact H.
Qed.

Lemma add_keys_size_lt {X} (key : X -> ostr) (l : list X) (d : list ostr) :
  d = add_keys [] (map key l) -> shares_key key l ->
  List.length d < List.length l.
Proof.
  intros -> H. exact (shared_key_saves_an_entry key l [] H).
Qed.

(** C9, as the code has it.  The totals of packages, elements and
    connectors are counted once per entry of the extractor's candidate
    list (for connectors the concatenation of the two searches of lines
    558-559, in which a Connector inside a Connectors container stands
    twice); each collection is keyed by id, a later entry with a key
    already present taking the place of the earlier one, so that it holds
    the distinct keys in the order of their first entry; every one of the
    four totals is at least the size of its collection; and for packages,
    elements and connectors the total is strictly greater as soon as two
    entries of the candidate list have the same key. *)
Theorem totals_count_candidate_entries (b64decode_validate : string -> bool)
  (root : node) :
  let model := extract_model b64decode_validate root in
  (total_packages (stats model) = List.length (package_candidates root) /\
   total_elements (stats model) = List.length (element_candidates root) /\
   total_connectors (stats model) = List.length (connector_nodes root)) /\
  (dict_keys (packages model)
     = add_keys [] (map package_key (package_candidates root)) /\
   dict_keys (elements model)
     = add_keys [] (map element_key (element_candidates root)) /\
   dict_keys (connectors model)
     = add_keys [] (map connector_key (connector_nodes root))) /\
  (List.length (packages model) <= total_packages (stats model) /\
   List.length (elements model) <= total_elements (stats model) /\
   List.length (diagrams model) <= total_diagrams (stats model) /\
   List.length (connectors model) <= total_connectors (stats model)) /\
  (shares_key package_key (package_candidates root) ->
   List.length (packages model) < total_packages (stats model)) /\
  (shares_key element_key (element_candidates root) ->
   List.length (elements model) < total_elements (stats model)) /\
  (shares_key connector_key (connector_nodes root) ->
   List.length (connectors model) < total_connectors (stats model)).
Proof.
  cbv zeta.
  destruct (extract_model_collections b64decode_validate root)
    as (Tp & Kp & Te & Ke & Tc & Kc & Td & Dd).
  cbv zeta in *. rewrite Tp, Te, Tc, Td, Dd.
  rewrite <- !dict_keys_length.
  repeat split; try assumption.
  - exact (add_keys_size_le _ _ _ Kp).
  - exact (add_keys_size_le _ _ _ Ke).
  - apply le_n.
  - exact (add_keys_size_le _ _ _ Kc).
  - exact (add_keys_size_lt _ _ _ Kp).
  - exact (add_keys_size_lt _ _ _ Ke).
  - exact (add_keys_size_lt _ _ _ Kc).
Qed.

(** Two connector nodes without any id attribute: both are keyed under
    [None], the total is two and the collection has one entry. *)
Lemma totals_count_candidate_entries_witness :
  shares_key connector_key (connector_nodes two_connectors_without_id) /\
  List.length (connectors (extract_model canonical_base64 two_connectors_without_id))
  < total_connectors (stats (extract_model canonical_base64 two_connectors_without_id)).
Proof.
  assert (H : shares_key connector_key (connector_nodes two_connectors_without_id)).
  { exists 0, 1, None. repeat split. lia. }
  split; [exact H|].
  exact (proj2 (proj2 (proj2 (proj2 (proj2
           (totals_count_candidate_entries canonical_base64
              two_connectors_without_id))))) H).
Defined.

(** C9 as stated fails.  In
    [<Root><Connectors><Connector Id="C1"/></Connectors></Root>] there is
    one connector node, and the total of connectors is two: the node is
    counted once for each of the two searches that reach it.  In
    [<Root><Diagram Id="D1"/><Diagram Id="D1"/></Root>] two diagram nodes
    share an id, and the total of diagrams, zero, is not greater than the
    size of the collection. *)
Lemma nested_connector_counted_twice :
  List.length (filter (has_tag "Connector") (iter one_nested_connector)) = 1 /\
  total_connectors (stats (extract_model canonical_base64 one_nested_connector)) = 2 /\
  List.length (connectors (extract_model canonical_base64 one_nested_connector)) = 1 /\
  map (fun d => get d "Id")
      (filter (has_tag "Diagram") (iter two_diagrams_same_id))
    = [Some "D1"; Some "D1"] /\
  total_diagrams (stats (extract_model canonical_base64 two_diagrams_same_id)) = 0 /\
  diagrams (extract_model canonical_base64 two_diagrams_same_id) = [].
Proof. repeat split. Qed.

(** ** C1: scenario A *)

Lemma elem_info_of_header (elem : node) :
  el_header (elem_info_of elem) = el_header (elem_base_of elem).
Proof. apply facets_keep_header. Qed.

(** A loop whose body never raises and acts on a view by [upd]. *)
Lemma view_loop {X T} (body : X -> SE analyzer unit) (view : analyzer -> T)
  (upd : X -> T -> T) :
  (forall x s, exists s', body x s = (s', Ok tt) /\ view s' = upd x (view s)) ->
  forall xs s, exists s',
    for_each xs body s = (s', Ok tt) /\
    view s' = fold_left (fun t x => upd x t) xs (view s).
Proof.
  intros Hbody xs. induction xs as [|x xs IH]; intros s; cbn [for_each fold_left].
  - exists s. split; reflexivity.
  - destruct (Hbody x s) as (s1 & Hrun & Hview).
    destruct (IH s1) as (s2 & Hrun2 & Hview2).
    exists s2. unfold bind. rewrite Hrun. split; [exact Hrun2|].
    now rewrite Hview2, Hview.
Qed.

Lemma fold_left_pair {X A B} (f : X -> A -> A) (g : X -> B -> B) (l : list X) :
  forall a b,
    fold_left (fun t x => let '(a', b') := t in (f x a', g x b')) l (a, b)
    = (fold_left (fun a' x => f x a') l a, fold_left (fun b' x => g x b') l b).
Proof.
  induction l as [|x l IH]; intros a b; cbn [fold_left]; [reflexivity | apply IH].
Qed.

Lemma extract_packages_exact (root : node) (s : analyzer) :
  packages s = [] ->
  packages (fst (_extract_packages root s)) = packages_of (package_candidates root).
Proof.
  intros Hs.
  destruct (view_loop package_step packages
              (fun p d => dict_set (package_key p) (pkg_info_of p) d))
    with (xs := package_candidates root) (s := s) as (s' & Hrun & Hview).
  - intros pkg a. unfold package_step, bind, lift, modify.
    rewrite make_pkg_info_eq. eexists. split; [reflexivity|].
    unfold record_package, track_version, track_author.
    destruct (pkg_version _) as [v|]; [destruct (truthy _)|];
      (destruct (pkg_author _) as [w|]; [destruct (truthy _)|]); reflexivity.
  - unfold _extract_packages, try_except. rewrite Hrun. cbn [fst].
    rewrite Hview, Hs. reflexivity.
Qed.

Lemma extract_elements_exact (root : node) (s : analyzer) :
  elements s = [] -> element_types (stats s) = [] ->
  elements (fst (_extract_elements root s)) = elements_of (element_candidates root) /\
  element_types (stats (fst (_extract_elements root s)))
  = element_types_of (element_candidates root).
Proof.
  intros Hs Ht.
  destruct (view_loop (element_step _extract_attributes _extract_operations)
              (fun a => (elements a, element_types (stats a)))
              (fun e t =>
                 let '(d, c) := t in
                 (dict_set (element_key e) (elem_info_of e) d,
                  counter_incr (el_type (elem_info_of e)) c)))
    with (xs := element_candidates root) (s := s) as (s' & Hrun & Hview).
  - intros elem a. unfold element_step, bind, lift.
    rewrite make_elem_info_eq.
    pose proof (elem_info_of_header elem) as Hhead.
    unfold elem_info_of in *.
    destruct (extract_facets _ _ elem (elem_base_of elem)) as [info [[]|e]];
      cbn [fst] in Hhead;
      (eexists; split; [reflexivity|]);
      assert (Hid : el_id info = element_key elem)
        by (unfold el_header in Hhead; now inversion Hhead);
      rewrite <- Hid;
      unfold ret, print, modify, record_element, track_version, track_author;
      (destruct (el_version info) as [v|]; [destruct (truthy _)|];
       (destruct (el_author info) as [w|]; [destruct (truthy _)|]); reflexivity).
  - unfold _extract_elements, extract_elements_with, try_except.
    rewrite Hrun. cbn [fst]. rewrite Hs, Ht, fold_left_pair in Hview.
    now inversion Hview.
Qed.

(** The packages and the element-type counter of the model, from the two
    candidate lists. *)
Lemma extract_model_core (dec : string -> bool) (root : node) :
  let model := extract_model dec root in
  packages model
  = link_elements (elements_of (element_candidates root))
      (link_sub_packages (packages_of (package_candidates root))) /\
  element_types (stats model) = element_types_of (element_candidates root).
Proof.
  cbv zeta.
  destruct (extract_model_stages dec root)
    as (s1 & s2 & s3 & s5 & s6 & H1 & H2 & H3 & H5 & H6 & ->).
  destruct (stage_frames root s1 s2 s3 s5 s6 H1 H2 H3 H5 H6)
    as ((P1 & P6) & (E2 & E6) & _).
  unfold pk_view, el_view in *. cbn [packages elements stats reset
    total_packages total_elements element_types] in *.
  injection P1 as P1 _. injection P6 as P6 _.
  injection E2 as E2 _ E2'. injection E6 as E6 _ E6'.
  pose proof (extract_packages_exact root s1 P1) as HP. rewrite H2 in HP.
  destruct (extract_elements_exact root s2 E2 E2') as [HE HT]. rewrite H3 in HE, HT.
  cbn [fst] in *.
  unfold _calculate_stats.
  cbn [packages elements stats with_packages with_elements].
  now rewrite P6, E6, E6', HP, HE, HT.
Qed.

Lemma filter_through {A} (p q : A -> bool) (l : list A) :
  (forall x, p x = true -> q x = true) ->
  filter p l = filter p (filter q l).
Proof.
  intros H. induction l as [|x l IH]; cbn [filter]; [reflexivity|].
  destruct (p x) eqn:Ep.
  - rewrite (H x Ep). cbn [filter]. now rewrite Ep, IH.
  - destruct (q x); cbn [filter]; [rewrite Ep|]; exact IH.
Qed.

(** C1, as the code has it.  When the nodes that an extractor
    recognises are one [<Package Id="P1" Name="Core">] and one
    [<Element Id="E1" Name="Order" Type="Class" PackageID="P1">], the
    model has two packages in its total, because the element node, with
    its Name and PackageID attributes, passes the package test of line
    201 as well; one element in its total; package P1 with the member
    list [E1]; and the element types Class: 1. *)
Theorem scenario_A_model (b64decode_validate : string -> bool) (root : node) :
  scenario_A root ->
  let model := extract_model b64decode_validate root in
  total_packages (stats model) = 2 /\
  total_elements (stats model) = 1 /\
  (exists p, dict_get (Some "P1") (packages model) = Some p /\
             pkg_elements p = [Some "E1"]) /\
  element_types (stats model) = [(Some "Class", 1)].
Proof.
  intros (P & E & [HPt HPa] & [HEt HEa] & Hnodes). cbv zeta.
  destruct P as [tP aP txP csP iP], E as [tE aE txE csE iE].
  cbn [tag attrib] in HPt, HPa, HEt, HEa. subst tP aP tE aE.
  set (P := Element "Package" _ txP csP iP) in *.
  set (E := Element "Element" _ txE csE iE) in *.
  assert (HpP : is_package_candidate P = true) by reflexivity.
  assert (HpE : is_package_candidate E = true) by reflexivity.
  assert (HeP : is_element_candidate P = false) by reflexivity.
  assert (HeE : is_element_candidate E = true) by reflexivity.
  assert (Hpc : package_candidates root = [P; E] \/ package_candidates root = [E; P]).
  { unfold package_candidates.
    rewrite (filter_through is_package_candidate recognised)
      by (intros x Hx; unfold recognised; now rewrite Hx).
    destruct Hnodes as [-> | ->]; cbn [filter]; rewrite HpP, HpE; auto. }
  assert (Hec : element_candidates root = [E]).
  { unfold element_candidates.
    rewrite (filter_through is_element_candidate recognised)
      by (intros x Hx; unfold recognised; rewrite Hx; apply orb_true_r).
    destruct Hnodes as [-> | ->]; cbn [filter]; now rewrite HeP, HeE. }
  destruct (extract_model_collections b64decode_validate root)
    as (Tp & _ & Te & _).
  destruct (extract_model_core b64decode_validate root) as [Hpk Hty].
  cbv zeta in *.
  pose proof (elem_info_of_header E) as Hhead.
  set (X := elem_info_of E) in *.
  unfold el_header in Hhead.
  injection Hhead as Hid _ Htype Hpkg _ _.
  change (el_type (elem_base_of E)) with (Some "Class") in Htype.
  change (el_package_id (elem_base_of E)) with (Some "P1") in Hpkg.
  assert (Hels : elements_of [E] = [(Some "E1", X)]) by reflexivity.
  assert (Htys : element_types_of [E] = [(Some "Class", 1)]).
  { unfold element_types_of. cbn [fold_left]. fold X. now rewrite Htype. }
  rewrite Hec in *. rewrite Hels in Hpk. rewrite Htys in Hty.
  split; [|split; [exact Te|split; [|exact Hty]]].
  - rewrite Tp. now destruct Hpc as [-> | ->].
  - rewrite Hpk. unfold link_elements. cbn [fold_left]. rewrite Hpkg.
    destruct Hpc as [-> | ->].
    + exists (with_pkg_elements (fun l => l ++ [Some "E1"]) (pkg_info_of P)).
      split; reflexivity.
    + exists (with_pkg_elements (fun l => l ++ [Some "E1"]) (pkg_info_of P)).
      split; reflexivity.
Qed.

(** The document [<Root><Package Id="P1" Name="Core"/><Element Id="E1"
    Name="Order" Type="Class" PackageID="P1"/></Root>]. *)
Lemma scenario_A_model_witness :
  scenario_A scenario_A_document /\
  total_packages (stats (extract_model canonical_base64 scenario_A_document)) = 2 /\
  element_types (stats (extract_model canonical_base64 scenario_A_document))
    = [(Some "Class", 1)].
Proof.
  assert (H : scenario_A scenario_A_document).
  { exists scenario_A_package, scenario_A_element.
    repeat split. now left. }
  destruct (scenario_A_model canonical_base64 scenario_A_document H)
    as (H1 & _ & _ & H4).
  repeat split; assumption.
Defined.

(** C1 as stated fails on that document: the total of packages is two,
    not one, and the collection of packages holds the element node under
    its id E1 next to the package P1. *)
Lemma scenario_A_counts_two_packages :
  scenario_A scenario_A_document /\
  total_packages (stats (extract_model canonical_base64 scenario_A_document)) <> 1 /\
  dict_keys (packages (extract_model canonical_base64 scenario_A_document))
    = [Some "P1"; Some "E1"].
Proof.
  split; [|split].
  - exists scenario_A_package, scenario_A_element. repeat split. now left.
  - vm_compute. discriminate.
  - reflexivity.
Qed.

(* ================================================================== *)
(** * Further properties of the engine                                 *)
(* ================================================================== *)

(** ** The sub-extractors of an element never raise *)

Lemma findall_plain (e : node) (p : path) :
  first_unknown_prefix p = None -> findall e p = Ok (select p e).
Proof. intros H. unfold findall. now rewrite H. Qed.

Lemma make_attr_info_eq (attr : node) :
  make_attr_info attr = Ok (attr_info_of attr).
Proof. unfold make_attr_info. now rewrite extract_notes_eq. Qed.

Lemma make_op_info_eq (op : node) : make_op_info op = Ok (op_info_of op).
Proof.
  unfold make_op_info. rewrite extract_notes_eq. cbn [rbind].
  rewrite !findall_plain by reflexivity. reflexivity.
Qed.

Lemma append_attributes (f : node -> attr_info) (xs : list node) :
  forall info,
    fold_left (fun acc x => with_attributes (fun l => l ++ [f x]) acc) xs info
    = with_attributes (fun l => l ++ map f xs) info.
Proof.
  induction xs as [|x xs IH]; intros info; cbn [fold_left map].
  - destruct info. unfold with_attributes. cbn. now rewrite app_nil_r.
  - rewrite IH. unfold with_attributes. cbn. now rewrite <- app_assoc.
Qed.

Lemma append_operations (f : node -> op_info) (xs : list node) :
  forall info,
    fold_left (fun acc x => with_operations (fun l => l ++ [f x]) acc) xs info
    = with_operations (fun l => l ++ map f xs) info.
Proof.
  induction xs as [|x xs IH]; intros info; cbn [fold_left map].
  - destruct info. unfold with_operations. cbn. now rewrite app_nil_r.
  - rewrite IH. unfold with_operations. cbn. now rewrite <- app_assoc.
Qed.

Lemma extract_attributes_run (element : node) (info : elem_info) :
  _extract_attributes element info
  = (with_attributes
       (fun l => l ++ map attr_info_of (attribute_nodes element)) info,
     Ok tt).
Proof.
  unfold _extract_attributes, bind, lift.
  rewrite !findall_plain by reflexivity.
  rewrite (for_each_pure _
             (fun attr => with_attributes (fun l => l ++ [attr_info_of attr]))).
  - now rewrite append_attributes.
  - intros attr s. now rewrite make_attr_info_eq.
Qed.

Lemma extract_operations_run (element : node) (info : elem_info) :
  _extract_operations element info
  = (with_operations
       (fun l => l ++ map op_info_of (operation_nodes element)) info,
     Ok tt).
Proof.
  unfold _extract_operations, bind, lift.
  rewrite !findall_plain by reflexivity.
  rewrite (for_each_pure _
             (fun op => with_operations (fun l => l ++ [op_info_of op]))).
  - now rewrite append_operations.
  - intros op s. now rewrite make_op_info_eq.
Qed.

Lemma extract_facets_run (elem : node) (info : elem_info) :
  extract_facets _extract_attributes _extract_operations elem info
  = (with_operations (fun l => l ++ map op_info_of (operation_nodes elem))
       (with_attributes (fun l => l ++ map attr_info_of (attribute_nodes elem))
          info),
     Ok tt).
Proof.
  unfold extract_facets, bind.
  now rewrite extract_attributes_run, extract_operations_run.
Qed.

Lemma elem_info_of_eq (elem : node) :
  elem_info_of elem
  = with_operations (fun _ => map op_info_of (operation_nodes elem))
      (with_attributes (fun _ => map attr_info_of (attribute_nodes elem))
         (elem_base_of elem)).
Proof. unfold elem_info_of. now rewrite extract_facets_run. Qed.

(** ** The steps of the loops *)

Lemma package_step_run (pkg : node) (s : analyzer) :
  package_step pkg s = (record_package (pkg_info_of pkg) s, Ok tt).
Proof. unfold package_step, bind, lift. now rewrite make_pkg_info_eq. Qed.

Lemma element_step_exact (elem : node) (s : analyzer) :
  element_step _extract_attributes _extract_operations elem s
  = (record_element (elem_info_of elem) s, Ok tt).
Proof.
  unfold element_step, bind, lift. rewrite make_elem_info_eq.
  unfold elem_info_of. now rewrite extract_facets_run.
Qed.

Lemma find_or_eq (conn : node) (t1 t2 : string) :
  unknown_prefix t1 = None -> unknown_prefix t2 = None ->
  find_or conn [Desc t1] [Desc t2] = Ok (role_node conn t1 t2).
Proof.
  intros H1 H2. unfold find_or, role_node.
  rewrite find_plain by exact H1. cbn [rbind].
  destruct (elem_bool _); [reflexivity | now apply find_plain].
Qed.

Lemma make_conn_info_eq (conn : node) :
  make_conn_info conn = Ok (conn_info_of conn).
Proof.
  unfold make_conn_info. rewrite extract_notes_eq. cbn [rbind].
  rewrite !find_or_eq by reflexivity. reflexivity.
Qed.

Lemma connector_step_run (conn : node) (s : analyzer) :
  connector_step conn s = (record_connector (conn_info_of conn) s, Ok tt).
Proof. unfold connector_step, bind, lift. now rewrite make_conn_info_eq. Qed.

Lemma tagged_value_step_run (tv : node) (s : analyzer) :
  tagged_value_step tv s = (record_tagged_value tv s, Ok tt).
Proof.
  unfold tagged_value_step, record_tagged_value, bind, lift.
  rewrite extract_notes_eq. fold (tagged_key tv).
  now destruct (truthy (tagged_key tv)).
Qed.

(** ** The six extractors, one after the other *)

Lemma extract_model_info_run (root : node) :
  _extract_model_info root (reset [])
  = (with_model_info (fun _ => model_info_of root) (reset []), Ok tt).
Proof. reflexivity. Qed.

Lemma extract_packages_fold (root : node) (s : analyzer) :
  _extract_packages root s
  = (fold_left (fun self pkg => record_package (pkg_info_of pkg) self)
       (package_candidates root) s,
     Ok tt).
Proof.
  unfold _extract_packages, try_except.
  now rewrite (for_each_pure _ _ package_step_run).
Qed.

Lemma extract_elements_fold (root : node) (s : analyzer) :
  _extract_elements root s
  = (fold_left (fun self elem => record_element (elem_info_of elem) self)
       (element_candidates root) s,
     Ok tt).
Proof.
  unfold _extract_elements, extract_elements_with, try_except.
  now rewrite (for_each_pure _ _ element_step_exact).
Qed.

Lemma extract_connectors_fold (root : node) (s : analyzer) :
  _extract_connectors root s
  = (fold_left (fun self conn => record_connector (conn_info_of conn) self)
       (connector_nodes root) s,
     Ok tt).
Proof.
  unfold _extract_connectors, bind, lift. rewrite connector_candidates_eq.
  now rewrite (for_each_pure _ _ connector_step_run).
Qed.

Lemma extract_tagged_values_fold (root : node) (s : analyzer) :
  _extract_tagged_values root s
  = (fold_left (fun self tv => record_tagged_value tv self)
       (tagged_value_nodes root) s,
     Ok tt).
Proof.
  unfold _extract_tagged_values, bind, lift.
  rewrite !findall_plain by reflexivity.
  now rewrite (for_each_pure _ _ tagged_value_step_run).
Qed.

(** The whole run: every extractor but the one of the diagrams returns,
    and the assembler works on [extraction_state]. *)
Lemma extract_model_closed (dec : string -> bool) (root : node) :
  extract_model dec root = _calculate_stats (extraction_state root).
Proof.
  unfold extract_model, extraction_state, bind.
  rewrite (guarded_ok _ _ _ _ (extract_model_info_run root)).
  rewrite (guarded_ok _ _ _ _ (extract_packages_fold root _)).
  rewrite (guarded_ok _ _ _ _ (extract_elements_fold root _)).
  rewrite guarded_diagrams.
  rewrite (guarded_ok _ _ _ _ (extract_connectors_fold root _)).
  rewrite (guarded_ok _ _ _ _ (extract_tagged_values_fold root _)).
  reflexivity.
Qed.

(** ** Views of the state after the extractors *)

Lemma fold_left_view {X S T} (g : X -> S -> S) (view : S -> T)
  (upd : X -> T -> T) :
  (forall x s, view (g x s) = upd x (view s)) ->
  forall xs s,
    view (fold_left (fun a x => g x a) xs s)
    = fold_left (fun t x => upd x t) xs (view s).
Proof.
  intros H xs. induction xs as [|x xs IH]; intros s; cbn [fold_left];
    [reflexivity|]. now rewrite IH, H.
Qed.

Lemma fold_left_frame {X S T} (g : X -> S -> S) (view : S -> T) :
  (forall x s, view (g x s) = view s) ->
  forall xs s, view (fold_left (fun a x => g x a) xs s) = view s.
Proof.
  intros H xs. induction xs as [|x xs IH]; intros s; cbn [fold_left];
    [reflexivity|]. now rewrite IH, H.
Qed.

Ltac settle_record :=
  intros;
  unfold record_package, record_element, record_connector, record_diagram,
         record_tagged_value, track_author, track_version, add_name;
  repeat match goal with
         | |- context [match ?v with Some _ => _ | None => _ end] => destruct v
         | |- context [if ?b then _ else _] => destruct b
         end;
  reflexivity.

Lemma extraction_state_stdout (root : node) :
  stdout (extraction_state root) = [diagrams_warning].
Proof.
  unfold extraction_state.
  rewrite (fold_left_frame (fun tv => record_tagged_value tv) stdout)
    by settle_record.
  rewrite (fold_left_frame (fun c => record_connector (conn_info_of c)) stdout)
    by settle_record.
  cbn [stdout with_stdout].
  rewrite (fold_left_frame (fun e => record_element (elem_info_of e)) stdout)
    by settle_record.
  rewrite (fold_left_frame (fun p => record_package (pkg_info_of p)) stdout)
    by settle_record.
  reflexivity.
Qed.

Lemma extraction_state_model_info (root : node) :
  model_info (extraction_state root) = model_info_of root.
Proof.
  unfold extraction_state.
  rewrite (fold_left_frame (fun tv => record_tagged_value tv) model_info)
    by settle_record.
  rewrite (fold_left_frame (fun c => record_connector (conn_info_of c)) model_info)
    by settle_record.
  cbn [model_info with_stdout].
  rewrite (fold_left_frame (fun e => record_element (elem_info_of e)) model_info)
    by settle_record.
  rewrite (fold_left_frame (fun p => record_package (pkg_info_of p)) model_info)
    by settle_record.
  reflexivity.
Qed.

Lemma extraction_state_packages (root : node) :
  packages (extraction_state root) = packages_of (package_candidates root).
Proof.
  unfold extraction_state.
  rewrite (fold_left_frame (fun tv => record_tagged_value tv) packages)
    by settle_record.
  rewrite (fold_left_frame (fun c => record_connector (conn_info_of c)) packages)
    by settle_record.
  cbn [packages with_stdout].
  rewrite (fold_left_frame (fun e => record_element (elem_info_of e)) packages)
    by settle_record.
  rewrite (fold_left_view (fun p => record_package (pkg_info_of p)) packages
             (fun p d => dict_set (package_key p) (pkg_info_of p) d))
    by settle_record.
  reflexivity.
Qed.

Lemma elem_info_of_id (elem : node) : el_id (elem_info_of elem) = element_key elem.
Proof. now rewrite elem_info_of_eq. Qed.

Lemma extraction_state_elements (root : node) :
  elements (extraction_state root) = elements_of (element_candidates root).
Proof.
  unfold extraction_state.
  rewrite (fold_left_frame (fun tv => record_tagged_value tv) elements)
    by settle_record.
  rewrite (fold_left_frame (fun c => record_connector (conn_info_of c)) elements)
    by settle_record.
  cbn [elements with_stdout].
  rewrite (fold_left_view (fun e => record_element (elem_info_of e)) elements
             (fun e d => dict_set (element_key e) (elem_info_of e) d)).
  - rewrite (fold_left_frame (fun p => record_package (pkg_info_of p)) elements)
      by settle_record.
    reflexivity.
  - intros e s. rewrite <- elem_info_of_id. settle_record.
Qed.

Lemma extraction_state_connectors (root : node) :
  connectors (extraction_state root) = connectors_of (connector_nodes root).
Proof.
  unfold extraction_state.
  rewrite (fold_left_frame (fun tv => record_tagged_value tv) connectors)
    by settle_record.
  rewrite (fold_left_view (fun c => record_connector (conn_info_of c)) connectors
             (fun c d => dict_set (connector_key c) (conn_info_of c) d))
    by settle_record.
  cbn [connectors with_stdout].
  rewrite (fold_left_frame (fun e => record_element (elem_info_of e)) connectors)
    by settle_record.
  rewrite (fold_left_frame (fun p => record_package (pkg_info_of p)) connectors)
    by settle_record.
  reflexivity.
Qed.

Lemma extraction_state_tagged_values (root : node) :
  tagged_values (extraction_state root)
  = tagged_values_of (tagged_value_nodes root).
Proof.
  unfold extraction_state.
  rewrite (fold_left_view (fun tv => record_tagged_value tv) tagged_values
             (fun tv d =>
                if truthy (tagged_key tv)
                then tagged_append (tagged_key tv) (tag_info_of tv) d
                else d))
    by settle_record.
  rewrite (fold_left_frame (fun c => record_connector (conn_info_of c))
             tagged_values) by settle_record.
  cbn [tagged_values with_stdout].
  rewrite (fold_left_frame (fun e => record_element (elem_info_of e))
             tagged_values) by settle_record.
  rewrite (fold_left_frame (fun p => record_package (pkg_info_of p))
             tagged_values) by settle_record.
  reflexivity.
Qed.

Lemma extraction_state_authors (root : node) :
  authors (extraction_state root) = authors_of root.
Proof.
  unfold extraction_state, authors_of.
  rewrite (fold_left_frame (fun tv => record_tagged_value tv) authors)
    by settle_record.
  rewrite (fold_left_frame (fun c => record_connector (conn_info_of c)) authors)
    by settle_record.
  cbn [authors with_stdout].
  rewrite (fold_left_view (fun e => record_element (elem_info_of e)) authors
             (fun e l => add_name (el_author (elem_info_of e)) l))
    by settle_record.
  rewrite (fold_left_view (fun p => record_package (pkg_info_of p)) authors
             (fun p l => add_name (pkg_author (pkg_info_of p)) l))
    by settle_record.
  reflexivity.
Qed.

Lemma extraction_state_versions (root : node) :
  versions (extraction_state root) = versions_of root.
Proof.
  unfold extraction_state, versions_of.
  rewrite (fold_left_frame (fun tv => record_tagged_value tv) versions)
    by settle_record.
  rewrite (fold_left_frame (fun c => record_connector (conn_info_of c)) versions)
    by settle_record.
  cbn [versions with_stdout].
  rewrite (fold_left_view (fun e => record_element (elem_info_of e)) versions
             (fun e l => add_name (el_version (elem_info_of e)) l))
    by settle_record.
  rewrite (fold_left_view (fun p => record_package (pkg_info_of p)) versions
             (fun p l => add_name (pkg_version (pkg_info_of p)) l))
    by settle_record.
  reflexivity.
Qed.

Lemma extraction_state_counters (root : node) :
  element_types (stats (extraction_state root))
    = element_types_of (element_candidates root) /\
  connector_types (stats (extraction_state root))
    = connector_types_of (connector_nodes root) /\
  diagram_types (stats (extraction_state root)) = [].
Proof.
  unfold extraction_state. repeat split.
  - rewrite (fold_left_frame (fun tv => record_tagged_value tv)
               (fun s => element_types (stats s))) by settle_record.
    rewrite (fold_left_frame (fun c => record_connector (conn_info_of c))
               (fun s => element_types (stats s))) by settle_record.
    cbn [stats with_stdout].
    rewrite (fold_left_view (fun e => record_element (elem_info_of e))
               (fun s => element_types (stats s))
               (fun e c => counter_incr (el_type (elem_info_of e)) c))
      by settle_record.
    rewrite (fold_left_frame (fun p => record_package (pkg_info_of p))
               (fun s => element_types (stats s))) by settle_record.
    reflexivity.
  - rewrite (fold_left_frame (fun tv => record_tagged_value tv)
               (fun s => connector_types (stats s))) by settle_record.
    rewrite (fold_left_view (fun c => record_connector (conn_info_of c))
               (fun s => connector_types (stats s))
               (fun c n => counter_incr (cn_type (conn_info_of c)) n))
      by settle_record.
    cbn [stats with_stdout].
    rewrite (fold_left_frame (fun e => record_element (elem_info_of e))
               (fun s => connector_types (stats s))) by settle_record.
    rewrite (fold_left_frame (fun p => record_package (pkg_info_of p))
               (fun s => connector_types (stats s))) by settle_record.
    reflexivity.
  - rewrite (fold_left_frame (fun tv => record_tagged_value tv)
               (fun s => diagram_types (stats s))) by settle_record.
    rewrite (fold_left_frame (fun c => record_connector (conn_info_of c))
               (fun s => diagram_types (stats s))) by settle_record.
    cbn [stats with_stdout].
    rewrite (fold_left_frame (fun e => record_element (elem_info_of e))
               (fun s => diagram_types (stats s))) by settle_record.
    rewrite (fold_left_frame (fun p => record_package (pkg_info_of p))
               (fun s => diagram_types (stats s))) by settle_record.
    reflexivity.
Qed.

(** The fields of the returned model. *)
Lemma extract_model_fields (dec : string -> bool) (root : node) :
  let model := extract_model dec root in
  packages model
    = link_elements (elements_of (element_candidates root))
        (link_sub_packages (packages_of (package_candidates root))) /\
  elements model
    = attach_tagged_values (tagged_values_of (tagged_value_nodes root))
        (elements_of (element_candidates root)) /\
  connectors model = connectors_of (connector_nodes root) /\
  tagged_values model = tagged_values_of (tagged_value_nodes root) /\
  model_info model = model_info_of root /\
  authors model = authors_of root /\
  versions model = versions_of root /\
  stdout model = [diagrams_warning].
Proof.
  cbv zeta. rewrite extract_model_closed. unfold _calculate_stats.
  cbn [packages elements connectors tagged_values model_info authors versions
       stdout with_packages with_elements].
  rewrite extraction_state_packages, extraction_state_elements,
    extraction_state_connectors, extraction_state_tagged_values,
    extraction_state_model_info, extraction_state_authors,
    extraction_state_versions, extraction_state_stdout.
  repeat split.
Qed.

(** ** Dictionaries: lookups *)

Lemma ostr_eqb_eq (a b : ostr) : ostr_eqb a b = true <-> a = b.
Proof.
  destruct a as [x|], b as [y|]; cbn; split; intros H;
    try discriminate; try reflexivity.
  - apply String.eqb_eq in H. now subst.
  - injection H as ->. apply String.eqb_refl.
Qed.

Lemma ostr_eqb_sym (a b : ostr) : ostr_eqb a b = ostr_eqb b a.
Proof.
  destruct (ostr_eqb a b) eqn:E.
  - apply ostr_eqb_eq in E. subst. symmetry. apply ostr_eqb_refl.
  - destruct (ostr_eqb b a) eqn:E'; [|reflexivity].
    apply ostr_eqb_eq in E'. subst. now rewrite ostr_eqb_refl in E.
Qed.

Lemma dict_get_set {V} (k k' : ostr) (v : V) (d : dict V) :
  dict_get k (dict_set k' v d)
  = if ostr_eqb k k' then Some v else dict_get k d.
Proof.
  induction d as [|[k0 v0] d IH]; cbn [dict_set dict_get].
  - reflexivity.
  - destruct (ostr_eqb k' k0) eqn:E; cbn [dict_get].
    + apply ostr_eqb_eq in E. subst k0. now destruct (ostr_eqb k k').
    + rewrite IH. destruct (ostr_eqb k k0) eqn:E0; [|reflexivity].
      apply ostr_eqb_eq in E0. subst k0.
      now rewrite ostr_eqb_sym, E.
Qed.

Lemma dict_get_update {V} (k k' : ostr) (f : V -> V) (d : dict V) :
  dict_get k (dict_update k' f d)
  = if ostr_eqb k k' then option_map f (dict_get k d) else dict_get k d.
Proof.
  induction d as [|[k0 v0] d IH]; cbn [dict_update dict_get].
  - now destruct (ostr_eqb k k').
  - destruct (ostr_eqb k' k0) eqn:E; cbn [dict_get].
    + apply ostr_eqb_eq in E. subst k0.
      now destruct (ostr_eqb k k').
    + rewrite IH. destruct (ostr_eqb k k0) eqn:E0; [|reflexivity].
      apply ostr_eqb_eq in E0. subst k0.
      now rewrite ostr_eqb_sym, E.
Qed.

Lemma last_with_cons {X} (p : X -> bool) (x : X) (l : list X) :
  last_with p (x :: l)
  = match last_with p l with
    | Some y => Some y
    | None => if p x then Some x else None
    end.
Proof.
  unfold last_with. cbn [rev].
  induction (rev l) as [|y r IH]; cbn [app List.find]; [reflexivity|].
  now destruct (p y).
Qed.

Lemma last_with_some {X} (p : X -> bool) (l : list X) (x : X) :
  last_with p l = Some x -> In x l /\ p x = true.
Proof.
  unfold last_with. intros H. apply find_some in H.
  destruct H as [H1 H2]. split; [now apply in_rev | exact H2].
Qed.

Lemma last_with_none {X} (p : X -> bool) (l : list X) :
  last_with p l = None -> forall x, In x l -> p x = false.
Proof.
  unfold last_with. intros H x Hx.
  apply (find_none _ _ H). now apply in_rev in Hx.
Qed.

(** A collection filled by storing each candidate under its key holds,
    under a key, the entry of the last candidate with that key. *)
Lemma dict_get_stored {X V} (key : X -> ostr) (val : X -> V) (k : ostr)
  (l : list X) :
  forall d0,
    dict_get k (fold_left (fun d x => dict_set (key x) (val x) d) l d0)
    = match last_with (fun x => ostr_eqb k (key x)) l with
      | Some x => Some (val x)
      | None => dict_get k d0
      end.
Proof.
  induction l as [|x l IH]; intros d0; cbn [fold_left]; [reflexivity|].
  rewrite IH, last_with_cons.
  destruct (last_with _ l); [reflexivity|].
  rewrite dict_get_set. now destruct (ostr_eqb k (key x)).
Qed.

Lemma dict_get_in {V} (k : ostr) (v : V) (d : dict V) :
  dict_get k d = Some v -> In (k, v) d.
Proof.
  induction d as [|[k0 v0] d IH]; cbn [dict_get]; [discriminate|].
  destruct (ostr_eqb k k0) eqn:E.
  - apply ostr_eqb_eq in E. subst. intros [= ->]. now left.
  - intros H. right. now apply IH.
Qed.

Lemma dict_mem_get {V} (k : ostr) (d : dict V) :
  dict_mem k d = true <-> exists v, dict_get k d = Some v.
Proof.
  unfold dict_mem. destruct (dict_get k d); split; intros H; eauto;
    try discriminate. now destruct H.
Qed.

Lemma dict_mem_keys {V} (k : ostr) (d : dict V) :
  dict_mem k d = existsb (ostr_eqb k) (dict_keys d).
Proof.
  unfold dict_mem, dict_keys.
  induction d as [|[k0 v0] d IH]; cbn [dict_get map fst existsb]; [reflexivity|].
  destruct (ostr_eqb k k0); [reflexivity | exact IH].
Qed.

(** ** The assembler *)

Section Linking.
Context {X : Type} (target : X -> ostr).
Context (w : (list ostr -> list ostr) -> pkg_info -> pkg_info).
Hypothesis w_id : forall p, w (fun l => l) p = p.
Hypothesis w_w : forall f g p, w f (w g p) = w (fun l => f (g l)) p.
Hypothesis w_ext : forall f g p, (forall l, f l = g l) -> w f p = w g p.

(** The two linking loops of lines 627-634: the entry under [k] gets the
    ids of the items that name [k], in order. *)
Lemma link_get (k : ostr) (items : dict X) :
  forall pk p,
    dict_get k pk = Some p ->
    dict_get k
      (fold_left
         (fun acc '(id, x) =>
            if truthy (target x) && dict_mem (target x) acc then
              dict_update (target x) (w (fun l => l ++ [id])) acc
            else acc)
         items pk)
    = Some (w (fun l =>
                 l ++ map fst
                        (filter (fun '(_, x) =>
                                   truthy (target x) && ostr_eqb (target x) k)
                                items))
              p).
Proof.
  induction items as [|[id x] items IH]; intros pk p H; cbn [fold_left filter].
  - rewrite H. f_equal. rewrite <- (w_id p) at 1. apply w_ext.
    intros l. cbn. now rewrite app_nil_r.
  - destruct (truthy (target x)) eqn:Et; cbn [andb].
    + destruct (ostr_eqb (target x) k) eqn:Ek.
      * apply ostr_eqb_eq in Ek. subst k.
        assert (Hm : dict_mem (target x) pk = true)
          by (apply dict_mem_get; eauto).
        rewrite Hm.
        rewrite (IH _ (w (fun l => l ++ [id]) p)).
        -- f_equal. rewrite w_w. apply w_ext. intros l. cbn [map fst].
           now rewrite <- app_assoc.
        -- rewrite dict_get_update, ostr_eqb_refl, H. reflexivity.
      * destruct (dict_mem (target x) pk).
        -- apply IH. rewrite dict_get_update, ostr_eqb_sym, Ek. exact H.
        -- now apply IH.
    + now apply IH.
Qed.

End Linking.

Lemma with_sub_packages_id (p : pkg_info) : with_sub_packages (fun l => l) p = p.
Proof. now destruct p. Qed.

Lemma with_pkg_elements_id (p : pkg_info) : with_pkg_elements (fun l => l) p = p.
Proof. now destruct p. Qed.

Lemma with_sub_packages_ext (f g : list ostr -> list ostr) (p : pkg_info) :
  (forall l, f l = g l) -> with_sub_packages f p = with_sub_packages g p.
Proof. intros H. unfold with_sub_packages. now rewrite H. Qed.

Lemma with_pkg_elements_ext (f g : list ostr -> list ostr) (p : pkg_info) :
  (forall l, f l = g l) -> with_pkg_elements f p = with_pkg_elements g p.
Proof. intros H. unfold with_pkg_elements. now rewrite H. Qed.

Lemma link_sub_packages_get (k : ostr) (pk : dict pkg_info) (p : pkg_info) :
  dict_get k pk = Some p ->
  dict_get k (link_sub_packages pk)
  = Some (with_sub_packages (fun l => l ++ children_of k pk) p).
Proof.
  intros H. unfold link_sub_packages, children_of.
  apply (link_get pkg_parent_id with_sub_packages); auto.
  - apply with_sub_packages_id.
  - apply with_sub_packages_ext.
Qed.

Lemma link_elements_get (k : ostr) (els : dict elem_info) (pk : dict pkg_info)
  (p : pkg_info) :
  dict_get k pk = Some p ->
  dict_get k (link_elements els pk)
  = Some (with_pkg_elements (fun l => l ++ members_of k els) p).
Proof.
  intros H. unfold link_elements, members_of.
  apply (link_get el_package_id with_pkg_elements); auto.
  - apply with_pkg_elements_id.
  - apply with_pkg_elements_ext.
Qed.

Lemma dict_get_none_keys {V W} (k : ostr) (d : dict V) (d' : dict W) :
  dict_keys d' = dict_keys d -> dict_get k d = None -> dict_get k d' = None.
Proof.
  intros Hk H.
  assert (Hm : dict_mem k d = false) by (unfold dict_mem; now rewrite H).
  rewrite dict_mem_keys, <- Hk, <- dict_mem_keys in Hm.
  unfold dict_mem in Hm. now destruct (dict_get k d').
Qed.

(** The parent ids and the package ids are those of the extraction. *)
Lemma children_of_update (k k' : ostr) (f : pkg_info -> pkg_info)
  (d : dict pkg_info) :
  (forall p, pkg_parent_id (f p) = pkg_parent_id p) ->
  children_of k (dict_update k' f d) = children_of k d.
Proof.
  intros Hf. unfold children_of.
  induction d as [|[k0 p0] d IH]; cbn [dict_update]; [reflexivity|].
  destruct (ostr_eqb k' k0); cbn [filter].
  - rewrite Hf. now destruct (_ && _).
  - destruct (_ && _); cbn [map fst]; now rewrite IH.
Qed.

Lemma children_of_fold {X} (k : ostr) (g : dict pkg_info -> X -> dict pkg_info)
  (l : list X) :
  (forall a x, children_of k (g a x) = children_of k a) ->
  forall d, children_of k (fold_left g l d) = children_of k d.
Proof.
  intros H. induction l as [|x l IH]; intros d; cbn [fold_left];
    [reflexivity|]. now rewrite IH, H.
Qed.

Lemma children_of_link_sub_packages (k : ostr) (pk : dict pkg_info) :
  children_of k (link_sub_packages pk) = children_of k pk.
Proof.
  unfold link_sub_packages. apply children_of_fold.
  intros a [id p]. destruct (_ && _); [|reflexivity].
  now apply children_of_update.
Qed.

Lemma children_of_link_elements (k : ostr) (els : dict elem_info)
  (pk : dict pkg_info) :
  children_of k (link_elements els pk) = children_of k pk.
Proof.
  unfold link_elements. apply children_of_fold.
  intros a [id e]. destruct (_ && _); [|reflexivity].
  now apply children_of_update.
Qed.

Lemma members_of_attach (k : ostr) (tvs : dict (list tag_info))
  (els : dict elem_info) :
  members_of k (attach_tagged_values tvs els) = members_of k els.
Proof.
  unfold members_of, attach_tagged_values.
  induction els as [|[id e] els IH]; cbn [map filter]; [reflexivity|].
  destruct (dict_get id tvs); cbn [el_package_id set_tagged_values];
    (destruct (_ && _); cbn [map fst]; now rewrite IH).
Qed.

(** Every package of the extraction is the information of a candidate
    node, with empty lists. *)
Lemma packages_of_get (k : ostr) (l : list node) (p : pkg_info) :
  dict_get k (packages_of l) = Some p ->
  exists n, In n l /\ package_key n = k /\ p = pkg_info_of n.
Proof.
  unfold packages_of. rewrite dict_get_stored.
  destruct (last_with _ l) as [n|] eqn:E; [|discriminate].
  intros [= <-]. apply last_with_some in E. destruct E as [Hin Hk].
  apply ostr_eqb_eq in Hk. eauto.
Qed.

Lemma elements_of_get (k : ostr) (l : list node) (e : elem_info) :
  dict_get k (elements_of l) = Some e ->
  exists n, In n l /\ element_key n = k /\ e = elem_info_of n.
Proof.
  unfold elements_of. rewrite dict_get_stored.
  destruct (last_with _ l) as [n|] eqn:E; [|discriminate].
  intros [= <-]. apply last_with_some in E. destruct E as [Hin Hk].
  apply ostr_eqb_eq in Hk. eauto.
Qed.

(** A package of the model, from the package of the extraction. *)
Lemma model_package (dec : string -> bool) (root : node) (k : ostr)
  (p : pkg_info) :
  dict_get k (packages (extract_model dec root)) = Some p ->
  exists n,
    In n (package_candidates root) /\ package_key n = k /\
    p = with_pkg_elements
          (fun _ => members_of k (elements (extract_model dec root)))
          (with_sub_packages
             (fun _ => children_of k (packages (extract_model dec root)))
             (pkg_info_of n)).
Proof.
  destruct (extract_model_fields dec root) as (Hpk & Hel & _).
  cbv zeta in *. rewrite Hpk, Hel. intros H.
  set (pk0 := packages_of (package_candidates root)) in *.
  set (els0 := elements_of (element_candidates root)) in *.
  destruct (dict_get k pk0) as [p0|] eqn:E0.
  - destruct (packages_of_get _ _ _ E0) as (n & Hin & Hk & ->).
    exists n. split; [exact Hin|]. split; [exact Hk|].
    rewrite (link_elements_get k els0 _ _ (link_sub_packages_get k pk0 _ E0)) in H.
    injection H as <-.
    rewrite members_of_attach, children_of_link_elements,
      children_of_link_sub_packages.
    reflexivity.
  - exfalso.
    assert (Hn : dict_get k (link_elements els0 (link_sub_packages pk0)) = None).
    { apply (dict_get_none_keys k pk0); [|exact E0].
      now rewrite link_elements_keys, link_sub_packages_keys. }
    congruence.
Qed.

(** ** Document order *)

Lemma in_iter_self (e : node) : In e (iter e).
Proof. rewrite iter_unfold. now left. Qed.

Lemma iter_trans (n x : node) :
  forall c, In x (iter c) -> In n (iter x) -> In n (iter c).
Proof.
  induction c as [t a tx cs i IH] using node_forall_ind.
  intros Hx Hn. rewrite iter_unfold in Hx. destruct Hx as [<- | Hx]; [exact Hn|].
  rewrite iter_unfold. right. unfold descendants in *. cbn [children] in *.
  apply in_flat_map in Hx. destruct Hx as (c & Hc & Hx).
  apply in_flat_map. exists c. split; [exact Hc|].
  rewrite Forall_forall in IH. now apply (IH c Hc).
Qed.

Lemma children_in_descendants (x n : node) :
  In n (children x) -> In n (descendants x).
Proof.
  intros H. unfold descendants. apply in_flat_map.
  exists n. split; [exact H | apply in_iter_self].
Qed.

Lemma descendants_trans (e x n : node) :
  In x (descendants e) -> In n (descendants x) -> In n (descendants e).
Proof.
  unfold descendants at 1 3. intros Hx Hn.
  apply in_flat_map in Hx. destruct Hx as (c & Hc & Hx).
  apply in_flat_map. exists c. split; [exact Hc|].
  apply (iter_trans n x c Hx). rewrite iter_unfold. now right.
Qed.

Lemma select_desc (e : node) (t : string) :
  select [Desc t] e = filter (has_tag t) (descendants e).
Proof. unfold select. cbn [fold_left select_step flat_map]. apply app_nil_r. Qed.

Lemma select_desc_child (e : node) (a b : string) :
  select [Desc a; Child b] e
  = flat_map (fun x => filter (has_tag b) (children x))
      (filter (has_tag a) (descendants e)).
Proof.
  unfold select. cbn [fold_left select_step flat_map]. now rewrite app_nil_r.
Qed.

(** What the search below a container finds, the search by tag finds as
    well. *)
Lemma select_child_in_desc (e n : node) (a b : string) :
  In n (select [Desc a; Child b] e) -> In n (select [Desc b] e).
Proof.
  rewrite select_desc_child, select_desc. intros H.
  apply in_flat_map in H. destruct H as (x & Hx & Hn).
  apply filter_In in Hx. destruct Hx as [Hx _].
  apply filter_In in Hn. destruct Hn as [Hn Ht].
  apply filter_In. split; [|exact Ht].
  apply (descendants_trans e x n Hx). now apply children_in_descendants.
Qed.

Lemma count_node_in (n : node) (l : list node) : In n l -> 1 <= count_node n l.
Proof.
  intros H. apply count_node_positive. apply existsb_exists.
  exists n. split; [exact H|]. unfold same_node. apply N.eqb_refl.
Qed.

Lemma found_twice (e n : node) (a b : string) :
  In n (select [Desc a; Child b] e) ->
  2 <= count_node n (select [Desc a; Child b] e ++ select [Desc b] e).
Proof.
  intros H. rewrite count_node_app.
  pose proof (count_node_in n _ H).
  pose proof (count_node_in n _ (select_child_in_desc e n a b H)). lia.
Qed.

(** The searches of a node reach below every node under it. *)
Lemma select_desc_nested (outer inner : node) (t : string) :
  In inner (descendants outer) ->
  incl (select [Desc t] inner) (select [Desc t] outer).
Proof.
  intros Hin n. rewrite !select_desc. intros H.
  apply filter_In in H. destruct H as [H Ht].
  apply filter_In. split; [|exact Ht]. now apply (descendants_trans outer inner).
Qed.

Lemma select_desc_child_nested (outer inner : node) (a b : string) :
  In inner (descendants outer) ->
  incl (select [Desc a; Child b] inner) (select [Desc a; Child b] outer).
Proof.
  intros Hin n. rewrite !select_desc_child. intros H.
  apply in_flat_map in H. destruct H as (x & Hx & Hn).
  apply in_flat_map. exists x. split; [|exact Hn].
  apply filter_In in Hx. destruct Hx as [Hx Ht].
  apply filter_In. split; [|exact Ht]. now apply (descendants_trans outer inner).
Qed.

(** ** Attributes and operations *)

(** X1.  [_extract_attributes] returns on every node and every element
    information: it appends one entry for each match of
    [.//Attributes/Attribute] and then one for each match of
    [.//Attribute].  An [Attribute] node that stands directly in an
    [Attributes] container is found by both searches, so it is entered
    twice. *)
Theorem attributes_entered_once_per_match (element : node) (info : elem_info) :
  _extract_attributes element info
  = (with_attributes
       (fun l =>
          l ++ map attr_info_of
                 (select [Desc "Attributes"; Child "Attribute"] element
                  ++ select [Desc "Attribute"] element))
       info,
     Ok tt) /\
  (forall attr, make_attr_info attr = Ok (attr_info_of attr)) /\
  (forall n,
      In n (select [Desc "Attributes"; Child "Attribute"] element) ->
      2 <= count_node n
             (select [Desc "Attributes"; Child "Attribute"] element
              ++ select [Desc "Attribute"] element)).
Proof.
  split; [apply extract_attributes_run|].
  split; [apply make_attr_info_eq|].
  intros n. apply found_twice.
Qed.

Lemma attributes_entered_once_per_match_witness :
  In total_attribute
     (select [Desc "Attributes"; Child "Attribute"] order_with_line) /\
  2 <= count_node total_attribute
         (select [Desc "Attributes"; Child "Attribute"] order_with_line
          ++ select [Desc "Attribute"] order_with_line) /\
  map attr_name
      (el_attributes
         (fst (_extract_attributes order_with_line (elem_base_of order_with_line))))
    = [Some "total"; Some "total"; Some "qty"].
Proof.
  assert (H : In total_attribute
                 (select [Desc "Attributes"; Child "Attribute"] order_with_line))
    by (cbn; auto).
  split; [exact H|].
  destruct (attributes_entered_once_per_match order_with_line
              (elem_base_of order_with_line)) as (Hrun & _ & Htwice).
  split; [exact (Htwice total_attribute H)|].
  rewrite Hrun. reflexivity.
Defined.

(** X2.  [_extract_operations] returns on every node as well: one entry
    for each match of [.//Operations/Operation], then one for each match
    of [.//Operation], and in each entry one parameter for each match of
    [.//Parameters/Parameter] and then of [.//Parameter] below the
    operation.  A [Parameter] directly in a [Parameters] container is
    therefore listed twice. *)
Theorem operations_entered_once_per_match (element : node) (info : elem_info) :
  (exists ops,
      _extract_operations element info
      = (with_operations (fun l => l ++ ops) info, Ok tt) /\
      Forall2 (fun op entry => make_op_info op = Ok entry)
        (select [Desc "Operations"; Child "Operation"] element
         ++ select [Desc "Operation"] element)
        ops) /\
  (forall op, exists entry,
      make_op_info op = Ok entry /\
      op_parameters entry
      = map make_param_info
          (select [Desc "Parameters"; Child "Parameter"] op
           ++ select [Desc "Parameter"] op)) /\
  (forall op n,
      In n (select [Desc "Parameters"; Child "Parameter"] op) ->
      2 <= count_node n
             (select [Desc "Parameters"; Child "Parameter"] op
              ++ select [Desc "Parameter"] op)).
Proof.
  split; [|split].
  - exists (map op_info_of (operation_nodes element)).
    split; [apply extract_operations_run|].
    fold (operation_nodes element).
    induction (operation_nodes element) as [|op l IH]; cbn [map];
      constructor; [apply make_op_info_eq | exact IH].
  - intros op. exists (op_info_of op). split; [apply make_op_info_eq | reflexivity].
  - intros op n. apply found_twice.
Qed.

Lemma operations_entered_once_per_match_witness :
  In sum_parameter (select [Desc "Parameters"; Child "Parameter"] pay_operation) /\
  2 <= count_node sum_parameter
         (select [Desc "Parameters"; Child "Parameter"] pay_operation
          ++ select [Desc "Parameter"] pay_operation).
Proof.
  assert (H : In sum_parameter
                 (select [Desc "Parameters"; Child "Parameter"] pay_operation))
    by (cbn; auto).
  split; [exact H|].
  destruct (operations_entered_once_per_match order_with_line
              (elem_base_of order_with_line)) as (_ & _ & Htwice).
  exact (Htwice pay_operation sum_parameter H).
Defined.

(** X3.  The searches for attributes and operations go through all the
    descendants of the element node, so what is entered for an element
    node is entered for every element node that encloses it, too: the
    attributes and operations of a nested class are among those of the
    outer class. *)
Theorem nested_facets_reach_the_enclosing_element (outer inner : node) :
  In inner (descendants outer) ->
  incl (el_attributes (elem_info_of inner)) (el_attributes (elem_info_of outer)) /\
  incl (el_operations (elem_info_of inner)) (el_operations (elem_info_of outer)).
Proof.
  intros Hin. rewrite !elem_info_of_eq.
  cbn [el_attributes el_operations with_operations with_attributes elem_base_of].
  unfold attribute_nodes, operation_nodes.
  split; apply incl_map; apply incl_app_app;
    first [now apply select_desc_child_nested | now apply select_desc_nested].
Qed.

Lemma nested_facets_reach_the_enclosing_element_witness :
  In line_class (descendants order_with_line) /\
  map attr_name (el_attributes (elem_info_of line_class)) = [Some "qty"] /\
  incl (el_attributes (elem_info_of line_class))
       (el_attributes (elem_info_of order_with_line)).
Proof.
  assert (H : In line_class (descendants order_with_line)) by (cbn; auto 10).
  split; [exact H|]. split; [reflexivity|].
  exact (proj1 (nested_facets_reach_the_enclosing_element
                  order_with_line line_class H)).
Defined.

(** ** What the run prints, and the diagrams *)

(** X4.  Whatever the document and the state of the analyzer, the
    extractors of the model information, the packages, the elements, the
    connectors and the tagged values return without raising and without
    printing: none of them, and no sub-extractor of an element, ever
    reaches a handler.  So the six extractors of [analyze_file] print
    exactly one line between them, the warning of the handler around
    [_extract_diagrams]. *)
Theorem analysis_prints_only_the_diagram_warning (b64decode_validate : string -> bool)
  (root : node) :
  (forall self, exists self',
      _extract_model_info root self = (self', Ok tt) /\ stdout self' = stdout self) /\
  (forall self, exists self',
      _extract_packages root self = (self', Ok tt) /\ stdout self' = stdout self) /\
  (forall self, exists self',
      _extract_elements root self = (self', Ok tt) /\ stdout self' = stdout self) /\
  (forall self, exists self',
      _extract_connectors root self = (self', Ok tt) /\ stdout self' = stdout self) /\
  (forall self, exists self',
      _extract_tagged_values root self = (self', Ok tt) /\ stdout self' = stdout self) /\
  stdout (extract_model b64decode_validate root)
  = ["Warning: Could not extract diagrams: prefix 'xmi' not found in prefix map"].
Proof.
  split; [|split; [|split; [|split; [|split]]]].
  - intros self. eexists. split; [reflexivity|]. reflexivity.
  - intros self. eexists. split; [apply extract_packages_fold|].
    apply (fold_left_frame (fun p => record_package (pkg_info_of p)) stdout).
    settle_record.
  - intros self. eexists. split; [apply extract_elements_fold|].
    apply (fold_left_frame (fun e => record_element (elem_info_of e)) stdout).
    settle_record.
  - intros self. eexists. split; [apply extract_connectors_fold|].
    apply (fold_left_frame (fun c => record_connector (conn_info_of c)) stdout).
    settle_record.
  - intros self. eexists. split; [apply extract_tagged_values_fold|].
    apply (fold_left_frame (fun tv => record_tagged_value tv) stdout).
    settle_record.
  - rewrite extract_model_closed. unfold _calculate_stats.
    cbn [stdout with_elements with_packages].
    apply extraction_state_stdout.
Qed.

(** X5.  [_extract_diagrams] raises on every document and in every
    state, before it has looked at a candidate: its fourth search names
    the prefix [xmi], and no prefix map is passed.  So the returned
    model never holds a diagram: the collection is empty, the total is
    zero, no diagram type is counted, and the dialogue of
    [show_diagrams] reports no diagram and no image. *)
Theorem no_diagram_is_ever_recorded (b64decode_validate : string -> bool)
  (root : node) :
  (forall self,
      _extract_diagrams b64decode_validate root self
      = (self, Raise (SyntaxError "prefix 'xmi' not found in prefix map"))) /\
  diagrams (extract_model b64decode_validate root) = [] /\
  total_diagrams (stats (extract_model b64decode_validate root)) = 0 /\
  diagram_types (stats (extract_model b64decode_validate root)) = [] /\
  show_diagrams (diagrams (extract_model b64decode_validate root))
  = "Found 0 diagrams." ^^ String newline
      ("0 diagrams have embedded images." ^^ String newline (String newline
         "Diagram viewer will be implemented in the next phase.")).
Proof.
  destruct (extract_model_collections b64decode_validate root)
    as (_ & _ & _ & _ & _ & _ & Ht & Hd).
  cbv zeta in *.
  split; [intros self; apply extract_diagrams_raises|].
  split; [exact Hd|]. split; [exact Ht|]. split.
  - rewrite extract_model_closed.
    destruct (calculate_stats_keeps (extraction_state root)) as (-> & _).
    apply extraction_state_counters.
  - rewrite Hd. reflexivity.
Qed.

(** ** The package tree and the members of a package *)

Lemma sub_packages_of_model (dec : string -> bool) (root : node) (k : ostr)
  (p : pkg_info) :
  dict_get k (packages (extract_model dec root)) = Some p ->
  pkg_sub_packages p = children_of k (packages (extract_model dec root)).
Proof.
  intros H. destruct (model_package _ _ _ _ H) as (n & _ & _ & ->).
  reflexivity.
Qed.

Lemma members_of_model
  (dec : string -> bool) (root : node) (k : ostr) (p : pkg_info) :
  dict_get k (packages (extract_model dec root)) = Some p ->
  pkg_elements p = members_of k (elements (extract_model dec root)).
Proof.
  intros H. destruct (model_package _ _ _ _ H) as (n & _ & _ & ->).
  reflexivity.
Qed.

(** X6.  In the returned model the list of sub-packages of the package
    stored under [k] holds the keys of the packages whose parent id is
    [k], in the order of the collection, and nothing else.  A package
    whose parent id names no package is in no such list. *)
Theorem sub_packages_are_the_packages_that_name_the_parent
  (b64decode_validate : string -> bool) (root : node) (k : ostr) (p : pkg_info) :
  dict_get k (packages (extract_model b64decode_validate root)) = Some p ->
  pkg_sub_packages p
  = map fst
      (filter (fun '(_, pkg) =>
                 truthy (pkg_parent_id pkg) && ostr_eqb (pkg_parent_id pkg) k)
              (packages (extract_model b64decode_validate root))).
Proof.
  intros H. destruct (model_package _ _ _ _ H) as (n & _ & _ & ->).
  reflexivity.
Qed.

Lemma sub_packages_are_the_packages_that_name_the_parent_witness :
  exists p,
    dict_get (Some "P1") (packages (extract_model canonical_base64 library_document))
      = Some p /\
    pkg_sub_packages p = [Some "P2"] /\
    dict_keys (packages (extract_model canonical_base64 library_document))
      = [Some "P1"; Some "P2"; Some "P3"].
Proof.
  eexists. split; [reflexivity|]. split; [|reflexivity].
  rewrite (sub_packages_are_the_packages_that_name_the_parent
             canonical_base64 library_document (Some "P1") _ eq_refl).
  reflexivity.
Defined.

(** X7.  In the returned model the member list of the package stored
    under [k] holds the keys of the elements whose package id is [k], in
    the order of the collection, and nothing else.  An element whose
    package id names no package is in the collection of elements but in
    no member list. *)
Theorem members_are_the_elements_that_name_the_package
  (b64decode_validate : string -> bool) (root : node) (k : ostr) (p : pkg_info) :
  dict_get k (packages (extract_model b64decode_validate root)) = Some p ->
  pkg_elements p
  = map fst
      (filter (fun '(_, elem) =>
                 truthy (el_package_id elem) && ostr_eqb (el_package_id elem) k)
              (elements (extract_model b64decode_validate root))).
Proof.
  intros H. destruct (model_package _ _ _ _ H) as (n & _ & _ & ->).
  reflexivity.
Qed.

Lemma members_are_the_elements_that_name_the_package_witness :
  exists p,
    dict_get (Some "P2") (packages (extract_model canonical_base64 library_document))
      = Some p /\
    pkg_elements p = [Some "E1"] /\
    dict_keys (elements (extract_model canonical_base64 library_document))
      = [Some "E1"; Some "E2"].
Proof.
  eexists. split; [reflexivity|]. split; [|reflexivity].
  rewrite (members_are_the_elements_that_name_the_package
             canonical_base64 library_document (Some "P2") _ eq_refl).
  reflexivity.
Defined.

(** ** Tagged values *)

Lemma tagged_fold_get (k : ostr) (l : list node) :
  forall d0,
    dict_get k
      (fold_left
         (fun d tv =>
            if truthy (tagged_key tv)
            then tagged_append (tagged_key tv) (tag_info_of tv) d
            else d)
         l d0)
    = match dict_get k d0,
            map tag_info_of
              (filter (fun tv => truthy (tagged_key tv) && ostr_eqb k (tagged_key tv)) l)
      with
      | Some l0, sel => Some (l0 ++ sel)
      | None, [] => None
      | None, sel => Some sel
      end.
Proof.
  induction l as [|tv l IH]; intros d0; cbn [fold_left filter map].
  - destruct (dict_get k d0); [now rewrite app_nil_r | reflexivity].
  - rewrite IH. destruct (truthy (tagged_key tv)) eqn:Et; cbn [andb];
      [|reflexivity].
    unfold tagged_append.
    destruct (ostr_eqb k (tagged_key tv)) eqn:Ek.
    + apply ostr_eqb_eq in Ek. subst k. cbn [map].
      destruct (dict_get (tagged_key tv) d0) as [l0|];
        rewrite dict_get_set, ostr_eqb_refl.
      * now rewrite <- app_assoc.
      * reflexivity.
    + destruct (dict_get (tagged_key tv) d0) as [l1|];
        rewrite dict_get_set, Ek; reflexivity.
Qed.

Lemma tagged_values_of_get (k : ostr) (root : node) :
  dict_get k (tagged_values_of (tagged_value_nodes root))
  = match tagged_for k root with
    | [] => None
    | sel => Some sel
    end.
Proof. unfold tagged_values_of, tagged_for. now rewrite tagged_fold_get. Qed.

Lemma attach_tagged_values_get (k : ostr) (tvs : dict (list tag_info))
  (els : dict elem_info) :
  dict_get k (attach_tagged_values tvs els)
  = option_map
      (fun e => match dict_get k tvs with
                | Some l => set_tagged_values l e
                | None => e
                end)
      (dict_get k els).
Proof.
  unfold attach_tagged_values.
  induction els as [|[id e] els IH]; cbn [map dict_get]; [reflexivity|].
  destruct (dict_get id tvs) eqn:E; cbn [dict_get];
    (destruct (ostr_eqb k id) eqn:Ek; [|exact IH]);
    apply ostr_eqb_eq in Ek; subst id; cbn [option_map]; now rewrite E.
Qed.

Lemma set_no_tagged_values (n : node) :
  set_tagged_values [] (elem_info_of n) = elem_info_of n.
Proof. now rewrite elem_info_of_eq. Qed.

(** An element of the model, from the last candidate with its key. *)
Lemma model_element (dec : string -> bool) (root : node) (k : ostr) :
  dict_get k (elements (extract_model dec root))
  = option_map (fun n => set_tagged_values (tagged_for k root) (elem_info_of n))
      (last_with (fun n => ostr_eqb k (element_key n)) (element_candidates root)).
Proof.
  destruct (extract_model_fields dec root) as (_ & -> & _).
  rewrite attach_tagged_values_get, tagged_values_of_get.
  unfold elements_of. rewrite dict_get_stored.
  destruct (last_with _ _) as [n|]; cbn [option_map dict_get]; [|reflexivity].
  destruct (tagged_for k root); [now rewrite set_no_tagged_values | reflexivity].
Qed.

(** X8.  The collection of elements of the returned model, entry by
    entry: under a key stands the information of the last candidate
    node with that key (an earlier node with the same id is
    overwritten), and its tagged values are the entries of the
    tagged-value nodes that name this key, in the order in which they
    were visited. *)
Theorem elements_hold_the_last_candidate_with_its_tagged_values
  (b64decode_validate : string -> bool) (root : node) (k : ostr) :
  (forall elem s,
      element_step _extract_attributes _extract_operations elem s
      = (record_element (elem_info_of elem) s, Ok tt)) /\
  dict_get k (elements (extract_model b64decode_validate root))
  = option_map (fun n => set_tagged_values (tagged_for k root) (elem_info_of n))
      (last_with (fun n => ostr_eqb k (element_key n)) (element_candidates root)) /\
  (forall e,
      dict_get k (elements (extract_model b64decode_validate root)) = Some e ->
      el_tagged_values e = tagged_for k root /\
      exists n, In n (element_candidates root) /\ element_key n = k /\
                el_header e = el_header (elem_base_of n)).
Proof.
  split; [exact element_step_exact|].
  split; [apply model_element|].
  intros e. rewrite model_element.
  destruct (last_with _ _) as [n|] eqn:E; [|discriminate].
  intros [= <-]. split; [reflexivity|].
  apply last_with_some in E. destruct E as [Hin Hk].
  apply ostr_eqb_eq in Hk. exists n. repeat split; auto.
  rewrite <- elem_info_of_header. reflexivity.
Qed.

Lemma elements_hold_the_last_candidate_with_its_tagged_values_witness :
  exists e,
    dict_get (Some "E1") (elements (extract_model canonical_base64 library_document))
      = Some e /\
    map tv_name (el_tagged_values e) = [Some "owner"; Some "owner"].
Proof.
  eexists. split; [reflexivity|].
  destruct (elements_hold_the_last_candidate_with_its_tagged_values
              canonical_base64 library_document (Some "E1")) as (_ & _ & H).
  destruct (H _ eq_refl) as [-> _]. reflexivity.
Defined.

(** X9.  The index of tagged values of the returned model, key by key:
    under [k] stand the entries of the tagged-value nodes whose element
    id ([ElementID], else [element]) is [k], in the order of the visits;
    a key that no node names is absent.  A node without an element id
    is indexed nowhere, no key is [None] or empty, an id that names no
    element is indexed all the same, and a [TaggedValue] directly in a
    [TaggedValues] container is visited, and so indexed, twice. *)
Theorem tagged_values_are_indexed_by_element_id
  (b64decode_validate : string -> bool) (root : node) :
  (forall s,
      _extract_tagged_values root s
      = (fold_left (fun self tv => record_tagged_value tv self)
           (select [Desc "TaggedValues"; Child "TaggedValue"] root
            ++ select [Desc "TaggedValue"] root) s,
         Ok tt)) /\
  (forall k,
      dict_get k (tagged_values (extract_model b64decode_validate root))
      = match tagged_for k root with
        | [] => None
        | sel => Some sel
        end) /\
  (forall k,
      truthy k = false ->
      dict_get k (tagged_values (extract_model b64decode_validate root)) = None) /\
  (forall tv,
      In tv (select [Desc "TaggedValues"; Child "TaggedValue"] root) ->
      2 <= count_node tv
             (select [Desc "TaggedValues"; Child "TaggedValue"] root
              ++ select [Desc "TaggedValue"] root)).
Proof.
  destruct (extract_model_fields b64decode_validate root)
    as (_ & _ & _ & Htv & _).
  cbv zeta in Htv.
  split; [exact (extract_tagged_values_fold root)|].
  split; [intros k; rewrite Htv; apply tagged_values_of_get|].
  split.
  - intros k Hk. rewrite Htv, tagged_values_of_get. clear Htv.
    unfold tagged_for.
    replace (filter _ (tagged_value_nodes root)) with (@nil node); [reflexivity|].
    symmetry. induction (tagged_value_nodes root) as [|tv l IH]; cbn [filter];
      [reflexivity|].
    destruct (truthy (tagged_key tv)) eqn:Et; cbn [andb]; [|exact IH].
    destruct (ostr_eqb k (tagged_key tv)) eqn:Ek; [|exact IH].
    apply ostr_eqb_eq in Ek. subst k. congruence.
  - intros tv. apply found_twice.
Qed.

Lemma tagged_values_are_indexed_by_element_id_witness :
  dict_keys (tagged_values (extract_model canonical_base64 library_document))
    = [Some "E1"; Some "E7"] /\
  2 <= count_node owner_tag
         (select [Desc "TaggedValues"; Child "TaggedValue"] library_document
          ++ select [Desc "TaggedValue"] library_document).
Proof.
  split; [reflexivity|].
  apply (tagged_values_are_indexed_by_element_id canonical_base64 library_document).
  cbn. auto.
Defined.

(** ** Connectors *)

(** X10.  The collection of connectors of the returned model, entry by
    entry: under a key stands the information of the last candidate
    node with that key, so of two connector nodes with the same id
    (or both without one) only the second is kept.  Its source and
    target ids are the attributes of the node as they are; they are not
    compared with the ids of the elements. *)
Theorem connectors_hold_the_last_candidate
  (b64decode_validate : string -> bool) (root : node) (k : ostr) :
  (forall conn, make_conn_info conn = Ok (conn_info_of conn)) /\
  dict_get k (connectors (extract_model b64decode_validate root))
  = option_map conn_info_of
      (last_with (fun c => ostr_eqb k (connector_key c)) (connector_nodes root)) /\
  (forall info,
      dict_get k (connectors (extract_model b64decode_validate root)) = Some info ->
      exists conn,
        In conn (connector_nodes root) /\ connector_key conn = k /\
        cn_source_id info = (get conn "SourceID" |or| get conn "source") /\
        cn_target_id info = (get conn "TargetID" |or| get conn "target")).
Proof.
  destruct (extract_model_fields b64decode_validate root) as (_ & _ & Hcn & _).
  cbv zeta in Hcn.
  assert (Hget : dict_get k (connectors (extract_model b64decode_validate root))
                 = option_map conn_info_of
                     (last_with (fun c => ostr_eqb k (connector_key c))
                        (connector_nodes root))).
  { rewrite Hcn. unfold connectors_of. rewrite dict_get_stored.
    now destruct (last_with _ _). }
  split; [exact make_conn_info_eq|]. split; [exact Hget|].
  intros info. rewrite Hget.
  destruct (last_with _ _) as [conn|] eqn:E; [|discriminate].
  intros [= <-]. apply last_with_some in E. destruct E as [Hin Hk].
  apply ostr_eqb_eq in Hk. exists conn. repeat split; auto.
Qed.

Lemma connectors_hold_the_last_candidate_witness :
  exists info,
    dict_get (Some "C1") (connectors (extract_model canonical_base64 library_document))
      = Some info /\
    cn_type info = Some "Dependency" /\
    cn_target_id info = Some "E1" /\
    exists conn,
      In conn (connector_nodes library_document) /\
      cn_source_id info = (get conn "SourceID" |or| get conn "source").
Proof.
  eexists. split; [reflexivity|]. split; [reflexivity|]. split; [reflexivity|].
  destruct (connectors_hold_the_last_candidate canonical_base64 library_document
              (Some "C1")) as (_ & _ & H).
  destruct (H _ eq_refl) as (conn & Hin & _ & Hs & _).
  exists conn. split; [exact Hin | exact Hs].
Defined.

(** X11.  The role of a connector end is read from the first
    [SourceRole] (or [TargetRole]) node below the connector only when
    that node has child elements: the test [find(...) or find(...)]
    takes an element without children for false.  A role node without
    children is passed over, and the role is then read from the first
    [Source] (or [Target]) node, or left [None] when there is none. *)
Theorem role_is_read_from_a_node_with_children (conn : node) :
  exists info,
    make_conn_info conn = Ok info /\
    (forall r,
        hd_error (select [Desc "SourceRole"] conn) = Some r ->
        children r <> [] ->
        cn_source_role info = Some (make_role_info r)) /\
    (forall r,
        hd_error (select [Desc "SourceRole"] conn) = Some r ->
        children r = [] ->
        cn_source_role info
        = option_map make_role_info (hd_error (select [Desc "Source"] conn))) /\
    (forall r,
        hd_error (select [Desc "TargetRole"] conn) = Some r ->
        children r <> [] ->
        cn_target_role info = Some (make_role_info r)) /\
    (forall r,
        hd_error (select [Desc "TargetRole"] conn) = Some r ->
        children r = [] ->
        cn_target_role info
        = option_map make_role_info (hd_error (select [Desc "Target"] conn))).
Proof.
  exists (conn_info_of conn). split; [apply make_conn_info_eq|].
  cbn [cn_source_role cn_target_role conn_info_of]. unfold role_node.
  repeat split; intros r Hhd Hr; rewrite Hhd; cbn [elem_bool];
    destruct (children r) eqn:E; try congruence; reflexivity.
Qed.

Lemma role_is_read_from_a_node_with_children_witness :
  hd_error (select [Desc "SourceRole"] association_connector)
    = Some (leaf "SourceRole" [("Name", "from")] None 8) /\
  exists info,
    make_conn_info association_connector = Ok info /\
    cn_source_role info = None.
Proof.
  split; [reflexivity|].
  destruct (role_is_read_from_a_node_with_children association_connector)
    as (info & Hmake & _ & H & _).
  exists info. split; [exact Hmake|].
  rewrite (H _ eq_refl eq_refl). reflexivity.
Defined.

(** ** The type counters *)

Lemma counter_get_incr (t k : ostr) (c : Counter) :
  counter_get t (counter_incr k c)
  = counter_get t c + (if ostr_eqb t k then 1 else 0).
Proof.
  unfold counter_incr. unfold counter_get at 1. rewrite dict_get_set.
  destruct (ostr_eqb t k) eqn:E.
  - apply ostr_eqb_eq in E. now subst.
  - unfold counter_get. lia.
Qed.

Lemma counter_get_fold {X} (ty : X -> ostr) (t : ostr) (l : list X) :
  forall c0,
    counter_get t (fold_left (fun c x => counter_incr (ty x) c) l c0)
    = counter_get t c0
      + List.length (filter (fun x => ostr_eqb t (ty x)) l).
Proof.
  induction l as [|x l IH]; intros c0; cbn [fold_left filter].
  - cbn. lia.
  - rewrite IH, counter_get_incr.
    destruct (ostr_eqb t (ty x)); cbn [List.length]; lia.
Qed.

Lemma counter_total_incr (k : ostr) (c : Counter) :
  counter_total (counter_incr k c) = counter_total c + 1.
Proof.
  unfold counter_incr, counter_total, counter_get.
  induction c as [|[k0 n0] c IH];
    cbn [dict_get dict_set map snd list_sum fold_right].
  - reflexivity.
  - destruct (ostr_eqb k k0); cbn [map snd list_sum fold_right]; [lia|].
    unfold list_sum in IH. rewrite IH. lia.
Qed.

Lemma counter_total_fold {X} (ty : X -> ostr) (l : list X) :
  forall c0,
    counter_total (fold_left (fun c x => counter_incr (ty x) c) l c0)
    = counter_total c0 + List.length l.
Proof.
  induction l as [|x l IH]; intros c0; cbn [fold_left List.length].
  - lia.
  - rewrite IH, counter_total_incr. lia.
Qed.

(** X12.  The counters of the returned statistics agree with the
    totals: [element_types[t]] is the number of element candidates whose
    type is [t], [connector_types[t]] the number of connector candidates
    whose type is [t] (a connector without a type is counted under
    [None]), and the counts of each counter add up to
    [total_elements] and to [total_connectors]. *)
Theorem type_counters_add_up_to_the_totals
  (b64decode_validate : string -> bool) (root : node) :
  let st := stats (extract_model b64decode_validate root) in
  (forall t,
      counter_get t (element_types st)
      = List.length
          (filter (fun e =>
                     ostr_eqb t (get e "Type" |or| get e "type"
                                 |or| Some (local_name e)))
                  (element_candidates root))) /\
  (forall t,
      counter_get t (connector_types st)
      = List.length
          (filter (fun c => ostr_eqb t (get c "Type" |or| get c "type"))
                  (connector_nodes root))) /\
  counter_total (element_types st) = total_elements st /\
  counter_total (connector_types st) = total_connectors st.
Proof.
  cbv zeta.
  destruct (extract_model_collections b64decode_validate root)
    as (_ & _ & Te & _ & Tc & _).
  cbv zeta in *. rewrite Te, Tc. clear Te Tc.
  rewrite extract_model_closed.
  destruct (calculate_stats_keeps (extraction_state root)) as (-> & _).
  destruct (extraction_state_counters root) as (-> & -> & _).
  unfold element_types_of, connector_types_of.
  repeat split.
  - intros t. rewrite counter_get_fold. cbn [counter_get dict_get plus].
    f_equal. apply filter_ext. intros e. now rewrite elem_info_of_eq.
  - intros t. now rewrite counter_get_fold.
  - now rewrite counter_total_fold.
  - now rewrite counter_total_fold.
Qed.

(** ** The model information *)

Lemma por_truthy (a b : ostr) : truthy b = true -> truthy (a |or| b) = true.
Proof. intros H. unfold por. now destruct (truthy a) eqn:E. Qed.

Lemma find_filter {A} (p q : A -> bool) (l : list A) :
  (forall x, p x = true -> q x = true) ->
  List.find p (filter q l) = List.find p l.
Proof.
  intros H. induction l as [|x l IH]; cbn [filter List.find]; [reflexivity|].
  destruct (q x) eqn:Eq; cbn [List.find].
  - now destruct (p x).
  - destruct (p x) eqn:Ep; [|exact IH]. rewrite (H x Ep) in Eq. discriminate.
Qed.

Lemma before_model_filter (q : node -> bool) (l : list node) :
  (forall x, is_model_node x = true -> q x = true) ->
  before_model (filter q l) = filter q (before_model l).
Proof.
  intros H. induction l as [|x l IH]; cbn [filter before_model]; [reflexivity|].
  destruct (is_model_node x) eqn:Em.
  - rewrite (H x Em). cbn [before_model]. now rewrite Em.
  - destruct (q x) eqn:Eq; cbn [before_model filter]; rewrite ?Em;
      cbn [filter]; rewrite ?Eq, IH; reflexivity.
Qed.

Lemma model_node_is_no_documentation (elem : node) :
  is_model_node elem = true -> is_documentation_node elem = false.
Proof.
  unfold is_model_node, is_documentation_node. intros H.
  apply String.eqb_eq in H. now rewrite H.
Qed.

(** The loop of lines 160-175 when it meets a model node, and when it
    meets none. *)
Lemma model_info_loop_found (cands : list node) (m : node) :
  List.find is_model_node cands = Some m ->
  forall mi,
    model_info_loop cands mi
    = dict_set (Some "modified") (get m "Modified" |or| get m "modified")
     (dict_set (Some "created") (get m "Created" |or| get m "created")
     (dict_set (Some "type") (get m "Type" |or| get m "type" |or| Some "UML Model")
     (dict_set (Some "id") (get m "xmi.id" |or| get m "id" |or| get m "Id")
     (dict_set (Some "name")
        (get m "name" |or| get m "Name" |or| get m "xmi.name"
         |or| Some "Unnamed Model")
        (fold_left
           (fun d e =>
              if is_documentation_node e
              then dict_set (Some "documentation") (text e) d else d)
           (before_model cands) mi))))).
Proof.
  induction cands as [|e cands IH]; cbn [List.find]; [discriminate|].
  intros H mi. cbn [model_info_loop before_model].
  fold (is_documentation_node e). fold (is_model_node e).
  destruct (is_model_node e) eqn:Em.
  - injection H as <-. rewrite (model_node_is_no_documentation _ Em).
    reflexivity.
  - cbn [fold_left].
    destruct (is_documentation_node e); now rewrite (IH H).
Qed.

Lemma model_info_loop_not_found (cands : list node) :
  List.find is_model_node cands = None ->
  forall mi,
    model_info_loop cands mi
    = fold_left
        (fun d e =>
           if is_documentation_node e
           then dict_set (Some "documentation") (text e) d else d)
        (before_model cands) mi.
Proof.
  induction cands as [|e cands IH]; cbn [List.find]; [reflexivity|].
  intros H mi. cbn [model_info_loop before_model].
  fold (is_documentation_node e). fold (is_model_node e).
  destruct (is_model_node e) eqn:Em; [discriminate|].
  cbn [fold_left]. destruct (is_documentation_node e); now rewrite (IH H).
Qed.

Lemma documentation_fold_get (k : ostr) (l : list node) :
  forall mi,
    dict_get k
      (fold_left
         (fun d e =>
            if is_documentation_node e
            then dict_set (Some "documentation") (text e) d else d)
         l mi)
    = if ostr_eqb k (Some "documentation") then
        match last_with is_documentation_node l with
        | Some e => Some (text e)
        | None => dict_get k mi
        end
      else dict_get k mi.
Proof.
  induction l as [|e l IH]; intros mi; cbn [fold_left].
  - now destruct (ostr_eqb _ _).
  - rewrite IH, last_with_cons.
    destruct (ostr_eqb k (Some "documentation")) eqn:Ek.
    + destruct (last_with _ l); [reflexivity|].
      destruct (is_documentation_node e); [|reflexivity].
      now rewrite dict_get_set, Ek.
    + destruct (is_documentation_node e); [|reflexivity].
      now rewrite dict_get_set, Ek.
Qed.

Lemma model_candidates_find (root : node) :
  List.find is_model_node (model_candidates root)
  = List.find is_model_node (iter root).
Proof.
  unfold model_candidates. apply find_filter.
  intros x H. unfold is_model_node in H. apply String.eqb_eq in H.
  now rewrite H.
Qed.

Lemma model_candidates_documentation (root : node) :
  last_with is_documentation_node (before_model (model_candidates root))
  = last_with is_documentation_node (before_model (iter root)).
Proof.
  unfold model_candidates. rewrite before_model_filter.
  - unfold last_with. rewrite <- filter_rev. apply find_filter.
    intros x H. unfold is_documentation_node in H.
    apply andb_prop in H. destruct H as [H _]. apply String.eqb_eq in H.
    now rewrite H.
  - intros x H. unfold is_model_node in H. apply String.eqb_eq in H.
    now rewrite H.
Qed.

(** X13.  The model information always has a name that is not empty and
    a type.  When the document holds a node whose local tag name is
    [model] in any case, the name, id, type and dates are read from the
    first such node in document order, with the defaults
    [Unnamed Model] and [UML Model]; the attributes of the root are
    then not looked at.  When it holds none, the name is that of the
    root, or [Extracted Model], the type is [XML Root: ] and the local
    tag name of the root, and no id is stored. *)
Theorem model_info_names_the_first_model_node
  (b64decode_validate : string -> bool) (root : node) :
  let mi := model_info (extract_model b64decode_validate root) in
  truthy (model_info_name mi) = true /\
  match List.find is_model_node (iter root) with
  | Some m =>
      dict_get (Some "name") mi
        = Some (get m "name" |or| get m "Name" |or| get m "xmi.name"
                |or| Some "Unnamed Model") /\
      dict_get (Some "id") mi
        = Some (get m "xmi.id" |or| get m "id" |or| get m "Id") /\
      dict_get (Some "type") mi
        = Some (get m "Type" |or| get m "type" |or| Some "UML Model") /\
      dict_get (Some "created") mi
        = Some (get m "Created" |or| get m "created") /\
      dict_get (Some "modified") mi
        = Some (get m "Modified" |or| get m "modified")
  | None =>
      dict_get (Some "name") mi
        = Some (get root "name" |or| get root "Name" |or| Some "Extracted Model") /\
      dict_get (Some "id") mi = None /\
      dict_get (Some "type") mi = Some (Some ("XML Root: " ^^ local_name root)) /\
      dict_get (Some "created") mi = None /\
      dict_get (Some "modified") mi = None
  end.
Proof.
  cbv zeta.
  destruct (extract_model_fields b64decode_validate root)
    as (_ & _ & _ & _ & -> & _).
  unfold model_info_of. rewrite <- model_candidates_find.
  destruct (List.find is_model_node (model_candidates root)) as [m|] eqn:E.
  - rewrite (model_info_loop_found _ _ E).
    set (d := fold_left _ _ _).
    assert (Hn : truthy
                   (model_info_name
                      (dict_set (Some "modified") (get m "Modified" |or| get m "modified")
                      (dict_set (Some "created") (get m "Created" |or| get m "created")
                      (dict_set (Some "type")
                         (get m "Type" |or| get m "type" |or| Some "UML Model")
                      (dict_set (Some "id") (get m "xmi.id" |or| get m "id" |or| get m "Id")
                      (dict_set (Some "name")
                         (get m "name" |or| get m "Name" |or| get m "xmi.name"
                          |or| Some "Unnamed Model") d)))))) = true).
    { unfold model_info_name. rewrite !dict_get_set. cbn [ostr_eqb String.eqb Ascii.eqb Bool.eqb andb].
      now apply por_truthy. }
    rewrite Hn. cbn [negb]. split; [exact Hn|].
    rewrite !dict_get_set. repeat split.
  - rewrite (model_info_loop_not_found _ E).
    set (d := fold_left _ _ _).
    assert (Hd : forall k, ostr_eqb k (Some "documentation") = false ->
                           dict_get k d = None).
    { intros k Hk. subst d. now rewrite documentation_fold_get, Hk. }
    assert (Hn : truthy (model_info_name d) = false).
    { unfold model_info_name. now rewrite Hd. }
    rewrite Hn. cbn [negb]. split.
    + unfold model_info_name. rewrite !dict_get_set.
      cbn [ostr_eqb String.eqb Ascii.eqb Bool.eqb andb].
      now apply por_truthy.
    + rewrite !dict_get_set. cbn [ostr_eqb String.eqb Ascii.eqb Bool.eqb andb].
      rewrite !Hd by reflexivity. repeat split.
Qed.

(** X14.  The documentation of the model is the text of the last
    [documentation] node with a text that is not empty among the nodes
    that come, in document order, before the first [model] node: the
    loop stops at that node, so a documentation node after it is never
    read.  Without such a node no documentation is stored. *)
Theorem documentation_is_read_up_to_the_first_model_node
  (b64decode_validate : string -> bool) (root : node) :
  dict_get (Some "documentation")
    (model_info (extract_model b64decode_validate root))
  = option_map text
      (last_with is_documentation_node (before_model (iter root))).
Proof.
  destruct (extract_model_fields b64decode_validate root)
    as (_ & _ & _ & _ & -> & _).
  rewrite <- model_candidates_documentation.
  unfold model_info_of.
  destruct (List.find is_model_node (model_candidates root)) as [m|] eqn:E.
  - rewrite (model_info_loop_found _ _ E).
    set (d := fold_left _ _ _).
    match goal with
    | |- context [if ?b then _ else _] => destruct b
    end; rewrite !dict_get_set; cbn [ostr_eqb String.eqb Ascii.eqb Bool.eqb andb];
      subst d; rewrite documentation_fold_get; cbn [ostr_eqb];
      rewrite String.eqb_refl; now destruct (last_with _ _).
  - rewrite (model_info_loop_not_found _ E).
    set (d := fold_left _ _ _).
    match goal with
    | |- context [if ?b then _ else _] => destruct b
    end; rewrite ?dict_get_set; cbn [ostr_eqb String.eqb Ascii.eqb Bool.eqb andb];
      subst d; rewrite documentation_fold_get; cbn [ostr_eqb];
      rewrite String.eqb_refl; now destruct (last_with _ _).
Qed.

(** ** Authors and versions *)

Lemma mem_in (x : string) (s : list string) : Str.mem x s = true <-> In x s.
Proof.
  unfold Str.mem. rewrite existsb_exists. split.
  - intros (y & Hy & E). apply String.eqb_eq in E. now subst.
  - intros H. exists x. split; [exact H | apply String.eqb_refl].
Qed.

Lemma set_add_in (a x : string) (s : list string) :
  In a (set_add x s) <-> a = x \/ In a s.
Proof.
  unfold set_add. destruct (Str.mem x s) eqn:E.
  - apply mem_in in E. split; [auto|]. intros [-> | H]; assumption.
  - rewrite in_app_iff. cbn. split; intros H; intuition auto.
Qed.

Lemma set_add_nodup (x : string) (s : list string) :
  NoDup s -> NoDup (set_add x s).
Proof.
  intros H. unfold set_add. destruct (Str.mem x s) eqn:E; [exact H|].
  apply NoDup_app; [exact H | repeat constructor; intros [] |].
  intros a Ha [<- | []].
  apply mem_in in Ha. congruence.
Qed.

Lemma add_name_in (a : string) (v : ostr) (l : list string) :
  In a (add_name v l) <-> (v = Some a /\ a <> "") \/ In a l.
Proof.
  unfold add_name. destruct v as [s|].
  - cbn [truthy]. destruct (String.eqb s "") eqn:E; cbn [negb].
    + apply String.eqb_eq in E. subst s. split; [auto|].
      intros [[[= <-] H] | H]; [now elim H | exact H].
    + apply String.eqb_neq in E. rewrite set_add_in. split.
      * intros [-> | H]; auto.
      * intros [[[= <-] _] | H]; auto.
  - split; [auto|]. intros [[H _] | H]; [discriminate | exact H].
Qed.

Lemma add_name_nodup (v : ostr) (l : list string) :
  NoDup l -> NoDup (add_name v l).
Proof.
  intros H. unfold add_name. destruct v as [s|]; [|exact H].
  destruct (truthy (Some s)); [now apply set_add_nodup | exact H].
Qed.

Lemma add_names_in {X} (f : X -> ostr) (a : string) (xs : list X) :
  forall l,
    In a (fold_left (fun l x => add_name (f x) l) xs l)
    <-> In a l \/ (a <> "" /\ exists x, In x xs /\ f x = Some a).
Proof.
  induction xs as [|x xs IH]; intros l; cbn [fold_left].
  - split; [auto|]. intros [H | (_ & x & [] & _)]. exact H.
  - rewrite IH, add_name_in. split.
    + intros [[[H1 H2] | H] | (H1 & y & Hy & H2)].
      * right. split; [exact H2|]. exists x. split; [now left | exact H1].
      * now left.
      * right. split; [exact H1|]. exists y. split; [now right | exact H2].
    + intros [H | (H1 & y & [<- | Hy] & H2)].
      * left. now right.
      * left. left. now split.
      * right. split; [exact H1|]. now exists y.
Qed.

Lemma add_names_nodup {X} (f : X -> ostr) (xs : list X) :
  forall l, NoDup l -> NoDup (fold_left (fun l x => add_name (f x) l) xs l).
Proof.
  induction xs as [|x xs IH]; intros l H; cbn [fold_left]; [exact H|].
  apply IH. now apply add_name_nodup.
Qed.

(** X15.  The authors of the returned model are, without repetition,
    the values of [Author] (else [author]) that are not empty on the
    package candidates and on the element candidates, and nothing else;
    the versions are the values of [Version] (else [version]) in the
    same way.  An author or a version that only a diagram or a
    connector carries is not among them. *)
Theorem authors_and_versions_come_from_packages_and_elements
  (b64decode_validate : string -> bool) (root : node) :
  let model := extract_model b64decode_validate root in
  NoDup (authors model) /\
  NoDup (versions model) /\
  (forall a,
      In a (authors model) <->
      a <> "" /\
      exists n,
        In n (package_candidates root ++ element_candidates root) /\
        (get n "Author" |or| get n "author") = Some a) /\
  (forall v,
      In v (versions model) <->
      v <> "" /\
      exists n,
        In n (package_candidates root ++ element_candidates root) /\
        (get n "Version" |or| get n "version") = Some v).
Proof.
  cbv zeta.
  destruct (extract_model_fields b64decode_validate root)
    as (_ & _ & _ & _ & _ & -> & -> & _).
  unfold authors_of, versions_of.
  split; [|split; [|split]].
  - apply add_names_nodup, add_names_nodup. constructor.
  - apply add_names_nodup, add_names_nodup. constructor.
  - intros a. rewrite !add_names_in. split.
    + intros [[[] | (Ha & n & Hn & E)] | (Ha & n & Hn & E)];
        (split; [exact Ha|]); exists n; rewrite in_app_iff.
      * split; [now left | exact E].
      * split; [now right|]. now rewrite elem_info_of_eq in E.
    + intros (Ha & n & Hn & E). apply in_app_iff in Hn. destruct Hn as [Hn | Hn].
      * left. right. split; [exact Ha|]. now exists n.
      * right. split; [exact Ha|]. exists n. split; [exact Hn|].
        now rewrite elem_info_of_eq.
  - intros a. rewrite !add_names_in. split.
    + intros [[[] | (Ha & n & Hn & E)] | (Ha & n & Hn & E)];
        (split; [exact Ha|]); exists n; rewrite in_app_iff.
      * split; [now left | exact E].
      * split; [now right|]. now rewrite elem_info_of_eq in E.
    + intros (Ha & n & Hn & E). apply in_app_iff in Hn. destruct Hn as [Hn | Hn].
      * left. right. split; [exact Ha|]. now exists n.
      * right. split; [exact Ha|]. exists n. split; [exact Hn|].
        now rewrite elem_info_of_eq.
Qed.

(** ** The text that the loader returns *)

Lemma universal_newlines_spec (n : nat) :
  forall t, List.length t <= n ->
            ~ In 13%N (universal_newlines t) /\
            List.length (universal_newlines t) <= List.length t.
Proof.
  induction n as [|n IH]; intros t Hlen.
  - destruct t; [|cbn in Hlen; lia]. cbn. split; [tauto | lia].
  - destruct t as [|c rest]; [cbn; split; [tauto | lia]|].
    cbn [List.length] in Hlen. cbn [universal_newlines].
    destruct (N.eqb c 13) eqn:Ec.
    + destruct rest as [|c' rest'].
      * cbn. split; [|lia]. intros [H | []]. discriminate.
      * cbn [List.length] in Hlen.
        destruct (N.eqb c' 10).
        -- destruct (IH rest' ltac:(lia)) as [H1 H2]. split.
           ++ intros [H | H]; [discriminate | now apply H1].
           ++ cbn [List.length]. lia.
        -- destruct (IH (c' :: rest') ltac:(cbn [List.length]; lia)) as [H1 H2].
           split.
           ++ intros [H | H]; [discriminate | now apply H1].
           ++ cbn [List.length] in *. lia.
    + destruct (IH rest ltac:(lia)) as [H1 H2]. split.
      * intros [H | H]; [|now apply H1].
        subst c. now rewrite N.eqb_refl in Ec.
      * cbn [List.length]. lia.
Qed.

Lemma utf8_decode_length (strict : bool) (bs : bytes) :
  forall st t,
    utf8_decode_from strict st bs = Some t -> List.length t <= List.length bs.
Proof.
  induction bs as [|b rest IH]; intros st t; cbn [utf8_decode_from].
  - destruct st; [|destruct strict]; intros [= <-] || discriminate; cbn; lia.
  - assert (Hstart :
      match start_byte (Byte.to_N b) with
      | Some (inl cp) => option_map (cons cp) (utf8_decode_from strict Start rest)
      | Some (inr st') => utf8_decode_from strict st' rest
      | None => if strict then None else utf8_decode_from strict Start rest
      end = Some t -> List.length t <= List.length (b :: rest)).
    { destruct (start_byte (Byte.to_N b)) as [[cp|st']|].
      - destruct (utf8_decode_from strict Start rest) as [t'|] eqn:E;
          [|discriminate]. intros [= <-]. specialize (IH _ _ E). cbn. lia.
      - intros H. specialize (IH _ _ H). cbn. lia.
      - destruct strict; [discriminate|]. intros H. specialize (IH _ _ H).
        cbn. lia. }
    destruct st as [|need acc lo hi]; [exact Hstart|].
    destruct (_ && _).
    + destruct need as [|[|k]].
      * destruct (utf8_decode_from strict Start rest) as [t'|] eqn:E;
          [|discriminate]. intros [= <-]. specialize (IH _ _ E). cbn. lia.
      * destruct (utf8_decode_from strict Start rest) as [t'|] eqn:E;
          [|discriminate]. intros [= <-]. specialize (IH _ _ E). cbn. lia.
      * intros H. specialize (IH _ _ H). cbn. lia.
    + destruct strict; [discriminate | exact Hstart].
Qed.

(** X16.  The text that [_read_file_with_encoding] returns for a file
    that can be read holds no carriage return: the file is opened in
    text mode, where every line end becomes a line feed.  It never has
    more characters than the file has bytes. *)
Theorem loaded_text_has_no_carriage_return
  (decode_cp1252 decode_utf16 : bytes -> option pystr) (raw : bytes) :
  exists content,
    _read_file_with_encoding decode_cp1252 decode_utf16 (Ok raw) = Ok content /\
    ~ In 13%N content /\
    List.length content <= List.length raw.
Proof.
  unfold _read_file_with_encoding. rewrite try_encodings_result.
  eexists. split; [reflexivity|].
  set (t := match utf8_decode raw with Some t => t | None => latin1_decode raw end).
  destruct (universal_newlines_spec (List.length t) t (le_n _)) as [H1 H2].
  split; [exact H1|].
  assert (List.length t <= List.length raw); [|lia].
  subst t. destruct (utf8_decode raw) as [t|] eqn:E.
  - now apply (utf8_decode_length true raw Start).
  - unfold latin1_decode. now rewrite length_map.
Qed.

(** ** The cleaner *)

Lemma deleted_from_refl {A} (l : list A) : deleted_from l l.
Proof. induction l; constructor; assumption. Qed.

Lemma deleted_from_trans {A} (l1 l2 l3 : list A) :
  deleted_from l1 l2 -> deleted_from l2 l3 -> deleted_from l1 l3.
Proof.
  intros H12 H23. revert l1 H12.
  induction H23 as [|x l2 l3 H IH|x l2 l3 H IH]; intros l1 H12.
  - exact H12.
  - inversion H12; subst; constructor; auto.
  - constructor. auto.
Qed.

Lemma deleted_from_length {A} (l1 l2 : list A) :
  deleted_from l1 l2 -> List.length l1 <= List.length l2.
Proof. induction 1; cbn; lia. Qed.

Lemma sub_prefix_deletes (prefix t : pystr) :
  forall st, deleted_from (sub_prefix prefix st t) t.
Proof.
  induction t as [|c rest IH]; intros st; cbn [sub_prefix]; [constructor|].
  assert (Hscan :
    deleted_from
      (if prefix_then_letter prefix (c :: rest)
       then sub_prefix prefix (Skip (List.length prefix - 1)) rest
       else c :: sub_prefix prefix Scan rest)
      (c :: rest)).
  { destruct (prefix_then_letter _ _); constructor; apply IH. }
  destruct st as [|[|n]|]; try exact Hscan.
  - destruct (is_alnum_cp c); [constructor; apply IH | exact Hscan].
  - constructor. apply IH.
  - destruct (is_alnum_cp c); [constructor; apply IH | exact Hscan].
Qed.

Lemma prefix_then_letter_in (x : N) (prefix : pystr) :
  In x prefix ->
  forall t, prefix_then_letter prefix t = true -> In x t.
Proof.
  induction prefix as [|p prefix IH]; intros Hin t; [destruct Hin|].
  destruct t as [|c t']; cbn [prefix_then_letter]; [discriminate|].
  intros H. apply andb_prop in H. destruct H as [Hc Ht].
  apply N.eqb_eq in Hc. subst c.
  destruct Hin as [-> | Hin]; [now left | right; now apply IH].
Qed.

Lemma sub_prefix_without (x : N) (prefix : pystr) :
  In x prefix ->
  forall t, ~ In x t -> sub_prefix prefix Scan t = t.
Proof.
  intros Hin t. induction t as [|c rest IH]; intros Hx; cbn [sub_prefix];
    [reflexivity|].
  destruct (prefix_then_letter prefix (c :: rest)) eqn:E.
  - elim Hx. now apply (prefix_then_letter_in x prefix Hin).
  - rewrite IH; [reflexivity|]. intros H. apply Hx. now right.
Qed.

(** X17.  [_clean_xml_content] only deletes: what it returns is the
    text with some of its characters left out, in the same order, so it
    is never longer than the text.  A text without a colon comes back
    unchanged. *)
Theorem cleaning_only_deletes_characters (content : pystr) :
  deleted_from (_clean_xml_content content) content /\
  List.length (_clean_xml_content content) <= List.length content /\
  (~ In 58%N content -> _clean_xml_content content = content).
Proof.
  assert (H : deleted_from (_clean_xml_content content) content).
  { unfold _clean_xml_content. generalize problematic_prefixes as ps.
    intros ps. revert content.
    induction ps as [|p ps IH]; intros content; cbn [fold_left].
    - apply deleted_from_refl.
    - eapply deleted_from_trans; [apply IH | apply sub_prefix_deletes]. }
  split; [exact H|]. split; [now apply deleted_from_length|].
  intros Hx. unfold _clean_xml_content, problematic_prefixes. cbn [fold_left].
  rewrite (sub_prefix_without 58%N (codes "xml:")) by (cbn; tauto).
  rewrite (sub_prefix_without 58%N (codes "xmlns:")) by (cbn; tauto).
  rewrite (sub_prefix_without 58%N (codes "xsi:")) by (cbn; tauto).
  rewrite (sub_prefix_without 58%N (codes "uml:")) by (cbn; tauto).
  now rewrite (sub_prefix_without 58%N (codes "xmi:")) by (cbn; tauto).
Qed.

Lemma cleaning_only_deletes_characters_witness :
  ~ In 58%N (codes "<a b='c'/>") /\
  _clean_xml_content (codes "<a b='c'/>") = codes "<a b='c'/>" /\
  _clean_xml_content (codes "<a t='uml:Class'>xmi:id</a>")
    = codes "<a t='Class'>id</a>".
Proof.
  assert (H : ~ In 58%N (codes "<a b='c'/>")).
  { cbn. intros H. repeat (destruct H as [H | H]; [discriminate|]). exact H. }
  split; [exact H|]. split; [|reflexivity].
  exact (proj2 (proj2 (cleaning_only_deletes_characters _)) H).
Defined.

(* ================================================================== *)
(** * The result views                                                 *)
(* ================================================================== *)

(** ** Keys are stored once *)

Lemma existsb_ostr_in (k : ostr) (ks : list ostr) :
  existsb (ostr_eqb k) ks = true <-> In k ks.
Proof.
  rewrite existsb_exists. split.
  - intros (k' & Hin & E). apply ostr_eqb_eq in E. now subst.
  - intros H. exists k. split; [exact H | apply ostr_eqb_refl].
Qed.

Lemma add_key_nodup (k : ostr) (ks : list ostr) : NoDup ks -> NoDup (add_key k ks).
Proof.
  intros H. unfold add_key. destruct (existsb (ostr_eqb k) ks) eqn:E; [exact H|].
  apply NoDup_app; [exact H | repeat constructor; intros [] |].
  intros a Ha [<- | []]. apply existsb_ostr_in in Ha. congruence.
Qed.

Lemma add_keys_nodup (l acc : list ostr) : NoDup acc -> NoDup (add_keys acc l).
Proof.
  revert acc. induction l as [|k l IH]; intros acc H; [exact H|].
  change (add_keys acc (k :: l)) with (add_keys (add_key k acc) l).
  apply IH. now apply add_key_nodup.
Qed.

Lemma model_keys_nodup (dec : string -> bool) (root : node) :
  NoDup (dict_keys (packages (extract_model dec root))) /\
  NoDup (dict_keys (elements (extract_model dec root))).
Proof.
  destruct (extract_model_collections dec root) as (_ & Hp & _ & He & _).
  cbv zeta in *. rewrite Hp, He.
  split; apply add_keys_nodup; constructor.
Qed.

Lemma dict_get_of_in {V} (k : ostr) (v : V) (d : dict V) :
  NoDup (dict_keys d) -> In (k, v) d -> dict_get k d = Some v.
Proof.
  unfold dict_keys. induction d as [|[k0 v0] d IH]; cbn [map fst dict_get];
    intros Hnd Hin; [destruct Hin|].
  inversion Hnd as [|? ? Hnotin Hnd']; subst.
  destruct Hin as [[= -> ->] | Hin].
  - now rewrite ostr_eqb_refl.
  - destruct (ostr_eqb k k0) eqn:E; [|now apply IH].
    apply ostr_eqb_eq in E. subst k0. elim Hnotin.
    apply in_map_iff. now exists (k, v).
Qed.

(** ** The package column of the table of elements *)

Lemma in_members_of (k id : ostr) (els : dict elem_info) :
  In id (members_of k els) <->
  exists e, In (id, e) els /\ truthy (el_package_id e) = true /\ el_package_id e = k.
Proof.
  unfold members_of. rewrite in_map_iff. split.
  - intros ([id' e] & <- & H). apply filter_In in H. destruct H as [Hin H].
    apply andb_prop in H. destruct H as [Ht Hk]. apply ostr_eqb_eq in Hk.
    exists e. auto.
  - intros (e & Hin & Ht & Hk). exists (id, e). split; [reflexivity|].
    apply filter_In. split; [exact Hin|].
    now rewrite Ht, Hk, ostr_eqb_refl.
Qed.

(** X18.  The table of elements and the member lists agree.  The row of
    an element names a package exactly when the element is in the
    member list of that package, and then it is in the member list of
    no other; the column is empty exactly when the element is in no
    member list at all, which is the case of an element without package
    id or with a package id that names no package. *)
Theorem package_column_agrees_with_the_member_lists
  (b64decode_validate : string -> bool) (root : node)
  (i : nat) (id : ostr) (e : elem_info) :
  let model := extract_model b64decode_validate root in
  nth_error (elements model) i = Some (id, e) ->
  exists row,
    nth_error (populate_elements (elements model) (packages model)) i = Some row /\
    row_name row = el_name e /\
    ((exists p,
         dict_get (el_package_id e) (packages model) = Some p /\
         row_package_name row = pkg_name p /\
         In id (pkg_elements p) /\
         forall k q, dict_get k (packages model) = Some q ->
                     In id (pkg_elements q) -> k = el_package_id e)
     \/
     (row_package_name row = Some "" /\
      forall k q, dict_get k (packages model) = Some q -> ~ In id (pkg_elements q))).
Proof.
  cbv zeta. intros Hnth.
  set (model := extract_model b64decode_validate root) in *.
  destruct (model_keys_nodup b64decode_validate root) as [_ Hnd]. fold model in Hnd.
  assert (Hin : In (id, e) (elements model)) by (eapply nth_error_In; eauto).
  assert (Hmem : forall k q, dict_get k (packages model) = Some q ->
                             In id (pkg_elements q) ->
                             truthy (el_package_id e) = true /\ el_package_id e = k).
  { intros k q Hq Hid.
    rewrite (members_of_model
               b64decode_validate root k q Hq) in Hid.
    apply in_members_of in Hid. destruct Hid as (e' & Hin' & Ht & Hk).
    pose proof (dict_get_of_in _ _ _ Hnd Hin) as G.
    pose proof (dict_get_of_in _ _ _ Hnd Hin') as G'.
    rewrite G in G'. injection G' as <-. auto. }
  eexists. split.
  { unfold populate_elements. rewrite nth_error_map, Hnth. reflexivity. }
  cbn [row_name row_package_name]. split; [reflexivity|].
  destruct (truthy (el_package_id e)) eqn:Et; cbn [andb].
  - unfold dict_mem.
    destruct (dict_get (el_package_id e) (packages model)) as [p|] eqn:Ep.
    + left. exists p. split; [reflexivity|]. split; [reflexivity|]. split.
      * rewrite (members_of_model
                   b64decode_validate root _ p Ep).
        apply in_members_of. exists e. auto.
      * intros k q Hq Hid. symmetry. now apply (Hmem k q).
    + right. split; [reflexivity|]. intros k q Hq Hid.
      destruct (Hmem k q Hq Hid) as [_ <-]. congruence.
  - right. split; [reflexivity|]. intros k q Hq Hid.
    destruct (Hmem k q Hq Hid) as [Ht _]. congruence.
Qed.

Lemma package_column_agrees_with_the_member_lists_witness :
  exists e row,
    nth_error (elements (extract_model canonical_base64 library_document)) 1
      = Some (Some "E2", e) /\
    nth_error (populate_elements
                 (elements (extract_model canonical_base64 library_document))
                 (packages (extract_model canonical_base64 library_document))) 1
      = Some row /\
    el_package_id e = Some "P7" /\
    row_package_name row = Some "".
Proof.
  destruct (package_column_agrees_with_the_member_lists
              canonical_base64 library_document 1 (Some "E2") _ eq_refl)
    as (row & Hrow & _ & _).
  eexists. exists row. split; [reflexivity|]. split; [exact Hrow|].
  split; [reflexivity|].
  cbv in Hrow. injection Hrow as <-. reflexivity.
Defined.

(** ** The package hierarchy *)

Lemma traverse_some {A B} (f : A -> option B) (l : list A) :
  (forall a, In a l -> exists b, f a = Some b) ->
  exists bs, traverse f l = Some bs.
Proof.
  induction l as [|a l IH]; intros H; cbn [traverse]; [eauto|].
  destruct (H a (or_introl eq_refl)) as [b ->].
  destruct IH as [bs ->]; [intros x Hx; apply H; now right|].
  cbn. eauto.
Qed.

Lemma traverse_in {A B} (f : A -> option B) (l : list A) (bs : list B) :
  traverse f l = Some bs ->
  forall b, In b bs -> exists a, In a l /\ f a = Some b.
Proof.
  revert bs. induction l as [|a l IH]; intros bs; cbn [traverse].
  - intros [= <-] b [].
  - destruct (f a) as [b0|] eqn:E; [|discriminate].
    destruct (traverse f l) as [bs0|]; [|discriminate].
    intros [= <-] b [<- | Hb].
    + exists a. split; [now left | exact E].
    + destruct (IH bs0 eq_refl b Hb) as (a' & Ha' & E'). exists a'. split;
        [now right | exact E'].
Qed.

Lemma traverse_map {A B C} (f : A -> option B) (g : A -> option C)
  (phi : B -> list string) (psi : C -> list string) (l : list A) :
  (forall a, In a l ->
             option_map phi (f a) = option_map psi (g a)) ->
  option_map (flat_map phi) (traverse f l)
  = option_map (flat_map psi) (traverse g l).
Proof.
  induction l as [|a l IH]; intros H; cbn [traverse]; [reflexivity|].
  pose proof (H a (or_introl eq_refl)) as Ha.
  specialize (IH (fun x Hx => H x (or_intror Hx))).
  destruct (f a) as [b|], (g a) as [c|]; cbn [option_map] in Ha;
    try discriminate; [|reflexivity].
  injection Ha as Ha.
  destruct (traverse f l) as [bs|], (traverse g l) as [cs|];
    cbn [option_map] in *; try discriminate; [|reflexivity].
  injection IH as IH. cbn [flat_map]. now rewrite Ha, IH.
Qed.

Lemma in_listed_packages (all : dict pkg_info) (ids : list ostr) (q : pkg_info) :
  In q (listed_packages all ids) <->
  exists c, In c ids /\ dict_get c all = Some q.
Proof.
  unfold listed_packages. rewrite in_flat_map. split.
  - intros (c & Hc & H). exists c. split; [exact Hc|].
    destruct (dict_get c all); [|destruct H].
    destruct H as [<- | []]. reflexivity.
  - intros (c & Hc & H). exists c. split; [exact Hc|]. rewrite H. now left.
Qed.

Lemma in_children_of (k c : ostr) (pk : dict pkg_info) :
  In c (children_of k pk) <->
  exists q, In (c, q) pk /\ truthy (pkg_parent_id q) = true /\ pkg_parent_id q = k.
Proof.
  unfold children_of. rewrite in_map_iff. split.
  - intros ([c' q] & <- & H). apply filter_In in H. destruct H as [Hin H].
    apply andb_prop in H. destruct H as [Ht Hk]. apply ostr_eqb_eq in Hk.
    exists q. auto.
  - intros (q & Hin & Ht & Hk). exists (c, q). split; [reflexivity|].
    apply filter_In. split; [exact Hin|].
    now rewrite Ht, Hk, ostr_eqb_refl.
Qed.

Lemma linked_parent_in (pk : dict pkg_info) (path : list ostr) (c : ostr) :
  linked pk path -> In c path -> truthy (parent_of pk c) = true ->
  In (parent_of pk c) path.
Proof.
  induction path as [|k rest IH]; intros Hl Hin Ht; [destruct Hin|].
  cbn [linked] in Hl. destruct Hl as [Hk Hrest].
  destruct Hin as [-> | Hin].
  - destruct rest as [|k' rest']; [congruence|].
    destruct Hk as [_ ->]. right. now left.
  - right. now apply IH.
Qed.

Section Hierarchy.
Variable pk : dict pkg_info.
Hypothesis keys_once : NoDup (dict_keys pk).
Hypothesis sub_packages_ok :
  forall k p, dict_get k pk = Some p -> pkg_sub_packages p = children_of k pk.

(** What the loop of lines 1080-1082 recurses into: packages whose
    parent id is the key of the package at hand. *)
Lemma listed_child (k : ostr) (p q : pkg_info) :
  dict_get k pk = Some p ->
  In q (listed_packages pk (pkg_sub_packages p)) ->
  exists c, dict_get c pk = Some q /\
            truthy (pkg_parent_id q) = true /\ pkg_parent_id q = k.
Proof.
  intros Hp Hq. apply in_listed_packages in Hq. destruct Hq as (c & Hc & Hget).
  rewrite (sub_packages_ok k p Hp) in Hc.
  apply in_children_of in Hc. destruct Hc as (q' & Hin & Ht & Hk).
  rewrite (dict_get_of_in _ _ _ keys_once Hin) in Hget. injection Hget as <-.
  exists c. split; [now apply dict_get_of_in|]. auto.
Qed.

Lemma add_package_returns (depth : nat) :
  forall path k p,
    dict_get k pk = Some p ->
    linked pk (k :: path) ->
    NoDup (k :: path) ->
    incl (k :: path) (dict_keys pk) ->
    List.length pk < depth + List.length (k :: path) ->
    exists t, _add_package_to_tree depth pk p = Some t.
Proof.
  induction depth as [|d IH]; intros path k p Hp Hl Hnd Hincl Hlen.
  - exfalso. pose proof (NoDup_incl_length Hnd Hincl) as H.
    rewrite dict_keys_length in H. lia.
  - cbn [_add_package_to_tree].
    destruct (traverse_some (_add_package_to_tree d pk)
                (listed_packages pk (pkg_sub_packages p))) as [ts ->];
      [|cbn; eauto].
    intros q Hq. destruct (listed_child k p q Hp Hq) as (c & Hc & Ht & Hk).
    assert (Hpc : parent_of pk c = k) by (unfold parent_of; now rewrite Hc).
    apply (IH (k :: path) c q Hc).
    + cbn [linked]. split; [|exact Hl]. rewrite Hpc. split; [|reflexivity].
      now rewrite <- Hk.
    + constructor; [|exact Hnd]. intros Hin.
      assert (Htc : truthy (parent_of pk c) = true) by (rewrite Hpc, <- Hk; exact Ht).
      destruct Hin as [<- | Hin].
      * destruct path as [|k' path'].
        -- cbn [linked] in Hl. destruct Hl as [Hl _]. congruence.
        -- cbn [linked] in Hl. destruct Hl as [[_ Hl] _].
           apply NoDup_cons_iff in Hnd. destruct Hnd as [Hnotin _].
           apply Hnotin. rewrite Hpc in Hl. rewrite <- Hl. now left.
      * cbn [linked] in Hl. destruct Hl as [_ Hl].
        pose proof (linked_parent_in pk path c Hl Hin Htc) as H.
        rewrite Hpc in H. apply NoDup_cons_iff in Hnd. now destruct Hnd.
    + intros x [<- | Hx]; [|now apply Hincl].
      apply in_map_iff. exists (c, q). split; [reflexivity|].
      now apply dict_get_in.
    + cbn [List.length] in *. lia.
Qed.

Lemma root_package_key (p : pkg_info) :
  In p (map snd pk) -> exists k, dict_get k pk = Some p.
Proof.
  intros H. apply in_map_iff in H. destruct H as ([k p'] & <- & Hin).
  exists k. now apply dict_get_of_in.
Qed.

Lemma hierarchy_returns (depth : nat) :
  List.length pk <= depth ->
  exists forest, show_package_hierarchy depth pk = Some forest.
Proof.
  intros Hd. unfold show_package_hierarchy. apply traverse_some.
  intros p Hp. apply filter_In in Hp. destruct Hp as [Hp Hroot].
  destruct (root_package_key p Hp) as [k Hk].
  apply (add_package_returns depth [] k p Hk).
  - cbn [linked]. split; [|exact I]. unfold parent_of. rewrite Hk.
    now destruct (truthy (pkg_parent_id p)).
  - repeat constructor. intros [].
  - intros x [<- | []]. apply in_map_iff. exists (k, p).
    split; [reflexivity | now apply dict_get_in].
  - cbn [List.length]. lia.
Qed.

(** The texts of the items are the labels of the packages added. *)
Lemma packages_added_texts (depth : nat) :
  forall p,
    option_map item_texts (_add_package_to_tree depth pk p)
    = option_map (map package_label) (packages_added depth pk p).
Proof.
  induction depth as [|d IH]; intros p; [reflexivity|].
  cbn [_add_package_to_tree packages_added].
  pose proof (traverse_map (_add_package_to_tree d pk) (packages_added d pk)
                item_texts (map package_label)
                (listed_packages pk (pkg_sub_packages p))
                (fun a _ => IH a)) as H.
  destruct (traverse (_add_package_to_tree d pk) _) as [ts|],
           (traverse (packages_added d pk) _) as [ls|];
    cbn [option_map] in *; try discriminate; [|reflexivity].
  injection H as H. cbn [item_texts map]. f_equal. f_equal.
  rewrite H. clear. induction ls as [|l ls IH]; cbn [flat_map List.concat];
    [reflexivity|]. now rewrite map_app, IH.
Qed.

Lemma packages_shown_texts (depth : nat) :
  option_map (flat_map item_texts) (show_package_hierarchy depth pk)
  = option_map (map package_label) (packages_shown depth pk).
Proof.
  unfold show_package_hierarchy, packages_shown.
  pose proof (traverse_map (_add_package_to_tree depth pk)
                (packages_added depth pk) item_texts (map package_label)
                (filter (fun pkg => negb (truthy (pkg_parent_id pkg))) (map snd pk))
                (fun a _ => packages_added_texts depth a)) as H.
  destruct (traverse (_add_package_to_tree depth pk) _) as [ts|],
           (traverse (packages_added depth pk) _) as [ls|];
    cbn [option_map] in *; try discriminate; [|reflexivity].
  injection H as H. f_equal. rewrite H. clear.
  induction ls as [|l ls IH]; cbn [flat_map List.concat]; [reflexivity|].
  now rewrite map_app, IH.
Qed.

(** Every package added is reached from a package without parent id
    along parent ids that are keys. *)
Lemma packages_added_rooted (depth : nat) :
  forall path k p l,
    dict_get k pk = Some p ->
    linked pk (k :: path) ->
    incl (k :: path) (dict_keys pk) ->
    packages_added depth pk p = Some l ->
    forall q, In q l ->
      exists c path',
        dict_get c pk = Some q /\
        linked pk (c :: path') /\ incl (c :: path') (dict_keys pk).
Proof.
  induction depth as [|d IH]; intros path k p l Hp Hl Hincl; [discriminate|].
  cbn [packages_added].
  destruct (traverse (packages_added d pk) _) as [ls|] eqn:E; [|discriminate].
  intros [= <-] q [<- | Hq]; [exists k, path; auto|].
  apply in_concat in Hq. destruct Hq as (l' & Hl' & Hq).
  destruct (traverse_in _ _ _ E l' Hl') as (p' & Hp' & Hadd).
  destruct (listed_child k p p' Hp Hp') as (c & Hc & Ht & Hk).
  assert (Hpc : parent_of pk c = k) by (unfold parent_of; now rewrite Hc).
  apply (IH (k :: path) c p' l' Hc); [| |exact Hadd | exact Hq].
  - cbn [linked]. split; [|exact Hl]. rewrite Hpc. split; [|reflexivity].
    now rewrite <- Hk.
  - intros x [<- | Hx]; [|now apply Hincl].
    apply in_map_iff. exists (c, p'). split; [reflexivity|].
    now apply dict_get_in.
Qed.

Lemma packages_shown_rooted (depth : nat) (l : list pkg_info) :
  packages_shown depth pk = Some l ->
  forall q, In q l ->
    exists c path,
      dict_get c pk = Some q /\
      linked pk (c :: path) /\ incl (c :: path) (dict_keys pk).
Proof.
  unfold packages_shown.
  destruct (traverse (packages_added depth pk) _) as [ls|] eqn:E; [|discriminate].
  intros [= <-] q Hq.
  apply in_concat in Hq. destruct Hq as (l' & Hl' & Hq).
  destruct (traverse_in _ _ _ E l' Hl') as (p & Hp & Hadd).
  apply filter_In in Hp. destruct Hp as [Hp Hroot].
  destruct (root_package_key p Hp) as [k Hk].
  apply (packages_added_rooted depth [] k p l' Hk); [| |exact Hadd | exact Hq].
  - cbn [linked]. split; [|exact I]. unfold parent_of. rewrite Hk.
    now destruct (truthy (pkg_parent_id p)).
  - intros x [<- | []]. apply in_map_iff. exists (k, p).
    split; [reflexivity | now apply dict_get_in].
Qed.

(** A deeper limit changes nothing. *)
Lemma traverse_weaken {A B} (f g : A -> option B) (l : list A) (bs : list B) :
  (forall a b, f a = Some b -> g a = Some b) ->
  traverse f l = Some bs -> traverse g l = Some bs.
Proof.
  intros H. revert bs. induction l as [|a l IH]; intros bs; cbn [traverse];
    [auto|].
  destruct (f a) as [b|] eqn:E; [|discriminate]. rewrite (H a b E).
  destruct (traverse f l) as [bs0|]; [|discriminate].
  intros [= <-]. now rewrite (IH bs0 eq_refl).
Qed.

Lemma add_package_deeper (depth : nat) :
  forall p t,
    _add_package_to_tree depth pk p = Some t ->
    _add_package_to_tree (S depth) pk p = Some t.
Proof.
  induction depth as [|d IH]; intros p t; [discriminate|].
  intros H. cbn [_add_package_to_tree] in H.
  change (_add_package_to_tree (S (S d)) pk p)
    with (option_map (TreeItem (package_label p))
            (traverse (_add_package_to_tree (S d) pk)
               (listed_packages pk (pkg_sub_packages p)))).
  destruct (traverse (_add_package_to_tree d pk) _) as [ts|] eqn:E;
    [|discriminate].
  now rewrite (traverse_weaken _ _ _ _ IH E).
Qed.

Lemma hierarchy_deeper (d d' : nat) (forest : list tree_item) :
  d <= d' ->
  show_package_hierarchy d pk = Some forest ->
  show_package_hierarchy d' pk = Some forest.
Proof.
  intros Hle. induction Hle as [|d' Hle IH]; [auto|].
  intros H. specialize (IH H). unfold show_package_hierarchy in *.
  apply (traverse_weaken _ _ _ _ (add_package_deeper d') IH).
Qed.

End Hierarchy.

(** X19.  The recursion of [_add_package_to_tree] on a returned model
    never goes deeper than the model has packages: the packages on the
    way down from a package without parent id are all different, even
    when the parent ids of the document form a cycle.  So
    [show_package_hierarchy] builds the same tree under every limit of
    the depth that is at least the number of packages. *)
Theorem hierarchy_depth_is_at_most_the_number_of_packages
  (b64decode_validate : string -> bool) (root : node) :
  let packages := packages (extract_model b64decode_validate root) in
  exists forest,
    forall depth,
      List.length packages <= depth ->
      show_package_hierarchy depth packages = Some forest.
Proof.
  cbv zeta.
  set (pk := packages (extract_model b64decode_validate root)).
  destruct (model_keys_nodup b64decode_validate root) as [Hnd _]. fold pk in Hnd.
  destruct (hierarchy_returns pk Hnd
              (sub_packages_of_model b64decode_validate root)
              (List.length pk) (le_n _)) as [forest H].
  exists forest. intros depth Hd.
  exact (hierarchy_deeper pk (List.length pk) depth forest Hd H).
Qed.

Lemma hierarchy_depth_is_at_most_the_number_of_packages_witness :
  List.length (packages (extract_model canonical_base64 library_document)) <= 3 /\
  exists forest,
    show_package_hierarchy 3 (packages (extract_model canonical_base64 library_document))
      = Some forest.
Proof.
  assert (H : List.length (packages (extract_model canonical_base64 library_document))
              <= 3) by (vm_compute; lia).
  split; [exact H|].
  destruct (hierarchy_depth_is_at_most_the_number_of_packages
              canonical_base64 library_document) as [forest Hf].
  exists forest. exact (Hf 3 H).
Defined.

(** X20.  The tree of [show_package_hierarchy] shows a package of the
    returned model only if its parent ids lead, from key to key, to a
    package without parent id.  A package whose parent id is not empty
    and names no package is therefore not shown at all, neither at the
    top nor below another package. *)
Theorem hierarchy_shows_only_packages_under_a_root
  (b64decode_validate : string -> bool) (root : node)
  (depth : nat) (forest : list tree_item) :
  let packages := packages (extract_model b64decode_validate root) in
  show_package_hierarchy depth packages = Some forest ->
  exists shown,
    packages_shown depth packages = Some shown /\
    flat_map item_texts forest = map package_label shown /\
    forall q, In q shown ->
      (exists c path,
          dict_get c packages = Some q /\
          linked packages (c :: path) /\ incl (c :: path) (dict_keys packages)) /\
      (truthy (pkg_parent_id q) = true ->
       dict_mem (pkg_parent_id q) packages = true).
Proof.
  cbv zeta. intros Hshow.
  set (pk := packages (extract_model b64decode_validate root)) in *.
  destruct (model_keys_nodup b64decode_validate root) as [Hnd _]. fold pk in Hnd.
  pose proof (packages_shown_texts pk depth) as Htexts. rewrite Hshow in Htexts.
  destruct (packages_shown depth pk) as [shown|] eqn:E; [|discriminate].
  injection Htexts as Htexts.
  exists shown. split; [reflexivity|]. split; [exact Htexts|].
  intros q Hq.
  destruct (packages_shown_rooted pk Hnd
              (sub_packages_of_model b64decode_validate root) depth shown E q Hq)
    as (c & path & Hc & Hl & Hincl).
  split; [exists c, path; auto|].
  intros Ht. cbn [linked] in Hl. destruct Hl as [Hl _].
  unfold parent_of in Hl. rewrite Hc in Hl.
  destruct path as [|k' path']; [congruence|].
  destruct Hl as [_ Hl]. rewrite Hl, dict_mem_keys.
  apply existsb_ostr_in. apply Hincl. right. now left.
Qed.

Lemma hierarchy_shows_only_packages_under_a_root_witness :
  exists forest shown,
    show_package_hierarchy 3 (packages (extract_model canonical_base64 library_document))
      = Some forest /\
    dict_keys (packages (extract_model canonical_base64 library_document))
      = [Some "P1"; Some "P2"; Some "P3"] /\
    packages_shown 3 (packages (extract_model canonical_base64 library_document))
      = Some shown /\
    map pkg_id shown = [Some "P1"; Some "P2"] /\
    flat_map item_texts forest = ["Core (0 elements)"; "Sub (1 elements)"].
Proof.
  eexists.
  destruct (hierarchy_shows_only_packages_under_a_root
              canonical_base64 library_document 3 _ eq_refl)
    as (shown & Hshown & Htexts & _).
  exists shown. split; [reflexivity|]. split; [reflexivity|].
  split; [exact Hshown|].
  vm_compute in Hshown. injection Hshown as <-.
  split; reflexivity.
Defined.

(** ** The counts of the table of packages *)

Lemma list_sum_plus {A} (a b : A -> nat) (l : list A) :
  list_sum (map (fun x => a x + b x) l)
  = list_sum (map a l) + list_sum (map b l).
Proof.
  induction l as [|x l IH]; cbn [map list_sum fold_right]; [reflexivity|].
  unfold list_sum in *. rewrite IH. lia.
Qed.

Lemma list_sum_zero {A} (l : list A) : list_sum (map (fun _ => 0) l) = 0.
Proof. induction l as [|x l IH]; [reflexivity | exact IH]. Qed.

Lemma counted_once (x : ostr) (ks : list ostr) :
  NoDup ks ->
  list_sum (map (fun k => if ostr_eqb x k then 1 else 0) ks)
  = if existsb (ostr_eqb x) ks then 1 else 0.
Proof.
  induction ks as [|k ks IH]; intros Hnd; [reflexivity|].
  apply NoDup_cons_iff in Hnd. destruct Hnd as [Hnotin Hnd].
  cbn [map list_sum fold_right existsb]. specialize (IH Hnd).
  unfold list_sum in IH. rewrite IH.
  destruct (ostr_eqb x k) eqn:E; cbn [orb]; [|reflexivity].
  apply ostr_eqb_eq in E. subst k.
  destruct (existsb (ostr_eqb x) ks) eqn:E'; [|reflexivity].
  apply existsb_ostr_in in E'. contradiction.
Qed.

(** Each item is listed under one key at most: the lists of all the
    keys together hold the items whose target is a key. *)
Lemma listed_under_one_key {X} (target : X -> ostr) (ks : list ostr)
  (items : dict X) :
  NoDup ks ->
  list_sum
    (map (fun k =>
            List.length
              (filter (fun '(_, x) => truthy (target x) && ostr_eqb (target x) k)
                      items))
         ks)
  = List.length
      (filter (fun '(_, x) => truthy (target x) && existsb (ostr_eqb (target x)) ks)
              items).
Proof.
  intros Hnd. induction items as [|[id x] items IH]; cbn [filter].
  - apply list_sum_zero.
  - rewrite (map_ext _
               (fun k =>
                  (if ostr_eqb (target x) k then (if truthy (target x) then 1 else 0)
                   else 0)
                  + List.length
                      (filter (fun '(_, x0) =>
                                 truthy (target x0) && ostr_eqb (target x0) k)
                              items))).
    + rewrite list_sum_plus, IH.
      destruct (truthy (target x)); cbn [andb].
      * rewrite (counted_once (target x) ks Hnd).
        now destruct (existsb _ ks).
      * rewrite (map_ext _ (fun _ => 0)) by (intros k; now destruct (ostr_eqb _ k)).
        now rewrite list_sum_zero.
    + intros k. destruct (truthy (target x)), (ostr_eqb (target x) k);
        reflexivity.
Qed.

(** X21.  In the table of packages of a returned model the column of
    element counts adds up to the number of elements whose package id
    names a package, and the column of sub-package counts to the number
    of packages whose parent id names a package: no element and no
    package is counted under two packages, and the ones that name an
    unknown package are counted nowhere. *)
Theorem package_table_counts_each_reference_once
  (b64decode_validate : string -> bool) (root : node) :
  let model := extract_model b64decode_validate root in
  list_sum (map prow_elements (populate_packages (packages model)))
    = List.length
        (filter (fun '(_, e) =>
                   truthy (el_package_id e)
                   && dict_mem (el_package_id e) (packages model))
                (elements model)) /\
  list_sum (map prow_sub_packages (populate_packages (packages model)))
    = List.length
        (filter (fun '(_, p) =>
                   truthy (pkg_parent_id p)
                   && dict_mem (pkg_parent_id p) (packages model))
                (packages model)) /\
  list_sum (map prow_elements (populate_packages (packages model)))
    <= List.length (elements model) /\
  list_sum (map prow_sub_packages (populate_packages (packages model)))
    <= List.length (packages model).
Proof.
  cbv zeta.
  set (model := extract_model b64decode_validate root).
  destruct (model_keys_nodup b64decode_validate root) as [Hnd _].
  fold model in Hnd.
  assert (He : list_sum (map prow_elements (populate_packages (packages model)))
               = list_sum
                   (map (fun k => List.length (members_of k (elements model)))
                        (dict_keys (packages model)))).
  { unfold populate_packages, dict_keys. rewrite !map_map. f_equal.
    apply map_ext_in. intros [k p] Hin. cbn [prow_elements fst].
    now rewrite (members_of_model b64decode_validate root k p
                   (dict_get_of_in _ _ _ Hnd Hin)). }
  assert (Hs : list_sum (map prow_sub_packages (populate_packages (packages model)))
               = list_sum
                   (map (fun k => List.length (children_of k (packages model)))
                        (dict_keys (packages model)))).
  { unfold populate_packages, dict_keys. rewrite !map_map. f_equal.
    apply map_ext_in. intros [k p] Hin. cbn [prow_sub_packages fst].
    now rewrite (sub_packages_of_model b64decode_validate root k p
                   (dict_get_of_in _ _ _ Hnd Hin)). }
  assert (He' : list_sum (map prow_elements (populate_packages (packages model)))
                = List.length
                    (filter (fun '(_, e) =>
                               truthy (el_package_id e)
                               && dict_mem (el_package_id e) (packages model))
                            (elements model))).
  { rewrite He. unfold members_of.
    rewrite (map_ext _ _ (fun k => length_map fst _)).
    rewrite (listed_under_one_key el_package_id _ _ Hnd).
    f_equal. apply filter_ext. intros [id e]. now rewrite dict_mem_keys. }
  assert (Hs' : list_sum (map prow_sub_packages (populate_packages (packages model)))
                = List.length
                    (filter (fun '(_, p) =>
                               truthy (pkg_parent_id p)
                               && dict_mem (pkg_parent_id p) (packages model))
                            (packages model))).
  { rewrite Hs. unfold children_of.
    rewrite (map_ext _ _ (fun k => length_map fst _)).
    rewrite (listed_under_one_key pkg_parent_id _ _ Hnd).
    f_equal. apply filter_ext. intros [id p]. now rewrite dict_mem_keys. }
  split; [exact He'|]. split; [exact Hs'|].
  rewrite He', Hs'. split; apply filter_length_le.
Qed.

(** ** The image detector *)

(** X22.  [_extract_diagram_image_enhanced] raises on every diagram
    node, whatever the node holds and before it examines a single
    candidate: the fifth of its thirteen searches names the prefix
    [xmi].  The body of the diagram loop calls it outside any [try], so
    the loop could record no diagram even for a candidate list that is
    not empty. *)
Theorem image_detector_raises_on_every_diagram
  (b64decode_validate : string -> bool) (diag : node) (d : diag_info)
  (self : analyzer) :
  image_sources diag = Raise (SyntaxError "prefix 'xmi' not found in prefix map") /\
  _extract_diagram_image_enhanced b64decode_validate diag d self
  = (self, Raise (SyntaxError "prefix 'xmi' not found in prefix map")) /\
  diagram_step b64decode_validate diag self
  = (self, Raise (SyntaxError "prefix 'xmi' not found in prefix map")).
Proof.
  split; [apply image_sources_raises|].
  split; [apply extract_diagram_image_raises|].
  unfold diagram_step, bind, lift. rewrite make_diag_info_eq.
  unfold on_local.
  destruct (_extract_diagram_elements diag (diag_info_of diag)) as [d1 [[]|e]] eqn:E.
  - now rewrite extract_diagram_image_raises.
  - exfalso. unfold _extract_diagram_elements, bind, lift in E.
    rewrite element_sources_eq in E.
    rewrite (for_each_pure _
               (fun xs i =>
                  fold_left
                    (fun acc x =>
                       with_dg_elements (fun l => l ++ [make_diag_elem_info x]) acc)
                    xs i)) in E; [discriminate|].
    intros xs i.
    now rewrite (for_each_pure _
                   (fun x => with_dg_elements
                               (fun l => l ++ [make_diag_elem_info x]))).
Qed.

(* ================================================================== *)
(** * The reported size                                                *)
(* ================================================================== *)

Lemma land_mask (n k j : N) :
  (k * 2 ^ j <= n)%N -> (n < (k + 1) * 2 ^ j)%N ->
  N.land n (N.ones j) = (n - k * 2 ^ j)%N.
Proof.
  intros H1 H2. rewrite N.land_ones. symmetry.
  apply (N.mod_unique n (2 ^ j) k); lia.
Qed.

Lemma lor_shift (a x : N) :
  (x < 64)%N -> N.lor (N.shiftl a 6) x = (a * 64 + x)%N.
Proof.
  intros Hx. rewrite N.shiftl_mul_pow2. change (2 ^ 6)%N with 64%N.
  rewrite <- N.lxor_lor, <- N.add_nocarry_lxor; [reflexivity | |].
  all: apply N.bits_inj; intros m; rewrite N.land_spec, N.bits_0.
  all: destruct (N.ltb m 6) eqn:E.
  all: try (apply N.ltb_lt in E; change 64%N with (2 ^ 6)%N;
            rewrite N.mul_pow2_bits_low by exact E; reflexivity).
  all: apply N.ltb_ge in E; rewrite (N.bits_above_log2 x m); [apply andb_false_r|].
  all: destruct x as [|p]; [cbn; lia|];
       apply N.lt_le_trans with 6%N; [|exact E];
       apply N.log2_lt_pow2; [lia|exact Hx].
Qed.

(** A continuation byte adds its six low bits. *)
Lemma continuation_bits (acc n : N) :
  (128 <= n)%N -> (n <= 191)%N ->
  N.lor (N.shiftl acc 6) (N.land n 0x3F) = (acc * 64 + n - 128)%N.
Proof.
  intros H1 H2. change 0x3F%N with (N.ones 6).
  rewrite (land_mask n 2 6) by (cbn; lia).
  rewrite lor_shift by (cbn; lia). cbn. lia.
Qed.

Lemma in_range_bounds (lo hi n : N) :
  ((lo <=? n) && (n <=? hi))%N = true -> (lo <= n)%N /\ (n <= hi)%N.
Proof.
  intros H. apply andb_prop in H. destruct H as [H1 H2].
  split; now apply N.leb_le.
Qed.

Lemma decode_cont1 (acc lo hi : N) (bs : bytes) (t : pystr) :
  (128 <= lo)%N -> (hi <= 191)%N ->
  utf8_decode_from true (Cont 1 acc lo hi) bs = Some t ->
  exists b rest t',
    bs = b :: rest /\
    (lo <= Byte.to_N b)%N /\ (Byte.to_N b <= hi)%N /\
    t = (acc * 64 + Byte.to_N b - 128)%N :: t' /\
    utf8_decode_from true Start rest = Some t'.
Proof.
  intros Hlo Hhi. destruct bs as [|b rest]; cbn [utf8_decode_from];
    [discriminate|].
  destruct ((lo <=? Byte.to_N b) && (Byte.to_N b <=? hi))%N eqn:E;
    [|discriminate].
  apply in_range_bounds in E. destruct E as [E1 E2].
  rewrite continuation_bits by lia.
  destruct (utf8_decode_from true Start rest) as [t'|] eqn:D; [|discriminate].
  intros [= <-]. exists b, rest, t'. auto.
Qed.

Lemma decode_cont2 (acc lo hi : N) (bs : bytes) (t : pystr) :
  (128 <= lo)%N -> (hi <= 191)%N ->
  utf8_decode_from true (Cont 2 acc lo hi) bs = Some t ->
  exists b1 b2 rest t',
    bs = b1 :: b2 :: rest /\
    (lo <= Byte.to_N b1)%N /\ (Byte.to_N b1 <= hi)%N /\
    (128 <= Byte.to_N b2)%N /\ (Byte.to_N b2 <= 191)%N /\
    t = ((acc * 64 + Byte.to_N b1 - 128) * 64 + Byte.to_N b2 - 128)%N :: t' /\
    utf8_decode_from true Start rest = Some t'.
Proof.
  intros Hlo Hhi. destruct bs as [|b rest]; cbn [utf8_decode_from];
    [discriminate|].
  destruct ((lo <=? Byte.to_N b) && (Byte.to_N b <=? hi))%N eqn:E;
    [|discriminate].
  apply in_range_bounds in E. destruct E as [E1 E2].
  rewrite continuation_bits by lia. intros H.
  apply decode_cont1 in H; [|lia|lia].
  destruct H as (b2 & rest' & t' & -> & H1 & H2 & -> & H).
  exists b, b2, rest', t'. repeat split; auto.
Qed.

Lemma decode_cont3 (acc lo hi : N) (bs : bytes) (t : pystr) :
  (128 <= lo)%N -> (hi <= 191)%N ->
  utf8_decode_from true (Cont 3 acc lo hi) bs = Some t ->
  exists b1 b2 b3 rest t',
    bs = b1 :: b2 :: b3 :: rest /\
    (lo <= Byte.to_N b1)%N /\ (Byte.to_N b1 <= hi)%N /\
    (128 <= Byte.to_N b2)%N /\ (Byte.to_N b2 <= 191)%N /\
    (128 <= Byte.to_N b3)%N /\ (Byte.to_N b3 <= 191)%N /\
    t = (((acc * 64 + Byte.to_N b1 - 128) * 64 + Byte.to_N b2 - 128) * 64
         + Byte.to_N b3 - 128)%N :: t' /\
    utf8_decode_from true Start rest = Some t'.
Proof.
  intros Hlo Hhi. destruct bs as [|b rest]; cbn [utf8_decode_from];
    [discriminate|].
  destruct ((lo <=? Byte.to_N b) && (Byte.to_N b <=? hi))%N eqn:E;
    [|discriminate].
  apply in_range_bounds in E. destruct E as [E1 E2].
  rewrite continuation_bits by lia. intros H.
  apply decode_cont2 in H; [|lia|lia].
  destruct H as (b2 & b3 & rest' & t' & -> & H1 & H2 & H3 & H4 & -> & H).
  exists b, b2, b3, rest', t'. repeat split; auto.
Qed.

Ltac size_cases :=
  unfold utf8_length;
  repeat match goal with
         | |- context [(?a <? ?b)%N] => destruct (N.ltb_spec a b)
         | |- context [(?a <=? ?b)%N] => destruct (N.leb_spec a b)
         end;
  cbn [andb]; first [reflexivity | lia].

Lemma utf8_length_1 (cp : N) : (cp < 128)%N -> utf8_length cp = Some 1.
Proof. intros. size_cases. Qed.

Lemma utf8_length_2 (cp : N) :
  (128 <= cp)%N -> (cp <= 2047)%N -> utf8_length cp = Some 2.
Proof. intros. size_cases. Qed.

Lemma utf8_length_3 (cp : N) :
  ((2048 <= cp)%N /\ (cp <= 55295)%N) \/ ((57344 <= cp)%N /\ (cp <= 65535)%N) ->
  utf8_length cp = Some 3.
Proof. intros. size_cases. Qed.

Lemma utf8_length_4 (cp : N) : (65536 <= cp)%N -> utf8_length cp = Some 4.
Proof. intros. size_cases. Qed.

Lemma carriage_return_byte (b : Byte.byte) : Byte.to_N b = 13%N -> b = Byte.x0d.
Proof.
  intros H. pose proof (Byte.of_to_N b) as E. rewrite H in E.
  cbn in E. now injection E.
Qed.
Lemma start_byte_cases (n : N) :
  (n <= 255)%N ->
  match start_byte n with
  | Some (inl cp) => cp = n /\ (n < 128)%N
  | Some (inr (Cont 1 acc lo hi)) =>
      (2 <= acc)%N /\ (acc <= 31)%N /\ lo = 128%N /\ hi = 191%N
  | Some (inr (Cont 2 acc lo hi)) =>
      (128 <= lo)%N /\ (hi <= 191)%N /\
      ((acc = 0%N /\ lo = 160%N) \/
       (acc = 13%N /\ hi = 159%N) \/
       ((1 <= acc)%N /\ (acc <= 15)%N /\ acc <> 13%N))
  | Some (inr (Cont 3 acc lo hi)) =>
      (128 <= lo)%N /\ (hi <= 191)%N /\
      ((acc = 0%N /\ lo = 144%N) \/
       ((1 <= acc)%N /\ (acc <= 3)%N) \/
       (acc = 4%N /\ hi = 143%N))
  | Some (inr _) => False
  | None => (128 <= n)%N
  end.
Proof.
  intros Hn. unfold start_byte.
  destruct (N.ltb_spec n 0x80); [split; [reflexivity | lia]|].
  destruct (N.ltb_spec n 0xC2); [lia|].
  destruct (N.ltb_spec n 0xE0).
  { change 0x1F%N with (N.ones 5). rewrite (land_mask n 6 5) by (cbn; lia).
    cbn. lia. }
  destruct (N.eqb_spec n 0xE0).
  { subst n. cbn. lia. }
  destruct (N.eqb_spec n 0xED).
  { subst n. cbn. lia. }
  destruct (N.ltb_spec n 0xF0).
  { change 0x0F%N with (N.ones 4). rewrite (land_mask n 14 4) by (cbn; lia).
    cbn. lia. }
  destruct (N.eqb_spec n 0xF0).
  { subst n. cbn. lia. }
  destruct (N.ltb_spec n 0xF4).
  { change 0x07%N with (N.ones 3). rewrite (land_mask n 30 3) by (cbn; lia).
    cbn. lia. }
  destruct (N.eqb_spec n 0xF4).
  { subst n. cbn. lia. }
  lia.
Qed.

Lemma utf8_decode_encoded (k : nat) :
  forall bs t,
    List.length bs <= k ->
    utf8_decode_from true Start bs = Some t ->
    encoded_length t = Some (List.length bs) /\
    (In 13%N t -> In Byte.x0d bs).
Proof.
  induction k as [|k IH]; intros bs t Hlen.
  - destruct bs; [|cbn in Hlen; lia]. cbn. intros [= <-]. split; [reflexivity|].
    intros [].
  - destruct bs as [|b rest]; [cbn; intros [= <-]; split; [reflexivity | intros []]|].
    cbn [List.length] in Hlen. cbn [utf8_decode_from].
    pose proof (start_byte_cases (Byte.to_N b) (Byte.to_N_bounded b)) as Hs.
    destruct (start_byte (Byte.to_N b)) as [[cp|[|need acc lo hi]]|];
      [| destruct Hs | | discriminate].
    + destruct Hs as [-> Hlt].
      destruct (utf8_decode_from true Start rest) as [t'|] eqn:D; [|discriminate].
      intros [= <-]. destruct (IH rest t' ltac:(lia) D) as [He Hc].
      split.
      * cbn [encoded_length]. now rewrite utf8_length_1, He.
      * intros [H | H]; [left; now rewrite (carriage_return_byte b H)
                        | right; now apply Hc].
    + destruct need as [|[|[|[|need]]]]; try (now destruct Hs).
      * destruct Hs as (A1 & A2 & -> & ->). intros H.
        apply decode_cont1 in H; [|lia|lia].
        destruct H as (b1 & rest' & t' & -> & H1 & H2 & -> & D).
        cbn [List.length] in Hlen.
        destruct (IH rest' t' ltac:(lia) D) as [He Hc]. split.
        -- cbn [encoded_length List.length].
           rewrite utf8_length_2, He by lia. reflexivity.
        -- intros [H | H]; [lia | right; right; now apply Hc].
      * destruct Hs as (A1 & A2 & A3). intros H.
        apply decode_cont2 in H; [|lia|lia].
        destruct H as (b1 & b2 & rest' & t' & -> & H1 & H2 & H3 & H4 & -> & D).
        cbn [List.length] in Hlen.
        destruct (IH rest' t' ltac:(lia) D) as [He Hc]. split.
        -- cbn [encoded_length List.length].
           rewrite utf8_length_3, He by lia. reflexivity.
        -- intros [H | H]; [lia | right; right; right; now apply Hc].
      * destruct Hs as (A1 & A2 & A3). intros H.
        apply decode_cont3 in H; [|lia|lia].
        destruct H as (b1 & b2 & b3 & rest' & t' & -> & H1 & H2 & H3 & H4
                       & H5 & H6 & -> & D).
        cbn [List.length] in Hlen.
        destruct (IH rest' t' ltac:(lia) D) as [He Hc]. split.
        -- cbn [encoded_length List.length].
           rewrite utf8_length_4, He by lia. reflexivity.
        -- intros [H | H]; [lia | right; right; right; right; now apply Hc].
Qed.

Lemma latin1_encoded (raw : bytes) :
  encoded_length (latin1_decode raw) = Some (List.length raw + high_bytes raw) /\
  (In 13%N (latin1_decode raw) -> In Byte.x0d raw).
Proof.
  unfold latin1_decode, high_bytes.
  induction raw as [|b raw [IH1 IH2]]; [split; [reflexivity | intros []]|].
  cbn [map encoded_length filter List.length]. rewrite IH1.
  pose proof (Byte.to_N_bounded b) as Hb. split.
  - destruct (N.leb_spec 0x80 (Byte.to_N b)).
    + rewrite utf8_length_2 by lia. cbn [List.length]. f_equal. lia.
    + rewrite utf8_length_1 by lia. f_equal.
  - intros [H | H]; [left; now rewrite (carriage_return_byte b H)
                    | right; now apply IH2].
Qed.

Lemma ascii_decodes (raw : bytes) :
  high_bytes raw = 0 -> utf8_decode raw = Some (latin1_decode raw).
Proof.
  unfold high_bytes, utf8_decode, latin1_decode.
  induction raw as [|b raw IH]; [reflexivity|].
  cbn [filter]. destruct (N.leb_spec 0x80 (Byte.to_N b)); [discriminate|].
  intros Hrest. cbn [utf8_decode_from map]. unfold start_byte.
  destruct (N.ltb_spec (Byte.to_N b) 0x80); [|lia].
  now rewrite (IH Hrest).
Qed.

Lemma universal_newlines_encoded (k : nat) :
  forall t n,
    List.length t <= k ->
    encoded_length t = Some n ->
    exists m,
      encoded_length (universal_newlines t) = Some m /\
      m + List.length t = n + List.length (universal_newlines t).
Proof.
  induction k as [|k IH]; intros t n Hlen.
  - destruct t; [|cbn in Hlen; lia]. cbn. intros [= <-]. now exists 0.
  - destruct t as [|c rest]; [cbn; intros [= <-]; now exists 0|].
    cbn [List.length] in Hlen. cbn [encoded_length universal_newlines].
    destruct (utf8_length c) as [a|] eqn:Ec; [|discriminate].
    destruct (encoded_length rest) as [r|] eqn:Er; [|discriminate].
    intros [= <-].
    destruct (N.eqb_spec c 13) as [-> | Hc].
    + cbn in Ec. injection Ec as <-.
      destruct rest as [|c' rest'].
      * cbn in Er. injection Er as <-. exists 1. split; reflexivity.
      * cbn [encoded_length] in Er.
        destruct (utf8_length c') as [a'|] eqn:Ec'; [|discriminate].
        destruct (encoded_length rest') as [r'|] eqn:Er'; [|discriminate].
        injection Er as <-. cbn [List.length] in Hlen.
        destruct (N.eqb_spec c' 10) as [-> | Hc'].
        -- cbn in Ec'. injection Ec' as <-.
           destruct (IH rest' r' ltac:(lia) Er') as (m & Hm & Hl).
           exists (1 + m). cbn [encoded_length List.length].
           rewrite Hm. split; [reflexivity | lia].
        -- destruct (IH (c' :: rest') (a' + r') ltac:(cbn [List.length]; lia))
             as (m & Hm & Hl).
           { cbn [encoded_length]. now rewrite Ec', Er'. }
           exists (1 + m). cbn [encoded_length List.length] in *.
           rewrite Hm. split; [reflexivity | lia].
    + destruct (IH rest r ltac:(lia) Er) as (m & Hm & Hl).
      exists (a + m). cbn [encoded_length List.length].
      rewrite Ec, Hm. split; [reflexivity | lia].
Qed.

Lemma universal_newlines_id (t : pystr) :
  ~ In 13%N t -> universal_newlines t = t.
Proof.
  induction t as [|c rest IH]; intros H; [reflexivity|].
  cbn [universal_newlines].
  destruct (N.eqb_spec c 13) as [-> | Hc]; [elim H; now left|].
  rewrite IH; [reflexivity|]. intros Hin. apply H. now right.
Qed.

(** X23.  The entry [file_size] is the length of the decoded text
    encoded again as UTF-8, not the size of the file.  Encoding never
    fails on the text that the loader returns.  For a file that is
    valid UTF-8 the entry is the number of bytes of the file less one
    for every line end that the loader shortened, so the size of the
    file itself when the file holds no carriage return.  For a file
    that is not valid UTF-8, which is read as Latin-1, every byte
    above [0x7F] counts twice; there is at least one, so without
    carriage returns the entry is larger than the file. *)
Theorem file_size_is_the_size_of_the_decoded_text
  (decode_cp1252 decode_utf16 : bytes -> option pystr) (raw : bytes) :
  exists content n,
    _read_file_with_encoding decode_cp1252 decode_utf16 (Ok raw) = Ok content /\
    file_size content = Ok n /\
    (forall t,
        utf8_decode raw = Some t ->
        n + List.length t = List.length raw + List.length content /\
        n <= List.length raw /\
        (~ In Byte.x0d raw -> n = List.length raw)) /\
    (utf8_decode raw = None ->
     n + List.length raw
     = List.length raw + high_bytes raw + List.length content /\
     0 < high_bytes raw /\
     (~ In Byte.x0d raw -> n = List.length raw + high_bytes raw)).
Proof.
  unfold _read_file_with_encoding. rewrite try_encodings_result.
  unfold file_size.
  destruct (utf8_decode raw) as [t|] eqn:D.
  - destruct (utf8_decode_encoded (List.length raw) raw t (le_n _) D) as [He Hc].
    destruct (universal_newlines_encoded (List.length t) t _ (le_n _) He)
      as (m & Hm & Hl).
    exists (universal_newlines t), m. rewrite Hm.
    split; [reflexivity|]. split; [reflexivity|]. split; [|discriminate].
    intros t0 [= <-].
    destruct (universal_newlines_spec (List.length t) t (le_n _)) as [_ Hle].
    split; [exact Hl|]. split; [lia|].
    intros Hcr. rewrite universal_newlines_id in Hl by tauto. lia.
  - destruct (latin1_encoded raw) as [He Hc].
    destruct (universal_newlines_encoded _ (latin1_decode raw) _ (le_n _) He)
      as (m & Hm & Hl).
    exists (universal_newlines (latin1_decode raw)), m. rewrite Hm.
    split; [reflexivity|]. split; [reflexivity|]. split; [discriminate|].
    intros _.
    assert (Hlen : List.length (latin1_decode raw) = List.length raw)
      by apply length_map.
    split; [lia|]. split.
    + destruct (high_bytes raw) eqn:E; [|lia].
      rewrite (ascii_decodes raw E) in D. discriminate.
    + intros Hcr. rewrite universal_newlines_id in Hl by tauto. lia.
Qed.

Lemma file_size_is_the_size_of_the_decoded_text_witness :
  utf8_decode [Byte.x41; Byte.xff; Byte.x42] = None /\
  exists content,
    _read_file_with_encoding no_codec no_codec (Ok [Byte.x41; Byte.xff; Byte.x42])
      = Ok content /\
    file_size content = Ok 4.
Proof.
  assert (D : utf8_decode [Byte.x41; Byte.xff; Byte.x42] = None) by reflexivity.
  split; [exact D|].
  destruct (file_size_is_the_size_of_the_decoded_text no_codec no_codec
              [Byte.x41; Byte.xff; Byte.x42])
    as (content & n & Hread & Hsize & _ & Hbad).
  destruct (Hbad D) as (_ & _ & Hn).
  exists content. split; [exact Hread|].
  rewrite Hsize. f_equal. rewrite Hn; [reflexivity|].
  cbn. intros H. repeat (destruct H as [H | H]; [discriminate|]). exact H.
Defined.

(* ================================================================== *)
(** * Notes and packages                                               *)
(* ================================================================== *)

(** X24.  [_extract_notes] returns on every node.  It returns the text
    of the first [Notes] node below the node when that [Notes] node has
    child elements.  When the first [Notes] node has none, or there is
    no [Notes] node, it returns the text of the first [Documentation]
    node anywhere below the node, whether that one has children or not;
    only without a [Documentation] node does it return the attribute
    [Notes], or the empty string. *)
Theorem notes_are_read_from_a_node_with_children (element : node) :
  exists notes,
    _extract_notes element = Ok notes /\
    (forall n,
        hd_error (select [Desc "Notes"] element) = Some n ->
        children n <> [] ->
        notes = text_or_empty (text n)) /\
    ((forall n, hd_error (select [Desc "Notes"] element) = Some n ->
                children n = []) ->
     (forall doc,
         hd_error (select [Desc "Documentation"] element) = Some doc ->
         notes = text_or_empty (text doc)) /\
     (hd_error (select [Desc "Documentation"] element) = None ->
      notes = match get element "Notes" with Some s => s | None => "" end)).
Proof.
  eexists. split; [apply extract_notes_cases|]. cbv zeta. split.
  - intros n -> Hn. destruct (children n); [congruence | reflexivity].
  - intros Hn. split.
    + intros doc ->. destruct (hd_error (select [Desc "Notes"] element)) as [n|];
        [|reflexivity]. now rewrite (Hn n eq_refl).
    + intros ->. destruct (hd_error (select [Desc "Notes"] element)) as [n|];
        [|reflexivity]. now rewrite (Hn n eq_refl).
Qed.

Lemma notes_are_read_from_a_node_with_children_witness :
  hd_error (select [Desc "Notes"] class_with_notes)
    = Some (leaf "Notes" [] (Some "own") 2) /\
  _extract_notes class_with_notes = Ok "of the operation".
Proof.
  split; [reflexivity|].
  destruct (notes_are_read_from_a_node_with_children class_with_notes)
    as (notes & -> & _ & H).
  destruct H as [H _].
  - intros n [= <-]. reflexivity.
  - now rewrite (H _ eq_refl).
Defined.

(** X25.  The collection of packages of the returned model, entry by
    entry: under a key stands the information of the last package
    candidate with that key, with the two lists that the assembler
    fills.  The candidates are all the nodes that pass the test of
    lines 194-202, so a node that is not a package but carries [Name]
    and [PackageID] takes the place of a package with the same id that
    comes before it. *)
Theorem packages_hold_the_last_candidate
  (b64decode_validate : string -> bool) (root : node) (k : ostr) :
  (forall pkg, make_pkg_info pkg = Ok (pkg_info_of pkg)) /\
  (forall s,
      _extract_packages root s
      = (fold_left (fun self pkg => record_package (pkg_info_of pkg) self)
           (filter is_package_candidate (iter root)) s,
         Ok tt)) /\
  dict_get k (packages (extract_model b64decode_validate root))
  = option_map
      (fun n =>
         with_pkg_elements
           (fun _ => members_of k (elements (extract_model b64decode_validate root)))
           (with_sub_packages
              (fun _ => children_of k (packages (extract_model b64decode_validate root)))
              (pkg_info_of n)))
      (last_with (fun n => ostr_eqb k (package_key n))
         (filter is_package_candidate (iter root))).
Proof.
  split; [exact make_pkg_info_eq|].
  split; [exact (extract_packages_fold root)|].
  fold (package_candidates root).
  destruct (extract_model_fields b64decode_validate root) as (Hpk & Hel & _).
  cbv zeta in *. rewrite Hpk, Hel.
  set (pk0 := packages_of (package_candidates root)) in *.
  set (els0 := elements_of (element_candidates root)) in *.
  assert (H0 : dict_get k pk0
               = option_map pkg_info_of
                   (last_with (fun n => ostr_eqb k (package_key n))
                      (package_candidates root))).
  { subst pk0. unfold packages_of. rewrite dict_get_stored.
    now destruct (last_with _ _). }
  destruct (last_with _ _) as [n|]; cbn [option_map] in *.
  - rewrite (link_elements_get k els0 _ _ (link_sub_packages_get k pk0 _ H0)).
    rewrite members_of_attach, children_of_link_elements,
      children_of_link_sub_packages.
    reflexivity.
  - apply (dict_get_none_keys k pk0); [|exact H0].
    now rewrite link_elements_keys, link_sub_packages_keys.
Qed.

(** ** Keys of packages and elements *)

Lemma str_of_N_not_empty (n : N) : str_of_N n <> "".
Proof.
  unfold str_of_N, NilZero.string_of_uint.
  destruct (N.to_uint n); cbn; discriminate.
Qed.

Lemma synthesized_key_truthy (a b c : ostr) (n : N) :
  truthy (a |or| b |or| c |or| Some (str_of_N n)) = true.
Proof.
  apply por_truthy. cbn [truthy].
  destruct (String.eqb (str_of_N n) "") eqn:E; [|reflexivity].
  apply String.eqb_eq in E. now apply str_of_N_not_empty in E.
Qed.

(** X26.  Every key of the packages and of the elements of the returned
    model is a string that is not empty: the first of the attributes
    [Id], [id] and [xmi.id] of a candidate node that is not empty, or,
    when all three are missing or empty, the decimal [id(node)] of that
    node. *)
Theorem package_and_element_keys_are_not_empty
  (b64decode_validate : string -> bool) (root : node) (k : ostr) :
  In k (dict_keys (packages (extract_model b64decode_validate root))) \/
  In k (dict_keys (elements (extract_model b64decode_validate root))) ->
  truthy k = true /\
  exists n,
    In n (package_candidates root ++ element_candidates root) /\
    k = (get n "Id" |or| get n "id" |or| get n "xmi.id"
         |or| Some (str_of_N (ident n))).
Proof.
  destruct (extract_model_collections b64decode_validate root)
    as (_ & Hp & _ & He & _).
  cbv zeta in *. rewrite Hp, He. clear Hp He.
  intros [H | H]; apply in_add_keys in H; destruct H as [[] | H];
    apply in_map_iff in H; destruct H as (n & <- & Hn).
  - split; [apply synthesized_key_truthy|].
    exists n. split; [apply in_or_app; now left | reflexivity].
  - split; [apply synthesized_key_truthy|].
    exists n. split; [apply in_or_app; now right | reflexivity].
Qed.

Lemma package_and_element_keys_are_not_empty_witness :
  In (Some "P3")
     (dict_keys (packages (extract_model canonical_base64 library_document))) /\
  truthy (Some "P3") = true.
Proof.
  assert (H : In (Some "P3")
                 (dict_keys (packages (extract_model canonical_base64
                                         library_document))))
    by (vm_compute; auto).
  split; [exact H|].
  exact (proj1 (package_and_element_keys_are_not_empty
                  canonical_base64 library_document (Some "P3") (or_introl H))).
Defined.
